(** * DeepShield front end: session, transport and hand-off layer

    A shallow embedding of the client logic of the DeepShield front end
    ([js/config.js] with its [AuthManager], [js/api.js], [js/app.js],
    [js/utils.js] and the stand-alone [script.js]) and the properties of
    its session life cycle, its transport client and its result hand-off.

    Conventions of the embedding.
    - JavaScript values are the inductive [JsVal]; numbers are the
      integers among the JS numbers (HTTP statuses, NumericDate seconds,
      byte sizes, percentages).
    - Strings are sequences of code units below 256.
    - The browser is a type class [Platform] ([atob], [JSON.parse],
      [JSON.stringify], string conversions); every statement holds for
      every platform, and [browser] is an executable instance on which
      concrete runs are evaluated.
    - [async] methods run to completion against a network oracle; a
      thrown exception or rejected promise is the outcome [Throw].
    - Every observable effect (network call, toast, navigation, DOM
      event, console output, timer) is appended to the trace of the
      [World]. *)

From Stdlib Require Import ZArith String Ascii List Bool Lia DecimalString
  DecimalPos DecimalFacts.
From stdpp Require Import base gmap strings list fin_maps.
Import ListNotations.

Set Warnings "-register-all".
Local Open Scope string_scope.
Local Open Scope Z_scope.

(** ** JavaScript values *)

Inductive JsVal : Type :=
| JUndefined
| JNull
| JBool (b : bool)
| JNum (n : Z)
| JStr (s : string)
| JArr (items : list JsVal)
| JObj (fields : list (string * JsVal)).

(** ToBoolean. *)
Definition truthy (v : JsVal) : bool :=
  match v with
  | JUndefined | JNull => false
  | JBool b => b
  | JNum n => negb (n =? 0)
  | JStr s => negb (String.eqb s "")
  | JArr _ | JObj _ => true
  end.

(** [a || b]. *)
Definition js_or (a b : JsVal) : JsVal := if truthy a then a else b.

Fixpoint assoc {A : Type} (k : string) (l : list (string * A)) : option A :=
  match l with
  | [] => None
  | (k', v) :: l' => if String.eqb k k' then Some v else assoc k l'
  end.

(** [v.k] for a property name [k] that no built-in prototype defines
    ([detail], [message], [exp], [access_token], [user], [email], ...):
    [None] is the TypeError of reading a property of [null] or
    [undefined]. *)
Definition prop (v : JsVal) (k : string) : option JsVal :=
  match v with
  | JUndefined | JNull => None
  | JObj fields => Some (default JUndefined (assoc k fields))
  | _ => Some JUndefined
  end.

(** [localStorage.getItem] returns a string or [null]. *)
Definition of_item (o : option string) : JsVal :=
  match o with Some s => JStr s | None => JNull end.

(** ** The browser platform *)

Class Platform : Type := {
  (** [atob]; [None] is its InvalidCharacterError. *)
  atob : string -> option string;
  (** [JSON.parse]; [None] is its SyntaxError. *)
  JSON_parse : string -> option JsVal;
  (** [JSON.stringify], on values other than [undefined]. *)
  JSON_stringify : JsVal -> string;
  (** ToString of a value that is not a string. *)
  ToString_other : JsVal -> string;
  (** StringToNumber; [None] is NaN. *)
  StringToNumber : string -> option Z;
  (** [new Date(ms).toISOString()] *)
  toISOString : Z -> string;
  (** [JSON.parse("")] throws. *)
  JSON_parse_empty : JSON_parse "" = None;
  (** [JSON.parse('{}')] is the empty object. *)
  JSON_parse_braces : JSON_parse "{}" = Some (JObj [])
}.

Section Conversions.
Context `{Platform}.

Definition ToString (v : JsVal) : string :=
    match v with JStr s => s | _ => ToString_other v end.

  (** ToNumber; [None] is NaN. Arrays and plain objects go through
      their string form. *)
Definition ToNumber (v : JsVal) : option Z :=
    match v with
    | JUndefined => None
    | JNull => Some 0
    | JBool b => Some (if b then 1 else 0)
    | JNum n => Some n
    | JStr s => StringToNumber s
    | JArr _ | JObj _ => StringToNumber (ToString_other v)
    end.

  (** [v < Date.now() / 1000] with the clock in milliseconds: a
      comparison with NaN is false. *)
Definition lt_seconds (v : JsVal) (now_ms : Z) : bool :=
    match ToNumber v with
    | Some x => x * 1000 <? now_ms
    | None => false
    end.
End Conversions.

(** ** Regular expressions (the fragment [Utils.isValidEmail] uses) *)

Module Regex.

Inductive cls : Type :=
  | OneOf (l : list ascii)
  | NoneOf (l : list ascii).

Definition mem (c : ascii) (l : list ascii) : bool :=
    existsb (Ascii.eqb c) l.

Definition cls_accepts (k : cls) (c : ascii) : bool :=
    match k with
    | OneOf l => mem c l
    | NoneOf l => negb (mem c l)
    end.

Inductive re : Type :=
  | Void
  | Eps
  | Chr (k : cls)
  | Seq (r1 r2 : re)
  | Alt (r1 r2 : re)
  | Star (r : re).

Definition Plus (r : re) : re := Seq r (Star r).

Fixpoint nullable (r : re) : bool :=
    match r with
    | Void => false
    | Eps => true
    | Chr _ => false
    | Seq r1 r2 => nullable r1 && nullable r2
    | Alt r1 r2 => nullable r1 || nullable r2
    | Star _ => true
    end.

  (** Brzozowski derivative. *)
Fixpoint deriv (c : ascii) (r : re) : re :=
    match r with
    | Void | Eps => Void
    | Chr k => if cls_accepts k c then Eps else Void
    | Seq r1 r2 =>
        Alt (Seq (deriv c r1) r2) (if nullable r1 then deriv c r2 else Void)
    | Alt r1 r2 => Alt (deriv c r1) (deriv c r2)
    | Star r1 => Seq (deriv c r1) (Star r1)
    end.

  (** [/^r$/.test(s)]. *)
Fixpoint test (r : re) (s : string) : bool :=
    match s with
    | EmptyString => nullable r
    | String c s' => test (deriv c r) s'
    end.

  (** Every word of [r] contains the character [a]. *)
Fixpoint needs (a : ascii) (r : re) : bool :=
    match r with
    | Void => true
    | Eps => false
    | Chr (OneOf l) => forallb (Ascii.eqb a) l
    | Chr (NoneOf _) => false
    | Seq r1 r2 => needs a r1 || needs a r2
    | Alt r1 r2 => needs a r1 && needs a r2
    | Star _ => false
    end.

End Regex.

(** [\s] on code units below 256: tab, line feed, vertical tab, form
    feed, carriage return, space, no-break space. *)
Definition js_whitespace : list ascii :=
  map ascii_of_nat [9; 10; 11; 12; 13; 32; 160]%nat.

(** [/^[^\s@]+@[^\s@]+\.[^\s@]+$/] *)
Definition emailRegex : Regex.re :=
  let part := Regex.Plus (Regex.Chr (Regex.NoneOf ("@"%char :: js_whitespace))) in
  Regex.Seq part
    (Regex.Seq (Regex.Chr (Regex.OneOf ["@"%char]))
       (Regex.Seq part
          (Regex.Seq (Regex.Chr (Regex.OneOf ["."%char])) part))).

Module Utils.
  (** [Utils.isValidEmail] *)
Definition isValidEmail (email : string) : bool :=
    Regex.test emailRegex email.
End Utils.

(** ** Requests, responses and errors *)

Record File : Type := { file_name : string; file_size : Z; file_type : string }.

Inductive FormValue : Type :=
| FString (s : string)
| FFile (f : File).

Definition FormData : Type := list (string * FormValue).

Inductive Body : Type :=
| BodyNone
| BodyText (s : string)
| BodyForm (fd : FormData).

Definition Headers : Type := list (string * string).

Record Request : Type := {
  url : string;
  method : option string;
  headers : Headers;
  body : Body
}.

(** The second argument of [APIClient.request]. *)
Record Options : Type := {
  opt_method : option string;
  opt_headers : option Headers;
  opt_body : Body
}.

Module Response.
Record t : Type := {
    status : Z;
    content_type : option string;   (* headers.get('content-type') *)
    text : string                    (* the body *)
  }.

  (** [response.ok]: the status is in the range 200-299. *)
Definition ok (r : t) : bool := (200 <=? status r) && (status r <=? 299).
End Response.

(** What [fetch] does with a request: it rejects (unreachable network)
    or resolves with a response, whatever its status. *)
Inductive FetchResult : Type :=
| NetworkFailure
| Responds (r : Response.t).

(** Exceptions of the platform. *)
Inductive JsError : Type :=
| TypeError
| SyntaxError
| InvalidCharacterError
| PlainError (msg : string).

Module APIError.
Inductive payload : Type :=
  | Data (d : JsVal)        (* the body of the failed response *)
  | Cause (e : JsError).    (* the exception that was wrapped *)

  (** [class APIError extends Error]; [message] is kept before its
      conversion to a string. *)
Record t : Type := {
    message : JsVal;
    status : Z;
    data : payload
  }.

Definition isNetworkError (e : t) : bool := status e =? 0.
Definition isAuthError (e : t) : bool := (status e =? 401) || (status e =? 403).
Definition isValidationError (e : t) : bool := (status e =? 400) || (status e =? 422).
Definition isRateLimitError (e : t) : bool := status e =? 429.
Definition isServerError (e : t) : bool := 500 <=? status e.
End APIError.

Inductive Exn : Type :=
| ExnAPI (e : APIError.t)
| ExnJs (e : JsError).

(** ** Configuration ([CONFIG]) *)

Module CONFIG.
Definition API_BASE_URL (hostname : string) : string :=
    if String.eqb hostname "localhost"
    then "http://localhost:8000"
    else "https://api.deepshield.com".
Definition TOKEN_KEY : string := "deepshield_token".
Definition USER_KEY : string := "deepshield_user".
Definition ERRORS_NETWORK : string :=
    "Network error. Please check your connection and try again.".
Definition MAX_FILE_SIZE : Z := 50 * 1024 * 1024.
Definition ALLOWED_IMAGE_TYPES : list string :=
    ["image/jpeg"; "image/png"; "image/gif"; "image/bmp"; "image/webp"].
Definition ALLOWED_VIDEO_TYPES : list string :=
    ["video/mp4"; "video/avi"; "video/quicktime"; "video/webm"].
Definition ERRORS_FILE_TOO_LARGE : string :=
    "File is too large. Maximum size is 50MB.".
Definition ERRORS_INVALID_FILE_TYPE : string :=
    "Invalid file type. Please upload images or videos only.".
End CONFIG.

(** ** The world: storage, in-memory objects, observable effects *)

Inductive Event : Type :=
| Fetch (req : Request)
| Toast (message : JsVal) (type : string)      (* ui.showToast *)
| ShowStatus (message : JsVal) (type : string) (* showStatus of script.js *)
| Navigate (href : string)                     (* window.location.href = ... *)
| NavigateLater (href : string) (ms : Z)       (* the same inside setTimeout *)
| Dispatch (event : string)                    (* document.dispatchEvent *)
| Console (level : string)
| UpdateUI (authenticated : bool)
| Display (result : JsVal).                    (* a results page rendering *)

Record World : Type := {
  localStorage : gmap string string;
  sessionStorage : gmap string string;
  hostname : string;              (* window.location.hostname *)
  page : string;                  (* window.location.pathname.split('/').pop() *)
  clock : Z;                      (* Date.now(), milliseconds *)
  network : list Event -> Request -> FetchResult;
  blob_url : string;              (* what URL.createObjectURL returns *)
  api_token : JsVal;              (* api.token *)
  auth_token : JsVal;             (* auth.token *)
  auth_currentUser : JsVal;       (* auth.currentUser *)
  auth_refreshTimer : bool;       (* auth.refreshTimer is set *)
  app_selectedFile : option File; (* app.selectedFile, selectedFile of script.js *)
  trace : list Event
}.

Definition set_localStorage (f : gmap string string -> gmap string string) (w : World) : World :=
  {| localStorage := f (localStorage w); sessionStorage := sessionStorage w;
     hostname := hostname w; page := page w; clock := clock w;
     network := network w; blob_url := blob_url w; api_token := api_token w;
     auth_token := auth_token w; auth_currentUser := auth_currentUser w;
     auth_refreshTimer := auth_refreshTimer w;
     app_selectedFile := app_selectedFile w; trace := trace w |}.

Definition set_sessionStorage (f : gmap string string -> gmap string string) (w : World) : World :=
  {| localStorage := localStorage w; sessionStorage := f (sessionStorage w);
     hostname := hostname w; page := page w; clock := clock w;
     network := network w; blob_url := blob_url w; api_token := api_token w;
     auth_token := auth_token w; auth_currentUser := auth_currentUser w;
     auth_refreshTimer := auth_refreshTimer w;
     app_selectedFile := app_selectedFile w; trace := trace w |}.

Definition set_api_token (v : JsVal) (w : World) : World :=
  {| localStorage := localStorage w; sessionStorage := sessionStorage w;
     hostname := hostname w; page := page w; clock := clock w;
     network := network w; blob_url := blob_url w; api_token := v;
     auth_token := auth_token w; auth_currentUser := auth_currentUser w;
     auth_refreshTimer := auth_refreshTimer w;
     app_selectedFile := app_selectedFile w; trace := trace w |}.

Definition set_auth_token (v : JsVal) (w : World) : World :=
  {| localStorage := localStorage w; sessionStorage := sessionStorage w;
     hostname := hostname w; page := page w; clock := clock w;
     network := network w; blob_url := blob_url w; api_token := api_token w;
     auth_token := v; auth_currentUser := auth_currentUser w;
     auth_refreshTimer := auth_refreshTimer w;
     app_selectedFile := app_selectedFile w; trace := trace w |}.

Definition set_auth_currentUser (v : JsVal) (w : World) : World :=
  {| localStorage := localStorage w; sessionStorage := sessionStorage w;
     hostname := hostname w; page := page w; clock := clock w;
     network := network w; blob_url := blob_url w; api_token := api_token w;
     auth_token := auth_token w; auth_currentUser := v;
     auth_refreshTimer := auth_refreshTimer w;
     app_selectedFile := app_selectedFile w; trace := trace w |}.

Definition set_auth_refreshTimer (b : bool) (w : World) : World :=
  {| localStorage := localStorage w; sessionStorage := sessionStorage w;
     hostname := hostname w; page := page w; clock := clock w;
     network := network w; blob_url := blob_url w; api_token := api_token w;
     auth_token := auth_token w; auth_currentUser := auth_currentUser w;
     auth_refreshTimer := b;
     app_selectedFile := app_selectedFile w; trace := trace w |}.

Definition set_network (f : list Event -> Request -> FetchResult) (w : World) : World :=
  {| localStorage := localStorage w; sessionStorage := sessionStorage w;
     hostname := hostname w; page := page w; clock := clock w;
     network := f; blob_url := blob_url w; api_token := api_token w;
     auth_token := auth_token w; auth_currentUser := auth_currentUser w;
     auth_refreshTimer := auth_refreshTimer w;
     app_selectedFile := app_selectedFile w; trace := trace w |}.

Definition set_app_selectedFile (f : option File) (w : World) : World :=
  {| localStorage := localStorage w; sessionStorage := sessionStorage w;
     hostname := hostname w; page := page w; clock := clock w;
     network := network w; blob_url := blob_url w; api_token := api_token w;
     auth_token := auth_token w; auth_currentUser := auth_currentUser w;
     auth_refreshTimer := auth_refreshTimer w;
     app_selectedFile := f; trace := trace w |}.

Definition emit (ev : Event) (w : World) : World :=
  {| localStorage := localStorage w; sessionStorage := sessionStorage w;
     hostname := hostname w; page := page w; clock := clock w;
     network := network w; blob_url := blob_url w; api_token := api_token w;
     auth_token := auth_token w; auth_currentUser := auth_currentUser w;
     auth_refreshTimer := auth_refreshTimer w;
     app_selectedFile := app_selectedFile w; trace := trace w ++ [ev] |}.

(** ** Computations: state and exceptions *)

Inductive Outcome (A : Type) : Type :=
| Ret (a : A)
| Throw (e : Exn).
Arguments Ret {A} a.
Arguments Throw {A} e.

Definition M (A : Type) : Type := World -> Outcome A * World.

Definition ret {A} (a : A) : M A := fun w => (Ret a, w).
Definition throw {A} (e : Exn) : M A := fun w => (Throw e, w).
Definition bind {A B} (m : M A) (k : A -> M B) : M B :=
  fun w => match m w with
           | (Ret a, w') => k a w'
           | (Throw e, w') => (Throw e, w')
           end.
(** [try { body } catch (error) { handler }]: the effects of [body] up
    to the exception stay. *)
Definition try_catch {A} (body : M A) (handler : Exn -> M A) : M A :=
  fun w => match body w with
           | (Ret a, w') => (Ret a, w')
           | (Throw e, w') => handler e w'
           end.

Notation "'let!' x := m 'in' k" := (bind m (fun x => k))
  (at level 10, x name, m at level 100, k at level 200).
Notation "m ;; k" := (bind m (fun _ => k))
  (at level 100, right associativity).

Definition act (f : World -> World) : M unit := fun w => (Ret tt, f w).
Definition read {A} (f : World -> A) : M A := fun w => (Ret (f w), w).
(** An operation of the platform that may throw. *)
Definition orThrow {A} (o : option A) (e : JsError) : M A :=
  match o with Some a => ret a | None => throw (ExnJs e) end.

Definition getItem (k : string) : M JsVal := read (fun w => of_item (localStorage w !! k)).
Definition setItem (k v : string) : M unit := act (set_localStorage (insert k v)).
Definition removeItem (k : string) : M unit := act (set_localStorage (delete k)).

(** The events of a trace that are network calls. *)
Definition is_fetch (ev : Event) : bool :=
  match ev with Fetch _ => true | _ => false end.
Definition fetches (tr : list Event) : list Event := List.filter is_fetch tr.

(** The number of [user-logout] events: [AuthManager.logout] dispatches
    exactly one per call and nothing else dispatches it. *)
Definition is_logout (ev : Event) : bool :=
  match ev with Dispatch name => String.eqb name "user-logout" | _ => false end.
Definition logouts (tr : list Event) : nat := List.length (List.filter is_logout tr).

(** [hay.includes(needle)] *)
Definition includes (needle hay : string) : bool :=
  match String.index 0 needle hay with Some _ => true | None => false end.

(** [obj[k] = v] on an object kept as an association list. *)
Fixpoint set_assoc {A : Type} (k : string) (v : A) (l : list (string * A)) : list (string * A) :=
  match l with
  | [] => [(k, v)]
  | (k', v') :: l' =>
      if String.eqb k k' then (k, v) :: l' else (k', v') :: set_assoc k v l'
  end.

(** ** [js/api.js]: the transport client *)

Module APIClient.
Section WithPlatform.
Context `{Platform}.

  (** [constructor]: [this.token = localStorage.getItem(CONFIG.TOKEN_KEY)] *)
Definition constructor : M unit :=
    let! token := getItem CONFIG.TOKEN_KEY in
    act (set_api_token token).

  (** [await fetch(url, config)]: one network round trip. *)
Definition fetch (req : Request) : M Response.t :=
    fun w =>
      match network w (trace w) req with
      | NetworkFailure => (Throw (ExnJs TypeError), emit (Fetch req) w)
      | Responds r => (Ret r, emit (Fetch req) w)
      end.

  (** The [url] and [config] that [request] hands to [fetch]: the
      headers of [options] replace the default ones, and the bearer
      token is added when one is held and no [Authorization] is given. *)
Definition config (w : World) (endpoint : string) (options : Options) : Request :=
    let headers0 :=
      match opt_headers options with
      | Some h => h
      | None => [("Content-Type", "application/json")]
      end in
    let authorization := of_item (assoc "Authorization" headers0) in
    {| url := CONFIG.API_BASE_URL (hostname w) ++ endpoint;
       method := opt_method options;
       headers :=
         if truthy (api_token w) && negb (truthy authorization)
         then set_assoc "Authorization" ("Bearer " ++ ToString (api_token w)) headers0
         else headers0;
       body := opt_body options |}.

  (** [async request(endpoint, options = {})] *)
Definition request (endpoint : string) (options : Options) : M JsVal :=
    let! config := read (fun w => config w endpoint options) in
    try_catch
      (let! response := fetch config in
       let! data :=
         match Response.content_type response with
         | Some contentType =>
             if negb (String.eqb contentType "")
                && includes "application/json" contentType
             then orThrow (JSON_parse (Response.text response)) SyntaxError
             else ret (JStr (Response.text response))
         | None => ret (JStr (Response.text response))
         end in
       if negb (Response.ok response) then
         let! detail := orThrow (prop data "detail") TypeError in
         let! message := orThrow (prop data "message") TypeError in
         throw (ExnAPI
                  {| APIError.message :=
                       js_or (js_or detail message) (JStr "Request failed");
                     APIError.status := Response.status response;
                     APIError.data := APIError.Data data |})
       else ret data)
      (fun error =>
         match error with
         | ExnAPI _ => throw error
         | ExnJs e =>
             act (emit (Console "error"));;
             throw (ExnAPI
                      {| APIError.message := JStr CONFIG.ERRORS_NETWORK;
                         APIError.status := 0;
                         APIError.data := APIError.Cause e |})
         end).

  (** [get(endpoint, params = {})] with the default [params], as every
      caller has it: the query string is empty. *)
Definition get (endpoint : string) : M JsVal :=
    request endpoint
      {| opt_method := Some "GET"; opt_headers := None; opt_body := BodyNone |}.

Definition post (endpoint : string) (data : JsVal) : M JsVal :=
    request endpoint
      {| opt_method := Some "POST"; opt_headers := None;
         opt_body := BodyText (JSON_stringify data) |}.

Definition postForm (endpoint : string) (formData : FormData) : M JsVal :=
    request endpoint
      {| opt_method := Some "POST"; opt_headers := Some [];
         opt_body := BodyForm formData |}.

Definition put (endpoint : string) (data : JsVal) : M JsVal :=
    request endpoint
      {| opt_method := Some "PUT"; opt_headers := None;
         opt_body := BodyText (JSON_stringify data) |}.

Definition setToken (token : JsVal) : M unit :=
    act (set_api_token token);;
    if truthy token
    then setItem CONFIG.TOKEN_KEY (ToString token)
    else removeItem CONFIG.TOKEN_KEY.

Definition clearAuth : M unit :=
    act (set_api_token JNull);;
    removeItem CONFIG.TOKEN_KEY;;
    removeItem CONFIG.USER_KEY.

Definition sendOTP (email : string) : M JsVal :=
    postForm "/auth/send-otp" [("email", FString email)].

Definition verifyOTP (email otp : string) : M JsVal :=
    postForm "/auth/verify-otp" [("email", FString email); ("otp", FString otp)].

Definition detectDeepfake (file : File) : M JsVal :=
    postForm "/media/detect" [("file", FFile file)].

  (** [submitComplaint(complaintData)]: the fields that are neither
      [null] nor [undefined] are appended, as strings. *)
Definition submitComplaint (complaintData : list (string * JsVal)) : M JsVal :=
    postForm "/complaints/submit"
      (omap (fun '(key, v) =>
               match v with
               | JNull | JUndefined => None
               | _ => Some (key, FString (ToString v))
               end) complaintData).

Definition getDashboard : M JsVal := get "/dashboard".
Definition getProfile : M JsVal := get "/profile".
Definition healthCheck : M JsVal := get "/health".

End WithPlatform.
End APIClient.

(** [s.split(sep)] for a one-character separator. *)
Fixpoint split (sep : ascii) (s : string) : list string :=
  match s with
  | EmptyString => [EmptyString]
  | String c s' =>
      if Ascii.eqb c sep then EmptyString :: split sep s'
      else match split sep s' with
           | p :: ps => String c p :: ps
           | [] => [String c EmptyString]
           end
  end.

(** ** [js/auth.js]: the session manager *)

Module AuthManager.
Section WithPlatform.
Context `{Platform}.

  (** [JSON.parse(atob(token.split('.')[1]))]; [None] when one of the
      steps throws ([split] on a value that is not a string, [atob],
      [JSON.parse]). *)
Definition token_payload (token : JsVal) : option JsVal :=
    match token with
    | JStr s =>
        let segment :=
          match split "." s with
          | _ :: p :: _ => JStr p
          | _ => JUndefined
          end in
        match atob (ToString segment) with
        | Some decoded => JSON_parse decoded
        | None => None
        end
    | _ => None
    end.

  (** [isTokenExpired()] *)
Definition isTokenExpired (w : World) : bool :=
    if negb (truthy (auth_token w)) then true
    else
      match token_payload (auth_token w) with
      | Some payload =>
          match prop payload "exp" with
          | Some exp => lt_seconds exp (clock w)
          | None => true
          end
      | None => true
      end.

  (** [isAuthenticated()], as a boolean. *)
Definition isAuthenticated (w : World) : bool :=
    truthy (auth_token w) && truthy (auth_currentUser w) && negb (isTokenExpired w).

Definition getCurrentUser (w : World) : JsVal := auth_currentUser w.

Definition isProtectedPage (w : World) : bool :=
    existsb (String.eqb (page w)) ["dashboard.html"; "complaint.html"; "profile.html"].

Definition updateUI : M unit :=
    act (fun w => emit (UpdateUI (isAuthenticated w)) w).

  (** [setupTokenRefresh()]: the running interval is cleared and a new
      one is started when a token is held. *)
Definition setupTokenRefresh : M unit :=
    act (fun w => set_auth_refreshTimer (truthy (auth_token w)) w).

  (** [logout()]. The listeners of [user-logout] only write to the
      console. *)
Definition logout : M unit :=
    act (set_auth_token JNull);;
    act (set_auth_currentUser JNull);;
    removeItem CONFIG.TOKEN_KEY;;
    removeItem CONFIG.USER_KEY;;
    act (set_sessionStorage (delete "otp_email"));;
    APIClient.clearAuth;;
    act (set_auth_refreshTimer false);;
    updateUI;;
    act (emit (Dispatch "user-logout"));;
    let! protected := read isProtectedPage in
    if protected then act (emit (Navigate "login.html")) else ret tt.

  (** [loadStoredAuth()] *)
Definition loadStoredAuth : M unit :=
    let! token := getItem CONFIG.TOKEN_KEY in
    let! userData := getItem CONFIG.USER_KEY in
    if truthy token && truthy userData then
      try_catch
        (act (set_auth_token token);;
         let! user := orThrow (JSON_parse (ToString userData)) SyntaxError in
         act (set_auth_currentUser user);;
         APIClient.setToken token;;
         let! expired := read isTokenExpired in
         if expired then logout else updateUI)
        (fun _ => act (emit (Console "error"));; logout)
    else ret tt.

  (** The callback of the interval of [setupTokenRefresh]. *)
Definition refresh_tick : M unit :=
    let! expired := read isTokenExpired in
    if expired then logout else ret tt.

  (** The listeners of [bindEvents]. *)
Definition on_storage (key : string) : M unit :=
    if String.eqb key CONFIG.TOKEN_KEY || String.eqb key CONFIG.USER_KEY
    then loadStoredAuth else ret tt.
Definition on_api_auth_error : M unit := logout.

Definition init : M unit :=
    loadStoredAuth;; setupTokenRefresh.

Definition constructor : M unit :=
    act (set_auth_currentUser JNull);;
    act (set_auth_token JNull);;
    act (set_auth_refreshTimer false);;
    init.

Definition handleAuthError (error : Exn) : M unit :=
    match error with
    | ExnAPI e => if APIError.isAuthError e then logout else ret tt
    | ExnJs _ => ret tt
    end.

Definition sendOTP (email : string) : M JsVal :=
    try_catch
      (let! response := APIClient.sendOTP email in
       act (set_sessionStorage (insert "otp_email" email));;
       ret response)
      (fun error => handleAuthError error;; throw error).

Definition setAuthData (token user : JsVal) : M unit :=
    act (set_auth_token token);;
    act (set_auth_currentUser user);;
    setItem CONFIG.TOKEN_KEY (ToString token);;
    setItem CONFIG.USER_KEY (JSON_stringify user);;
    APIClient.setToken token;;
    setupTokenRefresh;;
    updateUI;;
    act (emit (Dispatch "user-login")).

Definition verifyOTP (email otp : string) : M JsVal :=
    try_catch
      (let! response := APIClient.verifyOTP email otp in
       let! access_token := orThrow (prop response "access_token") TypeError in
       let! user := orThrow (prop response "user") TypeError in
       if truthy access_token && truthy user then
         setAuthData access_token user;;
         act (set_sessionStorage (delete "otp_email"));;
         ret response
       else throw (ExnJs (PlainError "Invalid response format")))
      (fun error => handleAuthError error;; throw error).

Definition requireAuth : M bool :=
    let! authenticated := read isAuthenticated in
    if negb authenticated
    then act (emit (Navigate "login.html"));; ret false
    else ret true.

Definition getStoredEmail (w : World) : JsVal :=
    of_item (sessionStorage w !! "otp_email").

End WithPlatform.
End AuthManager.

(** [{...v}]: the own enumerable properties of [v]. *)
Section Spread.
Context `{Platform}.

Fixpoint indexed {A : Type} (i : nat) (l : list A) : list (string * A) :=
    match l with
    | [] => []
    | x :: l' => (ToString_other (JNum (Z.of_nat i)), x) :: indexed (S i) l'
    end.

Definition spread (v : JsVal) : list (string * JsVal) :=
    match v with
    | JObj fields => fields
    | JArr items => indexed 0 items
    | JStr s => indexed 0 (map (fun c => JStr (String c EmptyString)) (list_ascii_of_string s))
    | _ => []
    end.

  (** [error.message] of a caught exception. *)
Definition error_message (error : Exn) : JsVal :=
    match error with
    | ExnAPI e => JStr (ToString (APIError.message e))
    | ExnJs (PlainError msg) => JStr msg
    | ExnJs TypeError => JStr "TypeError"
    | ExnJs SyntaxError => JStr "SyntaxError"
    | ExnJs InvalidCharacterError => JStr "InvalidCharacterError"
    end.
End Spread.

(** [{ name: file.name, size: file.size, type: file.type }] *)
Definition originalFile (f : File) : JsVal :=
  JObj [("name", JStr (file_name f)); ("size", JNum (file_size f));
        ("type", JStr (file_type f))].

(** ** [js/app.js]: the application *)

Module DeepShieldApp.
Section WithPlatform.
Context `{Platform}.

Definition toast (message : JsVal) (type : string) : M unit :=
    act (emit (Toast message type)).

  (** [storeResults(results)] *)
Definition storeResults (results : JsVal) : M unit :=
    setItem "detection_result" (JSON_stringify results).

  (** [getStoredResults()] *)
Definition getStoredResults : M JsVal :=
    let! stored := getItem "detection_result" in
    if truthy stored
    then orThrow (JSON_parse (ToString stored)) SyntaxError
    else ret JNull.

  (** [initResultsPage()] *)
Definition initResultsPage : M unit :=
    let! resultData := getStoredResults in
    if negb (truthy resultData)
    then act (emit (Navigate "index.html"))
    else act (emit (Display resultData)).

  (** [analyzeMedia()] *)
Definition analyzeMedia : M unit :=
    let! selected := read app_selectedFile in
    match selected with
    | None => toast (JStr "Please select a file first") "error"
    | Some file =>
        let! authenticated := read AuthManager.isAuthenticated in
        if negb authenticated then
          toast (JStr "Please log in to analyze media") "error";;
          act (emit (NavigateLater "login.html" 2000))
        else
          try_catch
            (let! response := APIClient.detectDeepfake file in
             let! fileUrl := read blob_url in
             storeResults
               (JObj (set_assoc "fileUrl" (JStr fileUrl)
                        (set_assoc "originalFile" (originalFile file)
                           (spread response))));;
             toast (JStr "Analysis complete!") "success";;
             act (emit (NavigateLater "results.html" 1000)))
            (fun error =>
               act (emit (Console "error"));;
               toast (js_or (error_message error) (JStr "Analysis failed")) "error")
    end.

  (** [sendOTP()]; [email] is the value of the [#email] input. *)
Definition sendOTP (email : string) : M unit :=
    if negb (truthy (JStr email)) || negb (Utils.isValidEmail email) then
      toast (JStr "Please enter a valid email address") "error"
    else
      try_catch
        (let! response := AuthManager.sendOTP email in
         let! message := orThrow (prop response "message") TypeError in
         toast (js_or message (JStr "OTP sent successfully")) "success";;
         let! otp := orThrow (prop response "otp") TypeError in
         if truthy otp
         then toast (JStr ("Demo OTP: " ++ ToString otp)) "info"
         else ret tt)
        (fun error =>
           act (emit (Console "error"));;
           toast (js_or (error_message error) (JStr "Failed to send OTP")) "error").

  (** [verifyOTP()]; [otpInputs] are the values of the [.otp-input]
      fields, in document order. *)
Definition verifyOTP (email : string) (otpInputs : list string) : M unit :=
    let otp := String.concat "" otpInputs in
    if negb (Nat.eqb (String.length otp) 6) then
      toast (JStr "Please enter the complete 6-digit OTP") "error"
    else
      try_catch
        (let! response := AuthManager.verifyOTP email otp in
         toast (JStr "Login successful!") "success";;
         act (emit (NavigateLater "dashboard.html" 1500)))
        (fun error =>
           act (emit (Console "error"));;
           toast (js_or (error_message error) (JStr "Invalid OTP")) "error").

  (** The rendering of [loadDashboardData]: it reads [statistics],
      [media_uploads.length] and [complaints.length]. *)
Definition renderDashboard (data : JsVal) : M unit :=
    let! statistics := orThrow (prop data "statistics") TypeError in
    let! uploads := orThrow (prop data "media_uploads") TypeError in
    let! uploads_length := orThrow (prop uploads "length") TypeError in
    let! complaints := orThrow (prop data "complaints") TypeError in
    let! complaints_length := orThrow (prop complaints "length") TypeError in
    act (emit (Display data)).

  (** [loadDashboardData()] *)
Definition loadDashboardData : M unit :=
    try_catch
      (let! data := APIClient.getDashboard in renderDashboard data)
      (fun error =>
         act (emit (Console "error"));;
         toast (JStr "Failed to load dashboard data") "error").

  (** [initDashboardPage()] *)
Definition initDashboardPage : M unit :=
    let! allowed := AuthManager.requireAuth in
    if negb allowed then ret tt else loadDashboardData.

  (** [initComplaintPage()]: the set-up after the check is empty. *)
Definition initComplaintPage : M unit :=
    let! allowed := AuthManager.requireAuth in
    ret tt.

  (** [checkAPIHealth()] *)
Definition checkAPIHealth : M unit :=
    try_catch
      (let! pong := APIClient.healthCheck in act (emit (Console "log")))
      (fun error =>
         act (emit (Console "warn"));;
         toast (JStr "API connection issues detected") "warning").

  (** The listener of [api-error] of [setupGlobalEvents]. *)
Definition on_api_error (error : APIError.t) : M unit :=
    if APIError.isAuthError error then AuthManager.logout else ret tt.

  (** [logout()], once the dialog is confirmed. *)
Definition logout_confirmed : M unit :=
    AuthManager.logout;;
    toast (JStr "Logged out successfully") "success";;
    act (emit (Navigate "index.html")).

  (** [handleFileSelection(file)]: the file is kept as it comes; the
      rest of the function renders its name, size and type. *)
Definition handleFileSelection (file : File) : M unit :=
    act (set_app_selectedFile (Some file)).

End WithPlatform.
End DeepShieldApp.

(** ** [js/utils.js] and [js/ui.js]: the checks of a chosen file *)

(** [Utils.isValidFileType] and [Utils.isValidFileSize] *)
Module FileUtils.
Definition isValidFileType (file : File) : bool :=
    existsb (String.eqb (file_type file))
      (CONFIG.ALLOWED_IMAGE_TYPES ++ CONFIG.ALLOWED_VIDEO_TYPES)%list.
Definition isValidFileSize (file : File) : bool :=
    file_size file <=? CONFIG.MAX_FILE_SIZE.
End FileUtils.

Module UIManager.
Definition showToast (message : JsVal) (type : string) : M unit :=
    act (emit (Toast message type)).

  (** [handleFileInput(input)]; [file] is [input.files[0]]. A refused
      file empties the input; an accepted one is rendered. Neither
      reaches [app.selectedFile]. *)
Definition handleFileInput (file : option File) : M unit :=
    match file with
    | None => ret tt
    | Some file =>
        if negb (FileUtils.isValidFileType file) then
          showToast (JStr CONFIG.ERRORS_INVALID_FILE_TYPE) "error"
        else if negb (FileUtils.isValidFileSize file) then
          showToast (JStr CONFIG.ERRORS_FILE_TOO_LARGE) "error"
        else ret tt
    end.
End UIManager.

(** A [change] event of [#fileInput] on a page of [js/app.js]: the
    listener that [setupFileUpload] puts on the input runs at the
    target, then the event bubbles to the listener that
    [setupGlobalEventListeners] of [js/ui.js] puts on the document. *)
Definition fileInput_change (file : option File) : M unit :=
  match file with
  | Some f => DeepShieldApp.handleFileSelection f
  | None => ret tt
  end;;
  UIManager.handleFileInput file.

(** A [drop] event on [#uploadArea]: only the listener of
    [setupFileUpload] sees the file. *)
Definition uploadArea_drop (file : option File) : M unit :=
  match file with
  | Some f => DeepShieldApp.handleFileSelection f
  | None => ret tt
  end.

(** ** [script.js]: the stand-alone pages (dashboard, results, complaint) *)

(** [s.trim()] *)
Fixpoint trim_start (l : list ascii) : list ascii :=
  match l with
  | c :: l' => if Regex.mem c js_whitespace then trim_start l' else l
  | [] => []
  end.
Definition trim (s : string) : string :=
  string_of_list_ascii
    (rev (trim_start (rev (trim_start (list_ascii_of_string s))))).

(** The fields of the complaint form that [submitComplaint] and
    [saveDraft] read from the document. *)
Record ComplaintForm : Type := {
  activeType : string;      (* dataset.type of the active type button *)
  complaintText : string;   (* the value of #complaintText *)
  recordedBlob : bool;      (* a recording exists *)
  incidentDate : string;
  sourceUrl : string;
  impactLevel : string
}.

Module Script.
Section WithPlatform.
Context `{Platform}.

Definition API_BASE_URL : string := "http://localhost:8000".

Definition showStatus (message : JsVal) (type : string) : M unit :=
    act (emit (ShowStatus message type)).

  (** [await fetch(url, { method: 'POST', body: formData })] *)
Definition post (path : string) (formData : FormData) : M Response.t :=
    APIClient.fetch
      {| url := API_BASE_URL ++ path; method := Some "POST"; headers := [];
         body := BodyForm formData |}.

  (** [await response.json()] *)
Definition json (response : Response.t) : M JsVal :=
    orThrow (JSON_parse (Response.text response)) SyntaxError.

  (** [sendOTP()] *)
Definition sendOTP (email : string) : M unit :=
    if negb (truthy (JStr email)) then
      showStatus (JStr "Please enter your email address") "error"
    else
      try_catch
        (let! response := post "/send-otp" [("email", FString email)] in
         let! data := json response in
         if Response.ok response then
           showStatus (JStr ("OTP sent to " ++ email ++ ". Check your email.")) "success";;
           let! otp := orThrow (prop data "otp") TypeError in
           if truthy otp
           then showStatus
                  (JStr ("Demo OTP: " ++ ToString otp
                         ++ " (This would be sent via email in production)")) "info"
           else ret tt
         else
           let! detail := orThrow (prop data "detail") TypeError in
           showStatus (js_or detail (JStr "Failed to send OTP")) "error")
        (fun _ => showStatus (JStr "Network error. Please try again.") "error").

  (** [verifyOTP()] *)
Definition verifyOTP (email : string) (otpInputs : list string) : M unit :=
    let otp := String.concat "" otpInputs in
    if negb (Nat.eqb (String.length otp) 6) then
      showStatus (JStr "Please enter the complete 6-digit OTP") "error"
    else
      try_catch
        (let! response :=
           post "/verify-otp" [("email", FString email); ("otp", FString otp)] in
         let! data := json response in
         if Response.ok response then
           showStatus (JStr "Login successful! Redirecting...") "success";;
           let! user_email := orThrow (prop data "email") TypeError in
           let! session_token := orThrow (prop data "session_token") TypeError in
           let! now := read clock in
           setItem "deepshield_user"
             (JSON_stringify
                (JObj [("email", user_email); ("session_token", session_token);
                       ("login_time", JStr (toISOString now))]));;
           act (emit (NavigateLater "dashboard.html" 1500))
         else
           let! detail := orThrow (prop data "detail") TypeError in
           showStatus (js_or detail (JStr "Invalid OTP")) "error")
        (fun _ => showStatus (JStr "Network error. Please try again.") "error").

  (** [JSON.parse(localStorage.getItem('deepshield_user') || '{}')] *)
Definition storedUser : M JsVal :=
    let! stored := getItem "deepshield_user" in
    orThrow (JSON_parse (ToString (js_or stored (JStr "{}")))) SyntaxError.

  (** [analyzeMedia()] *)
Definition analyzeMedia : M unit :=
    let! selected := read app_selectedFile in
    match selected with
    | None => showStatus (JStr "Please select a file first") "error"
    | Some file =>
        let! user := storedUser in
        let! user_email := orThrow (prop user "email") TypeError in
        if negb (truthy user_email) then
          showStatus (JStr "Please login first") "error";;
          act (emit (NavigateLater "login.html" 2000))
        else
          try_catch
            (let! response :=
               post "/detect"
                 [("file", FFile file); ("user_email", FString (ToString user_email))] in
             let! data := json response in
             if Response.ok response then
               let! fileUrl := read blob_url in
               setItem "detection_result"
                 (JSON_stringify
                    (JObj (set_assoc "fileUrl" (JStr fileUrl)
                             (set_assoc "originalFile" (originalFile file)
                                (spread data)))));;
               act (emit (NavigateLater "results.html" 1000))
             else
               let! detail := orThrow (prop data "detail") TypeError in
               showStatus (js_or detail (JStr "Analysis failed")) "error")
            (fun _ => showStatus (JStr "Network error. Please try again.") "error")
    end.

  (** [JSON.parse(localStorage.getItem('detection_result') || '{}')] *)
Definition storedResult : M JsVal :=
    let! stored := getItem "detection_result" in
    orThrow (JSON_parse (ToString (js_or stored (JStr "{}")))) SyntaxError.

  (** [initializeResultsPage()] *)
Definition initializeResultsPage : M unit :=
    let! resultData := storedResult in
    let! detection_result := orThrow (prop resultData "detection_result") TypeError in
    if negb (truthy detection_result)
    then act (emit (Navigate "index.html"))
    else act (emit (Display resultData)).

  (** The listener of the "analyze another" button. *)
Definition analyzeAnother : M unit :=
    removeItem "detection_result";;
    act (emit (Navigate "index.html")).

Definition optional (key value : string) : FormData :=
    if truthy (JStr value) then [(key, FString value)] else [].

  (** [submitComplaint()] *)
Definition submitComplaint (form : ComplaintForm) : M unit :=
    let! user := storedUser in
    let! user_email := orThrow (prop user "email") TypeError in
    if negb (truthy user_email) then
      showStatus (JStr "Please login first") "error";;
      act (emit (NavigateLater "login.html" 2000))
    else
      let send (text : string) : M unit :=
        try_catch
          (let! response :=
             post "/complaint"
               ([("user_email", FString (ToString user_email));
                 ("complaint_text", FString text);
                 ("complaint_type", FString (activeType form))]
                ++ optional "incident_date" (incidentDate form)
                ++ optional "source_url" (sourceUrl form)
                ++ optional "impact_level" (impactLevel form))%list in
           let! data := json response in
           if Response.ok response then act (emit (Display data))
           else
             let! detail := orThrow (prop data "detail") TypeError in
             showStatus (js_or detail (JStr "Failed to submit complaint")) "error")
          (fun _ => showStatus (JStr "Network error. Please try again.") "error") in
      if String.eqb (activeType form) "text" then
        if negb (truthy (JStr (trim (complaintText form))))
        then showStatus (JStr "Please enter your complaint details") "error"
        else send (trim (complaintText form))
      else if String.eqb (activeType form) "voice" then
        if negb (recordedBlob form)
        then showStatus (JStr "Please record your complaint first") "error"
        else send "Voice complaint recorded"
      else send "".

  (** [saveDraft()] *)
Definition saveDraft (form : ComplaintForm) : M unit :=
    let! now := read clock in
    setItem "complaint_draft"
      (JSON_stringify
         (JObj [("complaintText", JStr (complaintText form));
                ("incidentDate", JStr (incidentDate form));
                ("sourceUrl", JStr (sourceUrl form));
                ("impactLevel", JStr (impactLevel form));
                ("savedAt", JStr (toISOString now))]));;
    showStatus (JStr "Draft saved successfully") "success".

  (** [logout()] *)
Definition logout : M unit :=
    removeItem "deepshield_user";;
    removeItem "detection_result";;
    removeItem "complaint_draft";;
    act (emit (Navigate "login.html")).

Definition allowedTypes : list string :=
    ["image/jpeg"; "image/png"; "image/jpg"; "video/mp4"; "video/webm"; "video/avi"].

  (** [handleFileSelection(file)]; after the two checks the file is
      kept and rendered. *)
Definition handleFileSelection (file : File) : M unit :=
    if negb (existsb (String.eqb (file_type file)) allowedTypes) then
      showStatus
        (JStr "Unsupported file type. Please upload JPG, PNG, MP4, WebM, or AVI files.")
        "error"
    else if 50 * 1024 * 1024 <? file_size file then
      showStatus
        (JStr "File size too large. Please upload files smaller than 50MB.") "error"
    else act (set_app_selectedFile (Some file)).

End WithPlatform.
End Script.

(** ** An executable platform

    [browser] follows the browser on the integer fragment of JSON:
    [atob] is the forgiving base64 decoder, [JSON.parse] a recursive
    descent parser (number literals with a fraction or an exponent are
    outside the number model and rejected), [JSON.stringify] the
    compact printer. *)

Module Browser.

  (** The double quote, code unit 34. *)
Definition dquote : ascii := ascii_of_nat 34.

Definition Z_to_string (n : Z) : string :=
    DecimalString.NilZero.string_of_int (Z.to_int n).

Definition is_digit (c : ascii) : bool :=
    (48 <=? nat_of_ascii c)%nat && (nat_of_ascii c <=? 57)%nat.

Definition digit_value (c : ascii) : Z := Z.of_nat (nat_of_ascii c) - 48.

Fixpoint digits_value (acc : Z) (l : list ascii) : Z :=
    match l with
    | [] => acc
    | c :: l' => digits_value (acc * 10 + digit_value c) l'
    end.

Fixpoint take_digits (l : list ascii) : list ascii * list ascii :=
    match l with
    | c :: l' =>
        if is_digit c
        then let '(ds, r) := take_digits l' in (c :: ds, r)
        else ([], l)
    | [] => ([], [])
    end.

  (** *** atob *)

Definition b64_alphabet : string :=
    "ABCDEFGHIJKLMNOPQRSTUVWXYZabcdefghijklmnopqrstuvwxyz0123456789+/".

Definition b64_value (c : ascii) : option Z :=
    option_map Z.of_nat (String.index 0 (String c EmptyString) b64_alphabet).

Fixpoint b64_values (l : list ascii) : option (list Z) :=
    match l with
    | [] => Some []
    | c :: l' =>
        match b64_value c, b64_values l' with
        | Some v, Some vs => Some (v :: vs)
        | _, _ => None
        end
    end.

Definition byte (n : Z) : ascii := ascii_of_nat (Z.to_nat (n mod 256)).

Fixpoint b64_bytes (l : list Z) : list ascii :=
    match l with
    | a :: b :: c :: d :: rest =>
        let n := a * 262144 + b * 4096 + c * 64 + d in
        byte (n / 65536) :: byte (n / 256) :: byte n :: b64_bytes rest
    | [a; b; c] =>
        let n := a * 4096 + b * 64 + c in [byte (n / 1024); byte (n / 4)]
    | [a; b] => [byte ((a * 64 + b) / 16)]
    | _ => []
    end.

Definition ascii_whitespace : list ascii :=
    map ascii_of_nat [9; 10; 12; 13; 32]%nat.

Definition strip_padding (l : list ascii) : list ascii :=
    if (List.length l mod 4 =? 0)%nat then
      match rev l with
      | "="%char :: "="%char :: r => rev r
      | "="%char :: r => rev r
      | _ => l
      end
    else l.

Definition atob (s : string) : option string :=
    let l := List.filter (fun c => negb (Regex.mem c ascii_whitespace))
               (list_ascii_of_string s) in
    let l := strip_padding l in
    if (List.length l mod 4 =? 1)%nat then None
    else option_map (fun vs => string_of_list_ascii (b64_bytes vs)) (b64_values l).

  (** *** JSON.parse *)

Definition json_whitespace : list ascii :=
    map ascii_of_nat [9; 10; 13; 32]%nat.

Fixpoint skip_ws (l : list ascii) : list ascii :=
    match l with
    | c :: l' => if Regex.mem c json_whitespace then skip_ws l' else l
    | [] => []
    end.

Definition hex_value (c : ascii) : option Z :=
    option_map Z.of_nat
      (match String.index 0 (String c EmptyString) "0123456789abcdef" with
       | Some i => Some i
       | None =>
           option_map (fun i => (i + 10)%nat)
             (String.index 0 (String c EmptyString) "ABCDEF")
       end).

  (** The character an escape sequence [\e] stands for. *)
Definition unescape (e : ascii) : option ascii :=
    if Ascii.eqb e dquote then Some dquote
    else if Ascii.eqb e "\" then Some "\"%char
    else if Ascii.eqb e "/" then Some "/"%char
    else if Ascii.eqb e "b" then Some (ascii_of_nat 8)
    else if Ascii.eqb e "f" then Some (ascii_of_nat 12)
    else if Ascii.eqb e "n" then Some (ascii_of_nat 10)
    else if Ascii.eqb e "r" then Some (ascii_of_nat 13)
    else if Ascii.eqb e "t" then Some (ascii_of_nat 9)
    else None.

  (** The characters of a string literal after its opening quote. *)
Fixpoint parse_string (l : list ascii) : option (string * list ascii) :=
    match l with
    | [] => None
    | "\"%char :: "u"%char :: h1 :: h2 :: h3 :: h4 :: r =>
        match hex_value h1, hex_value h2, hex_value h3, hex_value h4, parse_string r with
        | Some 0, Some 0, Some c, Some d, Some (s, r') =>
            Some (String (byte (c * 16 + d)) s, r')
        | _, _, _, _, _ => None
        end
    | "\"%char :: e :: r =>
        match unescape e, parse_string r with
        | Some c, Some (s, r') => Some (String c s, r')
        | _, _ => None
        end
    | c :: r =>
        if Ascii.eqb c dquote then Some (EmptyString, r)
        else if (nat_of_ascii c <? 32)%nat || Ascii.eqb c "\" then None
        else match parse_string r with
             | Some (s, r') => Some (String c s, r')
             | None => None
             end
    end.

Definition ends_number (r : list ascii) : bool :=
    match r with
    | c :: _ => negb (Regex.mem c ["."; "e"; "E"]%char)
    | [] => true
    end.

Definition parse_unsigned (l : list ascii) : option (Z * list ascii) :=
    match take_digits l with
    | ([], _) => None
    | ("0"%char :: _ :: _, _) => None
    | (ds, r) => if ends_number r then Some (digits_value 0 ds, r) else None
    end.

Definition parse_number (l : list ascii) : option (Z * list ascii) :=
    match l with
    | "-"%char :: r =>
        option_map (fun '(n, r') => (- n, r')) (parse_unsigned r)
    | _ => parse_unsigned l
    end.

  (** A later member with the same key replaces the value of the
      earlier one. *)
Definition object_of (members : list (string * JsVal)) : JsVal :=
    JObj (fold_left (fun acc '(k, v) => set_assoc k v acc) members []).

Fixpoint parse_value (fuel : nat) (l : list ascii) : option (JsVal * list ascii) :=
    match fuel with
    | O => None
    | S fuel' =>
        match skip_ws l with
        | "{"%char :: r =>
            match skip_ws r with
            | "}"%char :: r' => Some (JObj [], r')
            | _ => option_map (fun '(ms, r') => (object_of ms, r'))
                     (parse_members fuel' r)
            end
        | "["%char :: r =>
            match skip_ws r with
            | "]"%char :: r' => Some (JArr [], r')
            | _ => option_map (fun '(vs, r') => (JArr vs, r'))
                     (parse_elements fuel' r)
            end
        | "n"%char :: "u"%char :: "l"%char :: "l"%char :: r => Some (JNull, r)
        | "t"%char :: "r"%char :: "u"%char :: "e"%char :: r => Some (JBool true, r)
        | "f"%char :: "a"%char :: "l"%char :: "s"%char :: "e"%char :: r =>
            Some (JBool false, r)
        | c :: r =>
            if Ascii.eqb c dquote
            then option_map (fun '(s, r') => (JStr s, r')) (parse_string r)
            else option_map (fun '(n, r') => (JNum n, r')) (parse_number (c :: r))
        | [] => None
        end
    end
with parse_members (fuel : nat) (l : list ascii)
    : option (list (string * JsVal) * list ascii) :=
    match fuel with
    | O => None
    | S fuel' =>
        match skip_ws l with
        | c :: r =>
            if negb (Ascii.eqb c dquote) then None else
            match parse_string r with
            | Some (k, r1) =>
                match skip_ws r1 with
                | ":"%char :: r2 =>
                    match parse_value fuel' r2 with
                    | Some (v, r3) =>
                        match skip_ws r3 with
                        | ","%char :: r4 =>
                            option_map (fun '(ms, r5) => ((k, v) :: ms, r5))
                              (parse_members fuel' r4)
                        | "}"%char :: r4 => Some ([(k, v)], r4)
                        | _ => None
                        end
                    | None => None
                    end
                | _ => None
                end
            | None => None
            end
        | [] => None
        end
    end
with parse_elements (fuel : nat) (l : list ascii)
    : option (list JsVal * list ascii) :=
    match fuel with
    | O => None
    | S fuel' =>
        match parse_value fuel' l with
        | Some (v, r1) =>
            match skip_ws r1 with
            | ","%char :: r2 =>
                option_map (fun '(vs, r3) => (v :: vs, r3))
                  (parse_elements fuel' r2)
            | "]"%char :: r2 => Some ([v], r2)
            | _ => None
            end
        | None => None
        end
    end.

Definition JSON_parse (s : string) : option JsVal :=
    let l := list_ascii_of_string s in
    match parse_value (2 * List.length l + 2) l with
    | Some (v, r) => match skip_ws r with [] => Some v | _ => None end
    | None => None
    end.

  (** *** JSON.stringify *)

Definition hex_digit (n : Z) : ascii :=
    match String.get (Z.to_nat n) "0123456789abcdef" with
    | Some c => c
    | None => "0"%char
    end.

Definition escape (c : ascii) : string :=
    if Ascii.eqb c dquote then String "\" (String dquote EmptyString)
    else if Ascii.eqb c "\" then "\\"
    else if (nat_of_ascii c =? 8)%nat then "\b"
    else if (nat_of_ascii c =? 12)%nat then "\f"
    else if (nat_of_ascii c =? 10)%nat then "\n"
    else if (nat_of_ascii c =? 13)%nat then "\r"
    else if (nat_of_ascii c =? 9)%nat then "\t"
    else if (nat_of_ascii c <? 32)%nat then
      let n := Z.of_nat (nat_of_ascii c) in
      "\u00" ++ String (hex_digit (n / 16)) (String (hex_digit (n mod 16)) EmptyString)
    else String c EmptyString.

Definition quote (s : string) : string :=
    String dquote
      (String.concat EmptyString (map escape (list_ascii_of_string s))
       ++ String dquote EmptyString).

  (** A value inside an array or an object: [undefined] in an array is
      printed [null], a member whose value is [undefined] is left out. *)
Fixpoint stringify (v : JsVal) : string :=
    match v with
    | JUndefined | JNull => "null"
    | JBool true => "true"
    | JBool false => "false"
    | JNum n => Z_to_string n
    | JStr s => quote s
    | JArr items =>
        "[" ++ String.concat ","
                 ((fix each (l : list JsVal) : list string :=
                     match l with
                     | [] => []
                     | x :: l' => stringify x :: each l'
                     end) items) ++ "]"
    | JObj fields =>
        "{" ++ String.concat ","
                 ((fix each (l : list (string * JsVal)) : list string :=
                     match l with
                     | [] => []
                     | (k, JUndefined) :: l' => each l'
                     | (k, x) :: l' => (quote k ++ ":" ++ stringify x) :: each l'
                     end) fields) ++ "}"
    end.

  (** [JSON.stringify(undefined)] is [undefined], which a string context
      turns into the text [undefined]. *)
Definition JSON_stringify (v : JsVal) : string :=
    match v with
    | JUndefined => "undefined"
    | _ => stringify v
    end.

  (** *** String conversions *)

Fixpoint ToString_other (v : JsVal) : string :=
    match v with
    | JUndefined => "undefined"
    | JNull => "null"
    | JBool true => "true"
    | JBool false => "false"
    | JNum n => Z_to_string n
    | JStr s => s
    | JArr items =>
        String.concat ","
          ((fix each (l : list JsVal) : list string :=
              match l with
              | [] => []
              | JUndefined :: l' | JNull :: l' => EmptyString :: each l'
              | x :: l' => ToString_other x :: each l'
              end) items)
    | JObj _ => "[object Object]"
    end.

  (** StringToNumber on integer literals; the empty string is 0. *)
Definition StringToNumber (s : string) : option Z :=
    let l := rev (trim_start (rev (trim_start (list_ascii_of_string s)))) in
    let unsigned (ds : list ascii) : option Z :=
      match take_digits ds with
      | ((_ :: _) as ds', []) => Some (digits_value 0 ds')
      | _ => None
      end in
    match l with
    | [] => Some 0
    | "-"%char :: r => option_map Z.opp (unsigned r)
    | "+"%char :: r => unsigned r
    | _ => unsigned l
    end.

  (** *** Date.prototype.toISOString, for the years 0000 to 9999 *)

Definition pad (width : nat) (s : string) : string :=
    String.concat EmptyString (repeat "0" (width - String.length s)) ++ s.

Definition toISOString (ms : Z) : string :=
    let days := ms / 86400000 in
    let rest := ms mod 86400000 in
    let z := days + 719468 in
    let era := z / 146097 in
    let doe := z mod 146097 in
    let yoe := (doe - doe / 1460 + doe / 36524 - doe / 146096) / 365 in
    let doy := doe - (365 * yoe + yoe / 4 - yoe / 100) in
    let mp := (5 * doy + 2) / 153 in
    let d := doy - (153 * mp + 2) / 5 + 1 in
    let m := if mp <? 10 then mp + 3 else mp - 9 in
    let y := yoe + era * 400 + (if m <=? 2 then 1 else 0) in
    pad 4 (Z_to_string y) ++ "-" ++ pad 2 (Z_to_string m) ++ "-"
    ++ pad 2 (Z_to_string d) ++ "T"
    ++ pad 2 (Z_to_string (rest / 3600000)) ++ ":"
    ++ pad 2 (Z_to_string (rest / 60000 mod 60)) ++ ":"
    ++ pad 2 (Z_to_string (rest / 1000 mod 60)) ++ "."
    ++ pad 3 (Z_to_string (rest mod 1000)) ++ "Z".

End Browser.

#[export] Instance browser : Platform := {|
  atob := Browser.atob;
  JSON_parse := Browser.JSON_parse;
  JSON_stringify := Browser.JSON_stringify;
  ToString_other := Browser.ToString_other;
  StringToNumber := Browser.StringToNumber;
  toISOString := Browser.toISOString;
  JSON_parse_empty := eq_refl;
  JSON_parse_braces := eq_refl
|}.

(** * Specification-side definitions, frames and concrete worlds *)

Module RegexFacts.

  (** [s] has no occurrence of [a]. *)
Fixpoint lacks (a : ascii) (s : string) : bool :=
    match s with
    | EmptyString => true
    | String c s' => negb (Ascii.eqb c a) && lacks a s'
    end.

(** The words of a regular expression. *)
Inductive matches : Regex.re -> string -> Prop :=
| matches_eps : matches Regex.Eps ""
| matches_chr k c :
    Regex.cls_accepts k c = true -> matches (Regex.Chr k) (String c "")
| matches_seq r1 r2 s1 s2 :
    matches r1 s1 -> matches r2 s2 -> matches (Regex.Seq r1 r2) (s1 ++ s2)
| matches_alt_l r1 r2 s : matches r1 s -> matches (Regex.Alt r1 r2) s
| matches_alt_r r1 r2 s : matches r2 s -> matches (Regex.Alt r1 r2) s
| matches_star_nil r : matches (Regex.Star r) ""
| matches_star_app r s1 s2 :
    matches r s1 -> matches (Regex.Star r) s2 -> matches (Regex.Star r) (s1 ++ s2).

(** No character of [s] is white space or an at sign. *)
Fixpoint plain (s : string) : bool :=
  match s with
  | EmptyString => true
  | String c s' => negb (Regex.mem c ("@"%char :: js_whitespace)) && plain s'
  end.

(** An address in the words of the pattern: a local part, an at sign,
    and a domain with a dot inside; each part is not empty and has
    neither white space nor an at sign. *)
Definition address (email : string) : Prop :=
  exists name host tld,
    email = name ++ "@" ++ host ++ "." ++ tld
    /\ name <> "" /\ host <> "" /\ tld <> ""
    /\ plain name = true /\ plain host = true /\ plain tld = true.

(** The words of [[^\s@]+]. *)
Definition part : Regex.re :=
  Regex.Plus (Regex.Chr (Regex.NoneOf ("@"%char :: js_whitespace))).

End RegexFacts.

(** ** JSON values and their text *)

Module JsonFacts.

(** The code units of a string. *)
Definition chars (s : string) : list ascii := list_ascii_of_string s.

(** A value that JSON can carry: no [undefined] in it, and no key
    twice in an object. *)
Fixpoint json_value (v : JsVal) : bool :=
  match v with
  | JUndefined => false
  | JNull | JBool _ | JNum _ | JStr _ => true
  | JArr items =>
      (fix all (l : list JsVal) : bool :=
         match l with
         | [] => true
         | x :: l' => json_value x && all l'
         end) items
  | JObj fields =>
      (fix all (l : list (string * JsVal)) : bool :=
         match l with
         | [] => true
         | (k, x) :: l' =>
             json_value x
             && negb (existsb (fun m => String.eqb k (fst m)) l')
             && all l'
         end) fields
  end.

(** The number of nodes of a value, its members counted once more. *)
Fixpoint size (v : JsVal) : nat :=
  match v with
  | JArr items =>
      S ((fix sum (l : list JsVal) : nat :=
            match l with
            | [] => O
            | x :: l' => S (size x + sum l')
            end) items)
  | JObj fields =>
      S ((fix sum (l : list (string * JsVal)) : nat :=
            match l with
            | [] => O
            | (_, x) :: l' => S (size x + sum l')
            end) fields)
  | _ => 1%nat
  end.

(** The texts of the elements of an array, or of the members of an
    object, with the commas between them and the closing bracket. *)
Fixpoint elements_text (texts : list (list ascii)) (close : ascii) (rest : list ascii)
  : list ascii :=
  match texts with
  | [] => close :: rest
  | t :: ts =>
      match ts with
      | [] => (t ++ close :: rest)%list
      | _ => (t ++ ","%char :: elements_text ts close rest)%list
      end
  end.

(** What may follow a value: nothing, a comma or a closing bracket. *)
Definition delim (rest : list ascii) : bool :=
  match rest with
  | [] => true
  | c :: _ => Regex.mem c [","; "]"; "}"]%char
  end.

Definition member_text (m : string * JsVal) : list ascii :=
  (chars (Browser.quote (fst m)) ++ ":"%char :: chars (Browser.stringify (snd m)))%list.

Fixpoint size_items (l : list JsVal) : nat :=
  match l with
  | [] => O
  | x :: l' => S (size x + size_items l')
  end.

Fixpoint size_members (l : list (string * JsVal)) : nat :=
  match l with
  | [] => O
  | m :: l' => S (size (snd m) + size_members l')
  end.

Fixpoint distinct_keys (l : list (string * JsVal)) : bool :=
  match l with
  | [] => true
  | m :: l' =>
      negb (existsb (fun m' => String.eqb (fst m) (fst m')) l') && distinct_keys l'
  end.

(** What follows is no digit. *)
Definition not_digit (rest : list ascii) : Prop :=
  match rest with
  | [] => True
  | c :: _ => Browser.is_digit c = false
  end.

End JsonFacts.

(** The coarse kinds of the specification. *)
Inductive ErrorKind : Type :=
| Network | Authentication | Validation | RateLimited | ServerFault | Unknown.

(** The rule table, in the words of the specification: HTTP 0 or
    unreachable is Network; 401 and 403 Authentication; 400 and 422
    Validation; 429 RateLimited; 500 and above ServerFault; anything
    else Unknown. *)
Definition spec_kind (status : Z) : ErrorKind :=
  if status =? 0 then Network
  else if (status =? 401) || (status =? 403) then Authentication
  else if (status =? 400) || (status =? 422) then Validation
  else if status =? 429 then RateLimited
  else if 500 <=? status then ServerFault
  else Unknown.

(** What the code says of an error for each kind: the named predicate
    of [APIError], and for Unknown that none of them holds. *)
Definition holds (k : ErrorKind) (e : APIError.t) : bool :=
  match k with
  | Network => APIError.isNetworkError e
  | Authentication => APIError.isAuthError e
  | Validation => APIError.isValidationError e
  | RateLimited => APIError.isRateLimitError e
  | ServerFault => APIError.isServerError e
  | Unknown =>
      negb (APIError.isNetworkError e || APIError.isAuthError e
            || APIError.isValidationError e || APIError.isRateLimitError e
            || APIError.isServerError e)
  end.

Class Frame (R : World -> World -> Prop) : Prop := {
  frame_refl : forall w, R w w;
  frame_trans : forall w1 w2 w3, R w1 w2 -> R w2 w3 -> R w1 w3
}.

(** A projection of the world that keeps its value. *)
Definition unchanged {A : Type} (f : World -> A) : World -> World -> Prop :=
  fun w w' => f w' = f w.

(** A property of the world that, once true, stays true. *)
Definition stable (I : World -> Prop) : World -> World -> Prop :=
  fun w w' => I w -> I w'.

Definition keeps (R : World -> World -> Prop) {A : Type} (m : M A) : Prop :=
  forall w, R w (snd (m w)).

Definition network_error (cause : JsError) : APIError.t :=
    {| APIError.message := JStr CONFIG.ERRORS_NETWORK;
       APIError.status := 0;
       APIError.data := APIError.Cause cause |}.

  (** The outcomes a caller of the transport client can see: a value or
      an [APIError], never another exception. *)
Definition value_or_APIError {A : Type} (o : Outcome A) : Prop :=
    match o with
    | Ret _ | Throw (ExnAPI _) => True
    | Throw (ExnJs _) => False
    end.

(** The body of a response as [request] reads it: [response.json()]
    when the content type names JSON, [response.text()] otherwise;
    [None] is the SyntaxError of [response.json()]. *)
Definition response_data `{Platform} (r : Response.t) : option JsVal :=
  match Response.content_type r with
  | Some contentType =>
      if negb (String.eqb contentType "") && includes "application/json" contentType
      then JSON_parse (Response.text r)
      else Some (JStr (Response.text r))
  | None => Some (JStr (Response.text r))
  end.

(** An error has the coarse kind [kind] and no other. *)
Definition classified (e : APIError.t) (kind : ErrorKind) : Prop :=
  forall k, holds k e = true <-> k = kind.

Definition offline : list Event -> Request -> FetchResult :=
  fun _ _ => NetworkFailure.

Definition answering (r : Response.t) : list Event -> Request -> FetchResult :=
  fun _ _ => Responds r.

(** A first visit: empty storage, nothing held in memory. *)
Definition visitor (page : string) (net : list Event -> Request -> FetchResult) : World :=
  {| localStorage := ∅; sessionStorage := ∅;
     hostname := "localhost"; page := page; clock := 1700000000000;
     network := net; blob_url := "blob:http://localhost/0001";
     api_token := JNull; auth_token := JNull; auth_currentUser := JNull;
     auth_refreshTimer := false; app_selectedFile := None; trace := [] |}.

(** A JSON response. *)
Definition json_response (status : Z) (data : JsVal) : Response.t :=
  {| Response.status := status;
     Response.content_type := Some "application/json";
     Response.text := Browser.JSON_stringify data |}.

(** No network call is added. *)
Definition no_fetch : World -> World -> Prop :=
  unchanged (fun w => fetches (trace w)).

(** No [user-logout] is added. *)
Definition no_logout : World -> World -> Prop :=
  unchanged (fun w => logouts (trace w)).

(** What [logout] leaves behind: the two session keys and the pending
    identifier are removed, the in-memory session is dropped, the
    interface is redrawn, [user-logout] is dispatched once, and a
    protected page navigates to the login page. Nothing else changes. *)
Definition logged_out (w : World) : World :=
  let cleared :=
    {| localStorage :=
         delete CONFIG.USER_KEY
           (delete CONFIG.TOKEN_KEY
              (delete CONFIG.USER_KEY (delete CONFIG.TOKEN_KEY (localStorage w))));
       sessionStorage := delete "otp_email" (sessionStorage w);
       hostname := hostname w; page := page w; clock := clock w;
       network := network w; blob_url := blob_url w;
       api_token := JNull; auth_token := JNull; auth_currentUser := JNull;
       auth_refreshTimer := false;
       app_selectedFile := app_selectedFile w;
       trace := ((trace w ++ [UpdateUI false]) ++ [Dispatch "user-logout"])%list |} in
  if AuthManager.isProtectedPage w
  then emit (Navigate "login.html") cleared
  else cleared.

(** A 401 answer with a plain-text body. *)
Definition unauthorized : Response.t :=
  {| Response.status := 401;
     Response.content_type := None;
     Response.text := "Unauthorized" |}.

(** The complaint of the examples. *)
Definition complaint : list (string * JsVal) :=
  [("complaint_text", JStr "A manipulated video of me is being shared");
   ("complaint_type", JStr "text"); ("incident_date", JNull)].

(** The complaint form of the examples. *)
Definition complaint_form : ComplaintForm :=
  {| activeType := "text";
     complaintText := "A manipulated video of me is being shared";
     recordedBlob := false; incidentDate := "2023-11-14";
     sourceUrl := EmptyString; impactLevel := "high" |}.

(** A tab that holds a token and a user. *)
Definition member (token : string) (now : Z) : World :=
  set_auth_currentUser (JObj [("email", JStr "user@example.com")])
    (set_auth_token (JStr token)
       {| localStorage := ∅; sessionStorage := ∅;
          hostname := "localhost"; page := "index.html"; clock := now;
          network := offline; blob_url := "blob:http://localhost/0001";
          api_token := JStr token; auth_token := JNull; auth_currentUser := JNull;
          auth_refreshTimer := true; app_selectedFile := None; trace := [] |}).

(** [header.payload.signature] with the payload [{"exp":1700000000}]. *)
Definition token_exp_1700000000 : string := "eyJhbGciOiJIUzI1NiJ9.eyJleHAiOjE3MDAwMDAwMDB9.c2ln".

(** [header.payload.signature] with the payload [{}]. *)
Definition token_without_exp : string := "eyJhbGciOiJIUzI1NiJ9.e30.c2ln".

(** The expiry of the held credential: the [exp] of its payload, when
    the payload can be parsed and [exp] is a number. *)
Definition expiresAt `{Platform} (w : World) : option Z :=
  match AuthManager.token_payload (auth_token w) with
  | Some payload =>
      match prop payload "exp" with
      | Some (JNum n) => Some n
      | _ => None
      end
  | None => None
  end.

(** [isValid()] in the words of the specification: a session is
    present and its [expiresAt] is strictly greater than the current
    time; without a parseable expiry it is invalid. *)
Definition spec_isValid `{Platform} (w : World) : bool :=
  truthy (auth_token w) && truthy (auth_currentUser w)
  && match expiresAt w with
     | Some n => clock w <? n * 1000
     | None => false
     end.

(** A page load: storage stays, the objects in memory are new, and the
    scripts of the page build [api] and [auth] again. *)
Definition new_page (page : string) (w : World) : World :=
  {| localStorage := localStorage w; sessionStorage := sessionStorage w;
     hostname := hostname w; page := page; clock := clock w;
     network := network w; blob_url := blob_url w;
     api_token := JNull; auth_token := JNull; auth_currentUser := JNull;
     auth_refreshTimer := false; app_selectedFile := None; trace := trace w |}.

Definition load_scripts `{Platform} : M unit :=
  APIClient.constructor;; AuthManager.constructor.

Definition navigate `{Platform} (page : string) (w : World) : World :=
  snd (load_scripts (new_page page w)).

(** A result as [analyzeMedia] publishes it. *)
Definition deepfake_result : JsVal :=
  JObj [("detection_result", JStr "Deepfake"); ("confidence_score", JNum 92);
        ("originalFile",
         JObj [("name", JStr "clip.mp4"); ("size", JNum 1048576);
               ("type", JStr "video/mp4")]);
        ("fileUrl", JStr "blob:http://localhost/0001")].

(** The value at a key of [localStorage] stays. *)
Definition same_item (k : string) : World -> World -> Prop :=
  unchanged (fun w => localStorage w !! k).

(** Something is stored under the key. *)
Definition stored (k : string) (w : World) : bool :=
  match localStorage w !! k with Some _ => true | None => false end.

(** The credential and the identity are stored together or not at all. *)
Definition paired (w : World) : Prop :=
  stored CONFIG.TOKEN_KEY w = stored CONFIG.USER_KEY w.

(** The expiry of the stored credential, when it has a readable one. *)
Definition stored_expiry `{Platform} (w : World) : option Z :=
  match localStorage w !! CONFIG.TOKEN_KEY with
  | Some t =>
      match AuthManager.token_payload (JStr t) with
      | Some payload =>
          match prop payload "exp" with
          | Some (JNum n) => Some n
          | _ => None
          end
      | None => None
      end
  | None => None
  end.

(** The invariant in the words of the specification: the session is
    fully present (credential, identity and a valid expiry) or fully
    absent. *)
Definition session_fully_present `{Platform} (w : World) : bool :=
  stored CONFIG.TOKEN_KEY w && stored CONFIG.USER_KEY w
  && match stored_expiry w with
     | Some n => clock w <? n * 1000
     | None => false
     end.

Definition session_fully_absent `{Platform} (w : World) : bool :=
  negb (stored CONFIG.TOKEN_KEY w) && negb (stored CONFIG.USER_KEY w).

Definition spec_all_or_nothing `{Platform} (w : World) : bool :=
  session_fully_present w || session_fully_absent w.

(** A server that accepts the passcode and issues [token]. *)
Definition accepting (token : string) : list Event -> Request -> FetchResult :=
  answering
    (json_response 200
       (JObj [("access_token", JStr token);
              ("user", JObj [("email", JStr "user@example.com")])])).

(** * Properties *)

Example isValidEmail_ok : Utils.isValidEmail "user@example.com" = true.
Proof. reflexivity. Qed.
Example isValidEmail_no_at : Utils.isValidEmail "user.example.com" = false.
Proof. reflexivity. Qed.
Example isValidEmail_no_dot : Utils.isValidEmail "user@example" = false.
Proof. reflexivity. Qed.
Example isValidEmail_space : Utils.isValidEmail "us er@example.com" = false.
Proof. reflexivity. Qed.

(** ** Regular expressions: a word without a required character *)

Module RegexLemmas.
Import Regex.
Import RegexFacts.

Lemma needs_not_nullable (a : ascii) (r : re) :
    needs a r = true -> nullable r = false.
Proof.
    induction r as [| |k|r1 IH1 r2 IH2|r1 IH1 r2 IH2|r IH]; simpl; intros Hn;
      try discriminate; try reflexivity.
    - apply orb_true_iff in Hn as [Hn|Hn].
      + rewrite (IH1 Hn). reflexivity.
      + rewrite (IH2 Hn). apply andb_false_r.
    - apply andb_true_iff in Hn as [Hn1 Hn2].
      rewrite (IH1 Hn1), (IH2 Hn2). reflexivity.
Qed.

Lemma mem_only (a c : ascii) (l : list ascii) :
    forallb (Ascii.eqb a) l = true -> c <> a -> mem c l = false.
Proof.
    intros Hall Hne. unfold mem. induction l as [|x l IH]; simpl in *.
    - reflexivity.
    - apply andb_true_iff in Hall as [Hx Hl].
      apply Ascii.eqb_eq in Hx. subst x.
      rewrite (IH Hl). destruct (Ascii.eqb_spec c a); [contradiction|reflexivity].
Qed.

Lemma needs_deriv (a c : ascii) (r : re) :
    c <> a -> needs a r = true -> needs a (deriv c r) = true.
Proof.
    intros Hne.
    induction r as [| |k|r1 IH1 r2 IH2|r1 IH1 r2 IH2|r IH]; simpl; intros Hn;
      try discriminate; try reflexivity.
    - destruct k as [l|l]; simpl in *; [|discriminate].
      rewrite (mem_only a c l Hn Hne). reflexivity.
    - apply orb_true_iff in Hn as [Hn|Hn].
      + rewrite (IH1 Hn), (needs_not_nullable a r1 Hn). reflexivity.
      + rewrite Hn, orb_true_r. simpl.
        destruct (nullable r1); [apply (IH2 Hn)|reflexivity].
    - apply andb_true_iff in Hn as [Hn1 Hn2].
      rewrite (IH1 Hn1), (IH2 Hn2). reflexivity.
Qed.

Lemma test_lacks (a : ascii) (s : string) :
    forall r, needs a r = true -> lacks a s = true -> test r s = false.
Proof.
    induction s as [|c s IH]; simpl; intros r Hn Hl.
    - apply (needs_not_nullable a r Hn).
    - apply andb_true_iff in Hl as [Hc Hl].
      apply IH; [|exact Hl].
      apply needs_deriv; [|exact Hn].
      intros ->. rewrite Ascii.eqb_refl in Hc. discriminate.
Qed.
End RegexLemmas.

(** [Utils.isValidEmail] refuses every string without an [@]; the empty
    string is one. *)
Lemma isValidEmail_needs_at (email : string) :
  RegexFacts.lacks "@" email = true -> Utils.isValidEmail email = false.
Proof.
  intros Hl. unfold Utils.isValidEmail.
  apply (RegexLemmas.test_lacks "@"); [reflexivity|exact Hl].
Qed.

(** ** Traces *)

Lemma fetches_app (t1 t2 : list Event) :
  fetches (t1 ++ t2) = (fetches t1 ++ fetches t2)%list.
Proof. unfold fetches. apply List.filter_app. Qed.

Lemma logouts_app (t1 t2 : list Event) :
  logouts (t1 ++ t2) = (logouts t1 + logouts t2)%nat.
Proof. unfold logouts. rewrite List.filter_app, List.length_app. reflexivity. Qed.

(** ** The classification of errors *)

(** For every error value and every coarse kind, the predicate of the
    code for that kind holds exactly when the rule table gives that
    kind to the status the error carries: 0 is Network, 401 and 403
    Authentication, 400 and 422 Validation, 429 RateLimited, 500 and
    above ServerFault, and for every other status none of the named
    predicates holds. *)
Lemma predicates_follow_rule_table :
  forall (e : APIError.t) (k : ErrorKind),
    holds k e = true <-> spec_kind (APIError.status e) = k.
Proof.
  intros [m s d] k.
  unfold holds, spec_kind, APIError.isNetworkError, APIError.isAuthError,
    APIError.isValidationError, APIError.isRateLimitError,
    APIError.isServerError; simpl.
  destruct (Z.eqb_spec s 0), (Z.eqb_spec s 401), (Z.eqb_spec s 403),
    (Z.eqb_spec s 400), (Z.eqb_spec s 422), (Z.eqb_spec s 429),
    (Z.leb_spec 500 s); try lia; destruct k; simpl;
    split; intros Hk; try reflexivity; try discriminate.
Qed.

(** ** Frames: what a computation leaves as it is *)

#[export] Instance unchanged_frame {A : Type} (f : World -> A) : Frame (unchanged f).
Proof.
  split; unfold unchanged.
  - reflexivity.
  - intros w1 w2 w3 H12 H23. congruence.
Qed.

#[export] Instance stable_frame (I : World -> Prop) : Frame (stable I).
Proof. split; unfold stable; auto. Qed.

Section FrameRules.
Context (R : World -> World -> Prop) `{!Frame R}.

Lemma keeps_ret {A} (a : A) : keeps R (ret a).
Proof. intros w. apply frame_refl. Qed.

Lemma keeps_throw {A} (e : Exn) : keeps R (@throw A e).
Proof. intros w. apply frame_refl. Qed.

Lemma keeps_read {A} (f : World -> A) : keeps R (read f).
Proof. intros w. apply frame_refl. Qed.

Lemma keeps_orThrow {A} (o : option A) (e : JsError) : keeps R (orThrow o e).
Proof. destruct o; [apply keeps_ret|apply keeps_throw]. Qed.

Lemma keeps_act (f : World -> World) :
    (forall w, R w (f w)) -> keeps R (act f).
Proof. intros Hf w. apply Hf. Qed.

Lemma keeps_bind {A B} (m : M A) (k : A -> M B) :
    keeps R m -> (forall a, keeps R (k a)) -> keeps R (bind m k).
Proof.
    intros Hm Hk w. unfold bind. specialize (Hm w).
    destruct (m w) as [[a|e] w1]; simpl in *.
    - eapply frame_trans; [exact Hm|apply Hk].
    - exact Hm.
Qed.

Lemma keeps_try_catch {A} (body : M A) (handler : Exn -> M A) :
    keeps R body -> (forall e, keeps R (handler e)) -> keeps R (try_catch body handler).
Proof.
    intros Hb Hh w. unfold try_catch. specialize (Hb w).
    destruct (body w) as [[a|e] w1]; simpl in *.
    - exact Hb.
    - eapply frame_trans; [exact Hb|apply Hh].
Qed.
End FrameRules.

(** The rules applied along the structure of a computation; what is
    left are the primitive steps and the calls. *)
Ltac frame_step :=
  first
    [ apply keeps_bind; [try typeclasses eauto| |intros ?]
    | apply keeps_try_catch; [try typeclasses eauto| |intros ?]
    | apply keeps_ret; try typeclasses eauto
    | apply keeps_throw; try typeclasses eauto
    | apply keeps_read; try typeclasses eauto
    | apply keeps_orThrow; try typeclasses eauto
    | match goal with
      | |- keeps _ (if ?b then _ else _) => destruct b
      | |- keeps _ (match ?x with _ => _ end) => destruct x
      end ].
Ltac frame := repeat frame_step.

(** ** The transport client: one round trip, one kind of failure *)

Section Transport.
Context `{Platform}.

  (** Every run of [request] makes exactly one network call, with the
      configuration built from the options and the held token, and ends
      in one of three ways: the data of a response with a success
      status; an [APIError] that carries the status of a response
      without one; an [APIError] of status 0 that wraps whatever else
      went wrong. *)
Lemma request_run (endpoint : string) (options : Options) (w : World) :
    let cfg := APIClient.config w endpoint options in
    (exists data r,
        network w (trace w) cfg = Responds r /\ Response.ok r = true /\
        APIClient.request endpoint options w = (Ret data, emit (Fetch cfg) w))
    \/ (exists err r,
        network w (trace w) cfg = Responds r /\ Response.ok r = false /\
        APIError.status err = Response.status r /\
        (exists body, APIError.data err = APIError.Data body) /\
        APIClient.request endpoint options w
        = (Throw (ExnAPI err), emit (Fetch cfg) w))
    \/ (exists cause,
        APIClient.request endpoint options w
        = (Throw (ExnAPI (network_error cause)),
           emit (Console "error") (emit (Fetch cfg) w))).
Proof.
    intros cfg. unfold APIClient.request, bind, read, try_catch, APIClient.fetch.
    fold cfg.
    destruct (network w (trace w) cfg) as [|r] eqn:Hnet.
    - right; right. exists TypeError. reflexivity.
    - set (w1 := emit (Fetch cfg) w).
      assert (Hcases :
        forall o : option JsVal,
          let mdata := orThrow o SyntaxError in
          (exists data, mdata w1 = (Ret data, w1))
          \/ mdata w1 = (Throw (ExnJs SyntaxError), w1)).
      { intros [d|]; simpl; [left; exists d; reflexivity|right; reflexivity]. }
      assert (Htext : forall s : string,
                 (exists data, @ret JsVal (JStr s) w1 = (Ret data, w1))
                 \/ @ret JsVal (JStr s) w1 = (Throw (ExnJs SyntaxError), w1)).
      { intros s. left. exists (JStr s). reflexivity. }
      match goal with
      | |- context [match ?m w1 with _ => _ end] =>
          assert (Hm : (exists data, m w1 = (Ret data, w1))
                       \/ m w1 = (Throw (ExnJs SyntaxError), w1))
      end.
      { destruct (Response.content_type r) as [ct|]; [|apply Htext].
        destruct (negb (String.eqb ct "") && includes "application/json" ct);
          [apply Hcases|apply Htext]. }
      destruct Hm as [[data Hm]|Hm]; rewrite Hm.
      + destruct (Response.ok r) eqn:Hok; simpl.
        * left. exists data, r. auto.
        * destruct (prop data "detail") as [detail|] eqn:Hd; simpl.
          -- assert (Hmsg : exists message, prop data "message" = Some message).
             { destruct data; simpl in *; try discriminate; eauto. }
             destruct Hmsg as [message Hmsg]. rewrite Hmsg. simpl.
             right; left.
             exists {| APIError.message :=
                         js_or (js_or detail message) (JStr "Request failed");
                       APIError.status := Response.status r;
                       APIError.data := APIError.Data data |}, r.
             split; [reflexivity|]. split; [exact Hok|]. split; [reflexivity|].
             split; [exists data; reflexivity|reflexivity].
          -- right; right. exists TypeError. reflexivity.
      + right; right. exists SyntaxError. reflexivity.
Qed.
End Transport.

Section TransportFacts.
Context `{Platform}.

Lemma request_value_or_APIError endpoint options w :
    value_or_APIError (fst (APIClient.request endpoint options w)).
Proof.
    destruct (request_run endpoint options w)
      as [(data & r & _ & _ & ->)|[(err & r & _ & _ & _ & _ & ->)|(cause & ->)]];
      exact I.
Qed.

Lemma request_fetches endpoint options w :
    fetches (trace (snd (APIClient.request endpoint options w)))
    = (fetches (trace w) ++ [Fetch (APIClient.config w endpoint options)])%list.
Proof.
    destruct (request_run endpoint options w)
      as [(data & r & _ & _ & ->)|[(err & r & _ & _ & _ & _ & ->)|(cause & ->)]];
      simpl; rewrite ?fetches_app; simpl; rewrite ?app_nil_r; reflexivity.
Qed.

  (** [request] touches nothing but the trace, to which it adds no
      [user-logout]. *)
Lemma request_keeps_logouts endpoint options :
    keeps (unchanged (fun w => logouts (trace w))) (APIClient.request endpoint options).
Proof.
    intros w. unfold unchanged.
    destruct (request_run endpoint options w)
      as [(data & r & _ & _ & ->)|[(err & r & _ & _ & _ & _ & ->)|(cause & ->)]];
      simpl; rewrite ?logouts_app; unfold logouts; simpl; lia.
Qed.

Lemma request_keeps_localStorage endpoint options :
    keeps (unchanged localStorage) (APIClient.request endpoint options).
Proof.
    intros w. unfold unchanged.
    destruct (request_run endpoint options w)
      as [(data & r & _ & _ & ->)|[(err & r & _ & _ & _ & _ & ->)|(cause & ->)]];
      reflexivity.
Qed.
End TransportFacts.

(** C10. Every run of [request], and so of [get], [post] and
    [postForm], ends with a value or with an [APIError], never with
    another exception; an [APIError] that wraps a cause (anything that
    is not a response with an error status) has status 0 and is
    classified Network. An unreachable network gives such an error, and
    so does a JSON body that cannot be read. *)
Theorem C10_every_failure_is_an_APIError :
  forall `{Platform} (endpoint : string) (w : World),
    (forall options,
        match fst (APIClient.request endpoint options w) with
        | Ret _ => True
        | Throw (ExnJs _) => False
        | Throw (ExnAPI e) =>
            match APIError.data e with
            | APIError.Cause _ => APIError.status e = 0 /\ holds Network e = true
            | APIError.Data _ =>
                exists r,
                  network w (trace w) (APIClient.config w endpoint options) = Responds r
                  /\ Response.ok r = false
                  /\ APIError.status e = Response.status r
            end
        end)
    /\ value_or_APIError (fst (APIClient.get endpoint w))
    /\ (forall data, value_or_APIError (fst (APIClient.post endpoint data w)))
    /\ (forall formData, value_or_APIError (fst (APIClient.postForm endpoint formData w)))
    /\ (forall options,
           fst (APIClient.request endpoint options
                  (set_network (fun _ _ => NetworkFailure) w))
           = Throw (ExnAPI (network_error TypeError)))
    /\ (forall options status text,
           match JSON_parse text with
           | Some _ => True
           | None =>
               fst (APIClient.request endpoint options
                      (set_network
                         (fun _ _ =>
                            Responds
                              {| Response.status := status;
                                 Response.content_type := Some "application/json";
                                 Response.text := text |}) w))
               = Throw (ExnAPI (network_error SyntaxError))
           end).
Proof.
  intros P endpoint w.
  split; [|split; [|split; [|split; [|split]]]].
  - intros options.
    destruct (request_run endpoint options w)
      as [(data & r & _ & _ & ->)
         |[(err & r & Hnet & Hok & Hst & (body & Hbody) & ->)|(cause & ->)]];
      simpl; auto.
    rewrite Hbody. exists r. auto.
  - apply request_value_or_APIError.
  - intros data. apply request_value_or_APIError.
  - intros formData. apply request_value_or_APIError.
  - intros options. reflexivity.
  - intros options status text. destruct (JSON_parse text) eqn:Hp; [exact I|].
    unfold APIClient.request, bind, read, try_catch, APIClient.fetch. simpl.
    rewrite Hp. reflexivity.
Qed.

#[export] Instance no_fetch_frame : Frame no_fetch.
Proof. apply unchanged_frame. Qed.

#[export] Instance no_logout_frame : Frame no_logout.
Proof. apply unchanged_frame. Qed.

(** ** The outcome of a call, answer by answer *)

Section Outcome.
Context `{Platform}.

(** The run of [request], by what the network does and what the body
    of the answer is. *)
Lemma request_outcome (endpoint : string) (options : Options) (w : World) :
  let cfg := APIClient.config w endpoint options in
  let wrapped (cause : JsError) : Outcome JsVal * World :=
    (Throw (ExnAPI (network_error cause)),
     emit (Console "error") (emit (Fetch cfg) w)) in
  APIClient.request endpoint options w
  = match network w (trace w) cfg with
    | NetworkFailure => wrapped TypeError
    | Responds r =>
        match response_data r with
        | None => wrapped SyntaxError
        | Some data =>
            if Response.ok r then (Ret data, emit (Fetch cfg) w)
            else
              match data with
              | JNull | JUndefined => wrapped TypeError
              | _ =>
                  (Throw (ExnAPI
                            {| APIError.message :=
                                 js_or (js_or (default JUndefined (prop data "detail"))
                                          (default JUndefined (prop data "message")))
                                   (JStr "Request failed");
                               APIError.status := Response.status r;
                               APIError.data := APIError.Data data |}),
                   emit (Fetch cfg) w)
              end
        end
    end.
Proof.
  intros cfg wrapped. unfold wrapped.
  unfold APIClient.request, bind, read, try_catch, APIClient.fetch. fold cfg.
  destruct (network w (trace w) cfg) as [|r]; [reflexivity|].
  unfold response_data.
  assert (Hjson : forall o : option JsVal,
             orThrow o SyntaxError (emit (Fetch cfg) w)
             = match o with
               | Some d => (Ret d, emit (Fetch cfg) w)
               | None => (Throw (ExnJs SyntaxError), emit (Fetch cfg) w)
               end)
    by (intros [d|]; reflexivity).
  destruct (Response.content_type r) as [ct|];
    [destruct (negb (String.eqb ct "") && includes "application/json" ct)|];
    try rewrite Hjson;
    try destruct (JSON_parse (Response.text r)) as [data|];
    unfold ret; cbn [fst snd];
    try reflexivity;
    destruct (Response.ok r); try reflexivity;
    try (destruct data; reflexivity).
Qed.

Lemma network_error_classified (cause : JsError) :
  classified (network_error cause) Network.
Proof.
  intros k. rewrite predicates_follow_rule_table.
  change (Network = k <-> k = Network). split; intros Hk; congruence.
Qed.

End Outcome.




(** ** Primitive steps and the trace *)

Ltac frame_prim :=
  apply keeps_act; intros ?; unfold no_fetch, no_logout, unchanged; simpl;
  rewrite ?fetches_app, ?logouts_app; unfold logouts; simpl;
  rewrite ?app_nil_r, ?Nat.add_0_r; reflexivity.

Section NoNetwork.
Context `{Platform}.

Lemma toast_quiet message type : keeps no_fetch (DeepShieldApp.toast message type).
Proof. unfold DeepShieldApp.toast. frame_prim. Qed.

Lemma showStatus_quiet message type : keeps no_fetch (Script.showStatus message type).
Proof. unfold Script.showStatus. frame_prim. Qed.

Lemma getItem_quiet k : keeps no_fetch (getItem k).
Proof. unfold getItem. frame. Qed.

Lemma setItem_quiet k v : keeps no_fetch (setItem k v).
Proof. unfold setItem. frame_prim. Qed.

Lemma removeItem_quiet k : keeps no_fetch (removeItem k).
Proof. unfold removeItem. frame_prim. Qed.

  (** A call of [script.js]: the request goes out once, whatever the
      page does with the answer. *)
Lemma post_once {A} path formData (k : Response.t -> M A) (h : Exn -> M A) w :
    (forall r, keeps no_fetch (k r)) -> (forall e, keeps no_fetch (h e)) ->
    fetches (trace (snd (try_catch (bind (Script.post path formData) k) h w)))
    = (fetches (trace w)
       ++ [Fetch {| url := Script.API_BASE_URL ++ path; method := Some "POST";
                    headers := []; body := BodyForm formData |}])%list.
Proof.
    intros Hk Hh. unfold try_catch, bind, Script.post, APIClient.fetch.
    set (req := {| url := _ |}).
    assert (Hreq : fetches (trace (emit (Fetch req) w))
                   = (fetches (trace w) ++ [Fetch req])%list).
    { simpl. rewrite fetches_app. reflexivity. }
    destruct (network w (trace w) req) as [|r].
    - rewrite (Hh (ExnJs TypeError) (emit (Fetch req) w)). exact Hreq.
    - specialize (Hk r (emit (Fetch req) w)). unfold no_fetch, unchanged in Hk.
      destruct (k r (emit (Fetch req) w)) as [[a|e] w1]; simpl in *.
      + rewrite Hk. exact Hreq.
      + rewrite (Hh e w1), Hk. exact Hreq.
Qed.
End NoNetwork.

(** C7. For every passcode (the joined values of the inputs) whose
    length is not 6, [verifyOTP], in [js/app.js] and in [script.js]
    alike, returns at once with an error message and leaves everything
    else as it was: no network call is made. *)
Theorem C7_wrong_length_passcode_is_rejected_locally :
  forall `{Platform} (email : string) (otpInputs : list string) (w : World),
    String.length (String.concat "" otpInputs) <> 6%nat ->
    DeepShieldApp.verifyOTP email otpInputs w
    = (Ret tt, emit (Toast (JStr "Please enter the complete 6-digit OTP") "error") w)
    /\ Script.verifyOTP email otpInputs w
       = (Ret tt, emit (ShowStatus (JStr "Please enter the complete 6-digit OTP") "error") w)
    /\ fetches (trace (snd (DeepShieldApp.verifyOTP email otpInputs w))) = fetches (trace w)
    /\ fetches (trace (snd (Script.verifyOTP email otpInputs w))) = fetches (trace w).
Proof.
  intros P email otpInputs w Hlen.
  apply Nat.eqb_neq in Hlen.
  unfold DeepShieldApp.verifyOTP, Script.verifyOTP. rewrite Hlen. simpl.
  repeat split; rewrite fetches_app; simpl; apply app_nil_r.
Qed.

Lemma C7_witness :
  String.length (String.concat "" ["1"; "2"; "3"]) <> 6%nat
  /\ DeepShieldApp.verifyOTP "user@example.com" ["1"; "2"; "3"] (visitor "login.html" offline)
     = (Ret tt,
        emit (Toast (JStr "Please enter the complete 6-digit OTP") "error")
          (visitor "login.html" offline)).
Proof.
  split.
  - simpl. lia.
  - apply (C7_wrong_length_passcode_is_rejected_locally
             "user@example.com" ["1"; "2"; "3"] (visitor "login.html" offline)).
    simpl. lia.
Defined.

(** [sendOTP] of [js/app.js] refuses every identifier without an [@],
    the empty one included, before any call. *)
Lemma DeepShieldApp_sendOTP_rejects_malformed `{Platform} (email : string) (w : World) :
  RegexFacts.lacks "@" email = true ->
  DeepShieldApp.sendOTP email w
  = (Ret tt, emit (Toast (JStr "Please enter a valid email address") "error") w).
Proof.
  intros Hl. unfold DeepShieldApp.sendOTP.
  rewrite (isValidEmail_needs_at email Hl), orb_true_r. reflexivity.
Qed.

(** [sendOTP] of [script.js] refuses the empty identifier only. *)
Lemma Script_sendOTP_rejects_empty `{Platform} (w : World) :
  Script.sendOTP "" w
  = (Ret tt, emit (ShowStatus (JStr "Please enter your email address") "error") w).
Proof. reflexivity. Qed.

(** C8, at the failing input. [sendOTP] of [script.js] hands the
    identifier [user.example.com], which has no [@], to the network: the
    trace gains the call to [/send-otp], whereas [sendOTP] of
    [js/app.js] refuses the same identifier. *)
Theorem C8_script_sendOTP_sends_identifier_without_at :
  forall `{Platform} (w : World),
    RegexFacts.lacks "@" "user.example.com" = true
    /\ fetches (trace (snd (Script.sendOTP "user.example.com" w)))
       = (fetches (trace w)
          ++ [Fetch {| url := "http://localhost:8000/send-otp";
                       method := Some "POST"; headers := [];
                       body := BodyForm [("email", FString "user.example.com")] |}])%list
    /\ fetches (trace (snd (DeepShieldApp.sendOTP "user.example.com" w)))
       = fetches (trace w).
Proof.
  intros P w. split; [reflexivity|]. split.
  - unfold Script.sendOTP.
    change (negb (truthy (JStr "user.example.com"))) with false. cbv iota.
    apply (post_once "/send-otp");
      intros; frame; apply showStatus_quiet.
  - rewrite DeepShieldApp_sendOTP_rejects_malformed by reflexivity.
    simpl. rewrite fetches_app. apply app_nil_r.
Qed.

(** ** Logging out *)

Section Logout.
Context `{Platform}.

(** With no token held nobody is authenticated. *)
Lemma isAuthenticated_no_token (w : World) :
  truthy (auth_token w) = false -> AuthManager.isAuthenticated w = false.
Proof. intros Ht. unfold AuthManager.isAuthenticated. rewrite Ht. reflexivity. Qed.

Lemma logout_run (w : World) :
  AuthManager.logout w = (Ret tt, logged_out w).
Proof.
  unfold AuthManager.logout, logged_out, APIClient.clearAuth, AuthManager.updateUI,
    AuthManager.isAuthenticated, AuthManager.isProtectedPage,
    removeItem, bind, act, read, ret.
  cbn [localStorage sessionStorage hostname page clock network blob_url
       api_token auth_token auth_currentUser auth_refreshTimer
       app_selectedFile trace set_localStorage set_sessionStorage
       set_api_token set_auth_token set_auth_currentUser
       set_auth_refreshTimer emit truthy andb negb].
  match goal with
  | |- context [if ?b then _ else _] => destruct b
  end; reflexivity.
Qed.

Lemma logged_out_localStorage (w : World) (k : string) :
  localStorage (logged_out w) !! k
  = if decide (k = CONFIG.TOKEN_KEY \/ k = CONFIG.USER_KEY)
    then None else localStorage w !! k.
Proof.
  unfold logged_out, CONFIG.TOKEN_KEY, CONFIG.USER_KEY.
  destruct (AuthManager.isProtectedPage w); simpl;
    case_decide as Hk.
  all: try (destruct Hk as [Hk|Hk]; subst k;
            [rewrite lookup_delete_ne by discriminate; apply lookup_delete_eq
            |apply lookup_delete_eq]).
  all: rewrite !lookup_delete_ne by (intros Hk'; apply Hk; auto); reflexivity.
Qed.

Lemma logged_out_logouts (w : World) :
  logouts (trace (logged_out w)) = S (logouts (trace w)).
Proof.
  unfold logged_out. destruct (AuthManager.isProtectedPage w); simpl;
    rewrite !logouts_app; unfold logouts; simpl; lia.
Qed.

Lemma logged_out_fetches (w : World) :
  fetches (trace (logged_out w)) = fetches (trace w).
Proof.
  unfold logged_out. destruct (AuthManager.isProtectedPage w); simpl;
    rewrite !fetches_app; simpl; rewrite !app_nil_r; reflexivity.
Qed.

Lemma logged_out_memory (w : World) :
  auth_token (logged_out w) = JNull
  /\ auth_currentUser (logged_out w) = JNull
  /\ api_token (logged_out w) = JNull.
Proof.
  unfold logged_out. destruct (AuthManager.isProtectedPage w); simpl; auto.
Qed.

End Logout.

(** C3, at the failing input. [AuthManager.logout] clears the session
    (both keys are gone, nothing is held in memory, [isAuthenticated]
    is false) but whatever is stored under [detection_result] and
    [complaint_draft] is still there afterwards, whereas [logout] of
    [script.js] removes the two together with its session key. *)
Theorem C3_AuthManager_logout_keeps_result_and_draft :
  forall `{Platform} (w : World),
    let w' := snd (AuthManager.logout w) in
    localStorage w' !! "detection_result" = localStorage w !! "detection_result"
    /\ localStorage w' !! "complaint_draft" = localStorage w !! "complaint_draft"
    /\ localStorage w' !! CONFIG.TOKEN_KEY = None
    /\ localStorage w' !! CONFIG.USER_KEY = None
    /\ auth_token w' = JNull
    /\ auth_currentUser w' = JNull
    /\ AuthManager.isAuthenticated w' = false
    /\ (let w2 := snd (Script.logout w) in
        localStorage w2 !! "deepshield_user" = None
        /\ localStorage w2 !! "detection_result" = None
        /\ localStorage w2 !! "complaint_draft" = None).
Proof.
  intros P w. rewrite logout_run. simpl.
  rewrite !logged_out_localStorage.
  destruct (logged_out_memory w) as (Ht & Hu & _).
  repeat split; try reflexivity; try assumption.
  - apply isAuthenticated_no_token. rewrite Ht. reflexivity.
  - unfold Script.logout, removeItem, bind, act. simpl.
    rewrite !lookup_delete_ne by discriminate. apply lookup_delete_eq.
  - unfold Script.logout, removeItem, bind, act. simpl.
    rewrite lookup_delete_ne by discriminate. apply lookup_delete_eq.
  - unfold Script.logout, removeItem, bind, act. simpl. apply lookup_delete_eq.
Qed.

(** A stored result and a stored draft survive [AuthManager.logout]. *)
Example logout_leaves_result_and_draft :
  let w := set_localStorage
             (fun _ => {[ "deepshield_token" := "t"; "deepshield_user" := "{}";
                          "detection_result" := "{}"; "complaint_draft" := "{}" ]})
             (visitor "dashboard.html" offline) in
  let w' := snd (AuthManager.logout w) in
  localStorage w' !! "deepshield_token" = None
  /\ localStorage w' !! "detection_result" = Some "{}"
  /\ localStorage w' !! "complaint_draft" = Some "{}".
Proof. vm_compute. auto. Qed.

(** ** Authentication failures *)

Section AuthFailure.
Context `{Platform}.

(** A request that is answered 401 throws an [APIError] that is
    classified Authentication, after its one network call. *)
Lemma request_unauthorized (endpoint : string) (options : Options) (w : World) :
  network w (trace w) (APIClient.config w endpoint options) = Responds unauthorized ->
  APIClient.request endpoint options w
  = (Throw (ExnAPI {| APIError.message := JStr "Request failed";
                      APIError.status := 401;
                      APIError.data := APIError.Data (JStr "Unauthorized") |}),
     emit (Fetch (APIClient.config w endpoint options)) w).
Proof.
  intros Hnet.
  unfold APIClient.request, bind, read, try_catch, APIClient.fetch.
  rewrite Hnet. reflexivity.
Qed.

(** [handleAuthError] logs out exactly when the error is an [APIError]
    classified Authentication. *)
Lemma handleAuthError_run (error : Exn) (w : World) :
  AuthManager.handleAuthError error w
  = match error with
    | ExnAPI e => if holds Authentication e then (Ret tt, logged_out w) else (Ret tt, w)
    | ExnJs _ => (Ret tt, w)
    end.
Proof.
  destruct error as [e|e]; simpl; [|reflexivity].
  destruct (APIError.isAuthError e); [apply logout_run|reflexivity].
Qed.

End AuthFailure.

(** C6, at the failing input. When the server answers the dashboard
    call with 401, the call fails with an error classified
    Authentication, [loadDashboardData] shows a message and returns, and
    no logout has happened: the count of [user-logout] events is what it
    was. The same answer to the passcode verification of [AuthManager]
    goes through [handleAuthError] and logs out exactly once, after a
    single network call. *)
Theorem C6_unauthorized_dashboard_call_does_not_log_out :
  forall `{Platform} (w : World),
    let w0 := set_network (answering unauthorized) w in
    (exists e,
        fst (APIClient.getDashboard w0) = Throw (ExnAPI e)
        /\ holds Authentication e = true)
    /\ fst (DeepShieldApp.loadDashboardData w0) = Ret tt
    /\ logouts (trace (snd (DeepShieldApp.loadDashboardData w0))) = logouts (trace w0)
    /\ logouts (trace (snd (AuthManager.verifyOTP "user@example.com" "123456" w0)))
       = S (logouts (trace w0))
    /\ length (fetches (trace (snd (AuthManager.verifyOTP "user@example.com" "123456" w0))))
       = S (length (fetches (trace w0))).
Proof.
  intros P w w0.
  assert (Hnet : forall endpoint options,
             network w0 (trace w0) (APIClient.config w0 endpoint options)
             = Responds unauthorized) by reflexivity.
  split; [|split; [|split; [|split]]].
  - unfold APIClient.getDashboard, APIClient.get.
    rewrite request_unauthorized by apply Hnet.
    eexists. split; reflexivity.
  - unfold DeepShieldApp.loadDashboardData, try_catch, bind,
      APIClient.getDashboard, APIClient.get.
    rewrite request_unauthorized by apply Hnet. reflexivity.
  - unfold DeepShieldApp.loadDashboardData, try_catch, bind,
      APIClient.getDashboard, APIClient.get.
    rewrite request_unauthorized by apply Hnet. simpl.
    rewrite !logouts_app. unfold logouts at 2 3 4. simpl. lia.
  - unfold AuthManager.verifyOTP, try_catch, bind,
      APIClient.verifyOTP, APIClient.postForm.
    rewrite request_unauthorized by apply Hnet.
    rewrite handleAuthError_run. simpl.
    rewrite logged_out_logouts. simpl. rewrite logouts_app.
    unfold logouts at 2. simpl. lia.
  - unfold AuthManager.verifyOTP, try_catch, bind,
      APIClient.verifyOTP, APIClient.postForm.
    rewrite request_unauthorized by apply Hnet.
    rewrite handleAuthError_run. simpl.
    rewrite logged_out_fetches. simpl. rewrite fetches_app, List.length_app.
    simpl. lia.
Qed.

(** ** Calls without a session *)

Section CallSites.
Context `{Platform}.

Lemma analyzeMedia_unauthenticated (w : World) :
  AuthManager.isAuthenticated w = false ->
  DeepShieldApp.analyzeMedia w
  = match app_selectedFile w with
    | None => (Ret tt, emit (Toast (JStr "Please select a file first") "error") w)
    | Some _ =>
        (Ret tt,
         emit (NavigateLater "login.html" 2000)
           (emit (Toast (JStr "Please log in to analyze media") "error") w))
    end.
Proof.
  intros Hauth. unfold DeepShieldApp.analyzeMedia, bind, read.
  destruct (app_selectedFile w); [|reflexivity].
  rewrite Hauth. reflexivity.
Qed.

Lemma requireAuth_unauthenticated (w : World) :
  AuthManager.isAuthenticated w = false ->
  AuthManager.requireAuth w = (Ret false, emit (Navigate "login.html") w).
Proof.
  intros Hauth. unfold AuthManager.requireAuth, bind, read.
  rewrite Hauth. reflexivity.
Qed.

(** With nothing stored under [deepshield_user], [script.js] sees no
    user. *)
Lemma storedUser_absent (w : World) :
  localStorage w !! "deepshield_user" = None ->
  Script.storedUser w = (Ret (JObj []), w).
Proof.
  intros Hu. unfold Script.storedUser, bind, getItem, read.
  rewrite Hu. simpl. rewrite JSON_parse_braces. reflexivity.
Qed.

Lemma Script_submitComplaint_no_user (form : ComplaintForm) (w : World) :
  localStorage w !! "deepshield_user" = None ->
  Script.submitComplaint form w
  = (Ret tt,
     emit (NavigateLater "login.html" 2000)
       (emit (ShowStatus (JStr "Please login first") "error") w)).
Proof.
  intros Hu. unfold Script.submitComplaint, bind.
  rewrite (storedUser_absent w Hu). reflexivity.
Qed.

End CallSites.




(** ** The validity of a session *)

(** C2, as stated, fails: a credential whose [exp] is 1700000000, read
    when the clock shows exactly 1700000000000 ms, is not strictly in
    the future, yet [isAuthenticated] is true: [exp < now] is false. *)
Lemma C2_counterexample :
  let w := member token_exp_1700000000 1700000000000 in
  expiresAt w = Some 1700000000
  /\ clock w = 1700000000 * 1000
  /\ spec_isValid w = false
  /\ AuthManager.isAuthenticated w = true.
Proof. vm_compute. auto. Qed.

(** A payload without [exp] is not taken for expired: the comparison of
    [undefined] with the time is false. *)
Example isAuthenticated_without_exp :
  let w := member token_without_exp 1700000000000 in
  AuthManager.token_payload (auth_token w) = Some (JObj [])
  /\ AuthManager.isTokenExpired w = false
  /\ AuthManager.isAuthenticated w = true.
Proof. vm_compute. auto. Qed.

(** C2, amended. [isAuthenticated] is false whenever no token or no
    user is held, or the payload of the credential cannot be parsed or
    is [null]. When the payload carries a number as [exp],
    [isAuthenticated] is true if and only if a token and a user are held
    and [exp] is not smaller than the current time in seconds: a
    credential that expires at this very instant still counts. *)
Theorem C2_isAuthenticated_fails_closed_and_compares_exp :
  forall `{Platform} (w : World),
    (truthy (auth_token w) = false
     \/ truthy (auth_currentUser w) = false
     \/ AuthManager.token_payload (auth_token w) = None
     \/ AuthManager.token_payload (auth_token w) = Some JNull ->
     AuthManager.isAuthenticated w = false)
    /\ (forall n,
           expiresAt w = Some n ->
           (AuthManager.isAuthenticated w = true
            <-> truthy (auth_token w) = true
                /\ truthy (auth_currentUser w) = true
                /\ clock w <= n * 1000)).
Proof.
  intros P w. unfold AuthManager.isAuthenticated, AuthManager.isTokenExpired, expiresAt.
  split.
  - intros [Ht|[Hu|[Hp|Hp]]].
    + rewrite Ht. reflexivity.
    + rewrite Hu. apply andb_false_intro1, andb_false_r.
    + rewrite Hp. destruct (truthy (auth_token w)); simpl;
        [apply andb_false_r|reflexivity].
    + rewrite Hp. destruct (truthy (auth_token w)); simpl;
        [apply andb_false_r|reflexivity].
  - intros n Hn.
    destruct (AuthManager.token_payload (auth_token w)) as [payload|]; [|discriminate].
    destruct (prop payload "exp") as [[]|]; try discriminate.
    injection Hn as ->.
    unfold lt_seconds. simpl.
    destruct (truthy (auth_token w)), (truthy (auth_currentUser w)); simpl;
      try (split; [discriminate|intros (? & ? & ?); discriminate]).
    destruct (Z.ltb_spec (n * 1000) (clock w)); simpl; split;
      try discriminate; try (intros (_ & _ & ?); lia); auto with zarith.
Qed.

Lemma C2_witness :
  expiresAt (member token_exp_1700000000 1699999999000) = Some 1700000000
  /\ AuthManager.isAuthenticated (member token_exp_1700000000 1699999999000) = true
  /\ AuthManager.token_payload (auth_token (member "opaque-token" 1699999999000)) = None
  /\ AuthManager.isAuthenticated (member "opaque-token" 1699999999000) = false.
Proof.
  assert (Hexp : expiresAt (member token_exp_1700000000 1699999999000)
                 = Some 1700000000) by (vm_compute; reflexivity).
  assert (Hopaque : AuthManager.token_payload
                      (auth_token (member "opaque-token" 1699999999000)) = None)
    by (vm_compute; reflexivity).
  split; [exact Hexp|]. split; [|split; [exact Hopaque|]].
  - apply (proj2 (C2_isAuthenticated_fails_closed_and_compares_exp
                    (member token_exp_1700000000 1699999999000))
             1700000000 Hexp).
    repeat split. vm_compute. discriminate.
  - apply (proj1 (C2_isAuthenticated_fails_closed_and_compares_exp
                    (member "opaque-token" 1699999999000))).
    right; right; left. exact Hopaque.
Defined.

(** ** [JSON.parse] reads back what [JSON.stringify] wrote *)

Module JsonLemmas.
Import Browser JsonFacts.

Lemma chars_app (a b : string) : chars (a ++ b) = (chars a ++ chars b)%list.
Proof.
  induction a as [|c a IH]; [reflexivity|].
  unfold append; fold append. unfold chars in *. cbn [list_ascii_of_string].
  rewrite IH. reflexivity.
Qed.

(** *** Numbers *)

Lemma take_digits_uint (d : Decimal.uint) (rest : list ascii) :
  not_digit rest ->
  take_digits (chars (NilEmpty.string_of_uint d) ++ rest)
  = (chars (NilEmpty.string_of_uint d), rest).
Proof.
  intros Hrest.
  induction d; cbn [NilEmpty.string_of_uint chars list_ascii_of_string app];
    try (cbn [take_digits]; change (is_digit _) with true; cbv iota;
         unfold chars in IHd; rewrite IHd; reflexivity).
  destruct rest as [|c r]; [reflexivity|]. cbn [take_digits].
  simpl in Hrest. rewrite Hrest. reflexivity.
Qed.

Lemma digits_value_acc (d : Decimal.uint) (p : positive) :
  digits_value (Z.pos p) (chars (NilEmpty.string_of_uint d))
  = Z.pos (Pos.of_uint_acc d p).
Proof.
  revert p.
  induction d; intros p;
    cbn [NilEmpty.string_of_uint chars list_ascii_of_string digits_value Pos.of_uint_acc];
    try reflexivity;
    match goal with
    | |- digits_value (?a * 10 + digit_value ?c) _ = Z.pos (Pos.of_uint_acc _ ?q) =>
        let v := eval vm_compute in (digit_value c) in
        change (digit_value c) with v;
        replace (a * 10 + v) with (Z.pos q) by lia
    end; apply IHd.
Qed.

Lemma digits_value_uint (d : Decimal.uint) :
  digits_value 0 (chars (NilEmpty.string_of_uint d)) = Z.of_N (Pos.of_uint d).
Proof.
  induction d;
    cbn [NilEmpty.string_of_uint chars list_ascii_of_string digits_value Pos.of_uint];
    try reflexivity;
    try (change (0 * 10 + digit_value "0") with 0; exact IHd);
    match goal with
    | |- digits_value (0 * 10 + digit_value ?c) _ = Z.of_N (N.pos (Pos.of_uint_acc _ ?q)) =>
        change (0 * 10 + digit_value c) with (Z.pos q)
    end; apply digits_value_acc.
Qed.

Lemma to_uint_no_leading_zero (p : positive) (d : Decimal.uint) :
  Pos.to_uint p <> Decimal.D0 d.
Proof.
  intros Heq.
  pose proof (Unsigned.to_of (Pos.to_uint p)) as Hto.
  rewrite Unsigned.of_to in Hto. cbn [N.to_uint] in Hto.
  assert (Hnz : Decimal.nzhead (Pos.to_uint p) <> Decimal.Nil).
  { intros Hnil. apply unorm_0 in Hnil. rewrite <- Hto in Hnil.
    exact (Unsigned.to_uint_nonzero p Hnil). }
  rewrite (unorm_nzhead _ Hnz) in Hto.
  rewrite Heq in Hto at 1. symmetry in Hto.
  exact (nzhead_nonzero _ _ Hto).
Qed.

Lemma delim_not_digit (rest : list ascii) : delim rest = true -> not_digit rest.
Proof.
  destruct rest as [|c r]; [exact (fun _ => I)|]. unfold delim, not_digit, Regex.mem.
  cbn [existsb]. intros Hc.
  repeat (apply orb_true_iff in Hc as [Hc|Hc];
          [apply Ascii.eqb_eq in Hc; subst c; reflexivity|]).
  discriminate.
Qed.

Lemma delim_ends_number (rest : list ascii) : delim rest = true -> ends_number rest = true.
Proof.
  destruct rest as [|c r]; [reflexivity|]. unfold delim, ends_number, Regex.mem.
  cbn [existsb]. intros Hc.
  repeat (apply orb_true_iff in Hc as [Hc|Hc];
          [apply Ascii.eqb_eq in Hc; subst c; reflexivity|]).
  discriminate.
Qed.

Lemma parse_unsigned_pos (p : positive) (rest : list ascii) :
  delim rest = true ->
  parse_unsigned (chars (NilEmpty.string_of_uint (Pos.to_uint p)) ++ rest)
  = Some (Z.pos p, rest).
Proof.
  intros Hrest. unfold parse_unsigned.
  rewrite (take_digits_uint _ _ (delim_not_digit _ Hrest)).
  rewrite (delim_ends_number _ Hrest).
  pose proof (digits_value_uint (Pos.to_uint p)) as Hval.
  rewrite Unsigned.of_to in Hval. cbn [Z.of_N] in Hval.
  pose proof (Unsigned.to_uint_nonnil p) as Hnil.
  pose proof (to_uint_no_leading_zero p) as Hzero.
  destruct (Pos.to_uint p) as [|d|d|d|d|d|d|d|d|d|d];
    [contradiction|exfalso; exact (Hzero d eq_refl)|..];
    cbn [NilEmpty.string_of_uint chars list_ascii_of_string] in *;
    rewrite Hval; reflexivity.
Qed.

Lemma Z_to_string_cases (n : Z) :
  chars (Z_to_string n)
  = match n with
    | 0 => ["0"%char]
    | Z.pos p => chars (NilEmpty.string_of_uint (Pos.to_uint p))
    | Z.neg p => "-"%char :: chars (NilEmpty.string_of_uint (Pos.to_uint p))
    end.
Proof.
  unfold Z_to_string, Z.to_int, NilZero.string_of_int, NilZero.string_of_uint.
  destruct n as [|p|p]; [reflexivity| |];
    pose proof (Unsigned.to_uint_nonnil p) as Hnil;
    destruct (Pos.to_uint p); try contradiction; reflexivity.
Qed.

(** The first character of the digits of a positive number. *)
Lemma uint_head (p : positive) :
  exists c t, chars (NilEmpty.string_of_uint (Pos.to_uint p)) = c :: t
              /\ is_digit c = true.
Proof.
  pose proof (Unsigned.to_uint_nonnil p) as Hnil.
  destruct (Pos.to_uint p); try contradiction;
    cbn [NilEmpty.string_of_uint chars list_ascii_of_string];
    eexists _, _; split; reflexivity.
Qed.

Lemma parse_number_digit (c : ascii) (l : list ascii) :
  is_digit c = true -> parse_number (c :: l) = parse_unsigned (c :: l).
Proof.
  intros Hc. unfold parse_number.
  destruct (Ascii.eqb_spec c "-") as [->|Hne]; [discriminate|].
  destruct c as [[] [] [] [] [] [] [] []]; try reflexivity.
  exfalso. apply Hne. reflexivity.
Qed.

Lemma parse_number_text (n : Z) (rest : list ascii) :
  delim rest = true ->
  parse_number (chars (Z_to_string n) ++ rest) = Some (n, rest).
Proof.
  intros Hrest. rewrite Z_to_string_cases. destruct n as [|p|p].
  - cbn [app]. rewrite parse_number_digit by reflexivity.
    unfold parse_unsigned. cbn [take_digits]. change (is_digit "0") with true.
    cbv iota.
    assert (Htake : take_digits rest = ([], rest)).
    { pose proof (delim_not_digit _ Hrest) as Hnd.
      destruct rest as [|c r]; [reflexivity|]. cbn [take_digits].
      simpl in Hnd. rewrite Hnd. reflexivity. }
    rewrite Htake, (delim_ends_number _ Hrest). reflexivity.
  - destruct (uint_head p) as (c & t & Heq & Hc).
    pose proof (parse_unsigned_pos p rest Hrest) as Hun.
    rewrite Heq in *. cbn [app] in *.
    rewrite parse_number_digit by exact Hc. exact Hun.
  - cbn [app]. unfold parse_number.
    rewrite (parse_unsigned_pos p rest Hrest). reflexivity.
Qed.


(** *** Strings *)

Lemma parse_string_escape (c : ascii) (tail : list ascii) (s : string) (r : list ascii) :
  parse_string tail = Some (s, r) ->
  parse_string (chars (escape c) ++ tail) = Some (String c s, r).
Proof.
  intros Htail.
  destruct c as [[] [] [] [] [] [] [] []];
    match goal with
    | |- parse_string (chars (escape ?c) ++ _) = _ =>
        let t := eval vm_compute in (chars (escape c)) in
        change (chars (escape c)) with t
    end;
    cbn [app]; simpl; rewrite Htail; reflexivity.
Qed.

Lemma chars_concat_cons (x : string) (xs : list string) :
  chars (String.concat "" (x :: xs)) = (chars x ++ chars (String.concat "" xs))%list.
Proof.
  destruct xs as [|y ys].
  - cbn [String.concat]. unfold chars at 3. cbn [list_ascii_of_string].
    rewrite app_nil_r. reflexivity.
  - cbn [String.concat]. rewrite !chars_app. reflexivity.
Qed.

Lemma parse_string_text (s : string) (rest : list ascii) :
  parse_string
    (chars (String.concat "" (map escape (list_ascii_of_string s))) ++ dquote :: rest)
  = Some (s, rest).
Proof.
  induction s as [|c s IH].
  - reflexivity.
  - cbn [list_ascii_of_string map]. rewrite chars_concat_cons, <- app_assoc.
    apply parse_string_escape. exact IH.
Qed.

Lemma chars_quote (s : string) (rest : list ascii) :
  (chars (quote s) ++ rest)%list
  = dquote :: (chars (String.concat "" (map escape (list_ascii_of_string s)))
               ++ dquote :: rest)%list.
Proof.
  unfold quote.
  change (chars (String dquote ?x)) with (dquote :: chars x).
  cbn [app]. f_equal. rewrite chars_app, <- app_assoc. reflexivity.
Qed.


(** *** The shape of the text *)

Lemma json_value_arr (items : list JsVal) :
  json_value (JArr items) = forallb json_value items.
Proof.
  induction items as [|x l IH]; [reflexivity|].
  cbn [forallb]. rewrite <- IH. reflexivity.
Qed.

Lemma json_value_obj (fields : list (string * JsVal)) :
  json_value (JObj fields)
  = forallb (fun m => json_value (snd m)) fields && distinct_keys fields.
Proof.
  induction fields as [|[k x] l IH]; [reflexivity|].
  cbn [forallb distinct_keys fst snd].
  change (json_value (JObj ((k, x) :: l)))
    with (json_value x && negb (existsb (fun m => String.eqb k (fst m)) l)
          && json_value (JObj l)).
  rewrite IH.
  destruct (json_value x), (existsb (fun m => String.eqb k (fst m)) l),
    (forallb (fun m => json_value (snd m)) l), (distinct_keys l); reflexivity.
Qed.

Lemma size_arr (items : list JsVal) : size (JArr items) = S (size_items items).
Proof.
  reflexivity.
Qed.

Lemma size_obj (fields : list (string * JsVal)) :
  size (JObj fields) = S (size_members fields).
Proof.
  cbn [size]. f_equal. induction fields as [|[k x] l IH]; [reflexivity|].
  cbn [size_members snd]. rewrite <- IH. reflexivity.
Qed.

Lemma stringify_arr (items : list JsVal) :
  stringify (JArr items) = "[" ++ String.concat "," (map stringify items) ++ "]".
Proof.
  reflexivity.
Qed.

Lemma stringify_obj (fields : list (string * JsVal)) :
  forallb (fun m => json_value (snd m)) fields = true ->
  stringify (JObj fields)
  = "{" ++ String.concat ","
             (map (fun m => quote (fst m) ++ ":" ++ stringify (snd m)) fields)
        ++ "}".
Proof.
  intros Hok. cbn [stringify]. repeat f_equal.
  induction fields as [|[k x] l IH]; [reflexivity|].
  cbn [forallb snd] in Hok. apply andb_true_iff in Hok as [Hx Hl].
  cbn [map fst snd]. rewrite <- (IH Hl).
  destruct x; try reflexivity. discriminate.
Qed.

Lemma chars_cons (c : ascii) (s : string) : chars (String c s) = c :: chars s.
Proof. reflexivity. Qed.

Lemma elements_text_concat (x : string) (xs : list string) (close : ascii)
    (rest : list ascii) :
  (chars (String.concat "," (x :: xs)) ++ close :: rest)%list
  = elements_text (map chars (x :: xs)) close rest.
Proof.
  revert x. induction xs as [|y ys IH]; intros x.
  - reflexivity.
  - change (String.concat "," (x :: y :: ys))
      with (x ++ "," ++ String.concat "," (y :: ys)).
    rewrite chars_app.
    change ("," ++ String.concat "," (y :: ys))
      with (String "," (String.concat "," (y :: ys))).
    rewrite chars_cons, <- app_assoc. cbn [app].
    rewrite IH. reflexivity.
Qed.

Lemma chars_arr (x : JsVal) (xs : list JsVal) (rest : list ascii) :
  (chars (stringify (JArr (x :: xs))) ++ rest)%list
  = "["%char :: elements_text (map (fun v => chars (stringify v)) (x :: xs)) "]" rest.
Proof.
  rewrite stringify_arr.
  change ("[" ++ ?t) with (String "[" t). rewrite chars_cons. cbn [app]. f_equal.
  rewrite chars_app, <- app_assoc.
  change (chars "]" ++ rest)%list with ("]"%char :: rest).
  change (map stringify (x :: xs)) with (stringify x :: map stringify xs).
  rewrite elements_text_concat.
  change (stringify x :: map stringify xs) with (map stringify (x :: xs)).
  f_equal. apply List.map_map.
Qed.

Lemma chars_obj (m : string * JsVal) (ms : list (string * JsVal)) (rest : list ascii) :
  forallb (fun m => json_value (snd m)) (m :: ms) = true ->
  (chars (stringify (JObj (m :: ms))) ++ rest)%list
  = "{"%char :: elements_text (map member_text (m :: ms)) "}" rest.
Proof.
  intros Hok. rewrite (stringify_obj _ Hok).
  change ("{" ++ ?t) with (String "{" t). rewrite chars_cons. cbn [app]. f_equal.
  rewrite chars_app, <- app_assoc.
  change (chars "}" ++ rest)%list with ("}"%char :: rest).
  set (mt := fun m0 : string * JsVal => quote (fst m0) ++ ":" ++ stringify (snd m0)).
  change (map mt (m :: ms)) with (mt m :: map mt ms).
  rewrite elements_text_concat.
  change (mt m :: map mt ms) with (map mt (m :: ms)).
  f_equal. rewrite List.map_map. apply map_ext. intros [k x]. unfold mt, member_text.
  cbn [fst snd]. rewrite chars_app.
  change (":" ++ stringify x) with (String ":" (stringify x)).
  rewrite chars_cons. reflexivity.
Qed.

(** *** One step of the parser *)

Lemma digit_head (c : ascii) :
  is_digit c = true ->
  Regex.mem c json_whitespace = false /\ c <> "]"%char.
Proof.
  intros Hc.
  destruct c as [[] [] [] [] [] [] [] []];
    try discriminate; (split; [reflexivity|discriminate]).
Qed.

Lemma value_head (v : JsVal) :
  json_value v = true ->
  exists c t, chars (stringify v) = c :: t
              /\ Regex.mem c json_whitespace = false /\ c <> "]"%char.
Proof.
  intros Hv. destruct v as [| |[]|n|s|items|fields]; try discriminate.
  - eexists _, _. split; [reflexivity|]. split; [reflexivity|discriminate].
  - eexists _, _. split; [reflexivity|]. split; [reflexivity|discriminate].
  - eexists _, _. split; [reflexivity|]. split; [reflexivity|discriminate].
  - cbn [stringify]. rewrite Z_to_string_cases. destruct n as [|p|p].
    + eexists _, _. split; [reflexivity|]. split; [reflexivity|discriminate].
    + destruct (uint_head p) as (c & t & Heq & Hc).
      exists c, t. split; [exact Heq|apply digit_head; exact Hc].
    + eexists _, _. split; [reflexivity|]. split; [reflexivity|discriminate].
  - cbn [stringify]. unfold quote. rewrite chars_cons.
    eexists _, _. split; [reflexivity|]. split; [reflexivity|discriminate].
  - rewrite stringify_arr. change ("[" ++ ?t) with (String "[" t). rewrite chars_cons.
    eexists _, _. split; [reflexivity|]. split; [reflexivity|discriminate].
  - cbn [stringify]. change ("{" ++ ?t) with (String "{" t). rewrite chars_cons.
    eexists _, _. split; [reflexivity|]. split; [reflexivity|discriminate].
Qed.

Lemma parse_value_number (f : nat) (c : ascii) (l : list ascii) :
  is_digit c = true \/ c = "-"%char ->
  parse_value (S f) (c :: l)
  = option_map (fun '(n, r') => (JNum n, r')) (parse_number (c :: l)).
Proof.
  intros Hc.
  destruct c as [[] [] [] [] [] [] [] []]; try reflexivity;
    destruct Hc as [Hc|Hc]; discriminate.
Qed.

Lemma parse_value_string (f : nat) (l : list ascii) :
  parse_value (S f) (dquote :: l)
  = option_map (fun '(s, r') => (JStr s, r')) (parse_string l).
Proof. reflexivity. Qed.

Lemma parse_value_array (f : nat) (c : ascii) (t : list ascii) :
  Regex.mem c json_whitespace = false -> c <> "]"%char ->
  parse_value (S f) ("["%char :: c :: t)
  = option_map (fun '(vs, r') => (JArr vs, r')) (parse_elements f (c :: t)).
Proof.
  intros Hws Hc.
  destruct c as [[] [] [] [] [] [] [] []]; try reflexivity;
    first [discriminate Hws | exfalso; apply Hc; reflexivity].
Qed.

Lemma parse_value_object (f : nat) (l : list ascii) :
  parse_value (S f) ("{"%char :: dquote :: l)
  = option_map (fun '(ms, r') => (object_of ms, r')) (parse_members f (dquote :: l)).
Proof. reflexivity. Qed.

Lemma parse_elements_last (f : nat) (v : JsVal) (tv rest : list ascii) :
  parse_value f (tv ++ "]"%char :: rest) = Some (v, "]"%char :: rest) ->
  parse_elements (S f) (tv ++ "]"%char :: rest) = Some ([v], rest).
Proof. intros Hv. cbn [parse_elements]. rewrite Hv. reflexivity. Qed.

Lemma parse_elements_more (f : nat) (v : JsVal) (vs : list JsVal)
    (tv more rest : list ascii) :
  parse_value f (tv ++ ","%char :: more) = Some (v, ","%char :: more) ->
  parse_elements f more = Some (vs, rest) ->
  parse_elements (S f) (tv ++ ","%char :: more) = Some (v :: vs, rest).
Proof.
  intros Hv Hvs. cbn [parse_elements]. rewrite Hv. cbn [skip_ws].
  change (Regex.mem "," json_whitespace) with false. cbv iota.
  rewrite Hvs. reflexivity.
Qed.

Lemma parse_members_last (f : nat) (k : string) (v : JsVal) (tv rest : list ascii) :
  parse_value f (tv ++ "}"%char :: rest) = Some (v, "}"%char :: rest) ->
  parse_members (S f) (chars (quote k) ++ ":"%char :: tv ++ "}"%char :: rest)
  = Some ([(k, v)], rest).
Proof.
  intros Hv. rewrite chars_quote. cbn [parse_members skip_ws].
  change (Regex.mem dquote json_whitespace) with false. cbv iota.
  rewrite Ascii.eqb_refl. cbn [negb]. rewrite parse_string_text.
  cbn [skip_ws]. change (Regex.mem ":" json_whitespace) with false. cbv iota.
  rewrite Hv. reflexivity.
Qed.

Lemma parse_members_more (f : nat) (k : string) (v : JsVal)
    (ms : list (string * JsVal)) (tv more rest : list ascii) :
  parse_value f (tv ++ ","%char :: more) = Some (v, ","%char :: more) ->
  parse_members f more = Some (ms, rest) ->
  parse_members (S f) (chars (quote k) ++ ":"%char :: tv ++ ","%char :: more)
  = Some ((k, v) :: ms, rest).
Proof.
  intros Hv Hms. rewrite chars_quote. cbn [parse_members skip_ws].
  change (Regex.mem dquote json_whitespace) with false. cbv iota.
  rewrite Ascii.eqb_refl. cbn [negb]. rewrite parse_string_text.
  cbn [skip_ws]. change (Regex.mem ":" json_whitespace) with false. cbv iota.
  rewrite Hv. cbn [skip_ws].
  change (Regex.mem "," json_whitespace) with false. cbv iota.
  rewrite Hms. reflexivity.
Qed.


(** *** Objects with distinct keys *)

Lemma set_assoc_fresh (k : string) (v : JsVal) (acc : list (string * JsVal)) :
  existsb (fun m => String.eqb k (fst m)) acc = false ->
  set_assoc k v acc = (acc ++ [(k, v)])%list.
Proof.
  induction acc as [|[k' v'] acc IH]; [reflexivity|].
  cbn [existsb fst set_assoc app]. intros Hk.
  apply orb_false_iff in Hk as [Hk Hacc]. rewrite Hk, (IH Hacc). reflexivity.
Qed.

Lemma fold_set_assoc (ms acc : list (string * JsVal)) :
  distinct_keys ms = true ->
  (forall m, In m ms -> existsb (fun m' => String.eqb (fst m) (fst m')) acc = false) ->
  fold_left (fun acc '(k, v) => set_assoc k v acc) ms acc = (acc ++ ms)%list.
Proof.
  revert acc. induction ms as [|[k v] ms IH]; intros acc Hd Hfresh.
  - cbn [fold_left]. rewrite app_nil_r. reflexivity.
  - cbn [distinct_keys fst] in Hd. apply andb_true_iff in Hd as [Hk Hd].
    apply negb_true_iff in Hk.
    cbn [fold_left].
    rewrite (set_assoc_fresh k v acc) by (apply (Hfresh (k, v)); left; reflexivity).
    rewrite IH; [rewrite <- app_assoc; reflexivity|exact Hd|].
    intros m Hm. rewrite existsb_app. cbn [existsb fst].
    rewrite (Hfresh m) by (right; exact Hm). cbn [orb]. rewrite orb_false_r.
    destruct (String.eqb_spec (fst m) k) as [Heq|Hne]; [|reflexivity].
    exfalso.
    assert (Hex : existsb (fun m' => String.eqb k (fst m')) ms = true).
    { apply existsb_exists. exists m. split; [exact Hm|].
      rewrite Heq. apply String.eqb_refl. }
    rewrite Hex in Hk. discriminate.
Qed.

Lemma object_of_distinct (ms : list (string * JsVal)) :
  distinct_keys ms = true -> object_of ms = JObj ms.
Proof.
  intros Hd. unfold object_of. rewrite (fold_set_assoc ms [] Hd); [reflexivity|].
  reflexivity.
Qed.

(** *** The parser reads back what [stringify] wrote *)

Lemma number_head (n : Z) :
  exists c t, chars (Z_to_string n) = c :: t
              /\ (is_digit c = true \/ c = "-"%char).
Proof.
  rewrite Z_to_string_cases. destruct n as [|p|p].
  - eexists _, _. split; [reflexivity|left; reflexivity].
  - destruct (uint_head p) as (c & t & Heq & Hc). exists c, t. auto.
  - eexists _, _. split; [reflexivity|right; reflexivity].
Qed.

Lemma parse_text (fuel : nat) :
  (forall v rest,
      json_value v = true -> (size v <= fuel)%nat -> delim rest = true ->
      parse_value fuel (chars (stringify v) ++ rest) = Some (v, rest))
  /\ (forall x xs rest,
        forallb json_value (x :: xs) = true ->
        (size_items (x :: xs) <= fuel)%nat ->
        parse_elements fuel
          (elements_text (map (fun v => chars (stringify v)) (x :: xs)) "]" rest)
        = Some (x :: xs, rest))
  /\ (forall m ms rest,
        forallb (fun m => json_value (snd m)) (m :: ms) = true ->
        (size_members (m :: ms) <= fuel)%nat ->
        parse_members fuel (elements_text (map member_text (m :: ms)) "}" rest)
        = Some (m :: ms, rest)).
Proof.
  induction fuel as [|f (IHv & IHe & IHm)].
  - split; [|split].
    + intros v rest _ Hsize. exfalso.
      destruct v; rewrite ?size_arr, ?size_obj in Hsize; cbn [size] in Hsize; lia.
    + intros x xs rest _ Hsize. cbn [size_items] in Hsize. lia.
    + intros m ms rest _ Hsize. cbn [size_members] in Hsize. lia.
  - split; [|split].
    + intros v rest Hv Hsize Hrest. destruct v as [| |b|n|s|items|fields].
      * discriminate.
      * reflexivity.
      * destruct b; reflexivity.
      * cbn [stringify].
        pose proof (parse_number_text n rest Hrest) as Hnum.
        destruct (number_head n) as (c & t & Heq & Hc).
        rewrite Heq in *. cbn [app] in *.
        rewrite (parse_value_number f c _ Hc), Hnum. reflexivity.
      * cbn [stringify]. rewrite chars_quote, parse_value_string, parse_string_text.
        reflexivity.
      * destruct items as [|x xs]; [reflexivity|].
        rewrite chars_arr. rewrite json_value_arr in Hv. rewrite size_arr in Hsize.
        assert (Hhead : exists c t,
                   elements_text (map (fun v => chars (stringify v)) (x :: xs)) "]" rest
                   = c :: t
                   /\ Regex.mem c json_whitespace = false /\ c <> "]"%char).
        { cbn [forallb] in Hv. apply andb_true_iff in Hv as [Hx _].
          destruct (value_head x Hx) as (c & t & Heq & Hws & Hc).
          cbn [map elements_text]. rewrite Heq.
          destruct (map (fun v => chars (stringify v)) xs); cbn [app];
            eexists _, _; split; [reflexivity|auto|reflexivity|auto]. }
        destruct Hhead as (c & t & Heq & Hws & Hc).
        pose proof (IHe x xs rest Hv ltac:(lia)) as Hes.
        rewrite Heq in *. rewrite (parse_value_array f c t Hws Hc), Hes. reflexivity.
      * destruct fields as [|m ms]; [reflexivity|].
        rewrite json_value_obj in Hv. apply andb_true_iff in Hv as [Hok Hd].
        rewrite (chars_obj m ms rest Hok). rewrite size_obj in Hsize.
        pose proof (IHm m ms rest Hok ltac:(lia)) as Hms.
        assert (Hhead : exists t,
                   elements_text (map member_text (m :: ms)) "}" rest = dquote :: t).
        { cbn [map elements_text].
          destruct (map member_text ms); unfold member_text, quote;
            rewrite chars_cons; cbn [app]; eexists; reflexivity. }
        destruct Hhead as (t & Heq). rewrite Heq in *.
        rewrite parse_value_object, Hms. cbn [option_map].
        rewrite (object_of_distinct _ Hd). reflexivity.
    + intros x xs rest Hok Hsize.
      cbn [forallb] in Hok. apply andb_true_iff in Hok as [Hx Hxs].
      cbn [size_items] in Hsize. destruct xs as [|y ys].
      * cbn [map elements_text]. apply parse_elements_last.
        apply IHv; [exact Hx|lia|reflexivity].
      * change (elements_text (map (fun v => chars (stringify v)) (x :: y :: ys)) "]" rest)
          with (chars (stringify x)
                ++ ","%char
                   :: elements_text (map (fun v => chars (stringify v)) (y :: ys))
                        "]" rest)%list.
        apply parse_elements_more.
        -- apply IHv; [exact Hx|lia|reflexivity].
        -- apply IHe; [exact Hxs|cbn [size_items] in *; lia].
    + intros [k v] ms rest Hok Hsize.
      cbn [forallb snd] in Hok. apply andb_true_iff in Hok as [Hx Hms].
      cbn [size_members snd] in Hsize. destruct ms as [|m' ms'].
      * cbn [map elements_text]. unfold member_text. cbn [fst snd].
        rewrite <- app_assoc. cbn [app]. apply parse_members_last.
        apply IHv; [exact Hx|lia|reflexivity].
      * change (elements_text (map member_text ((k, v) :: m' :: ms')) "}" rest)
          with (member_text (k, v)
                ++ ","%char :: elements_text (map member_text (m' :: ms')) "}" rest)%list.
        unfold member_text at 1. cbn [fst snd].
        rewrite <- app_assoc. cbn [app]. apply parse_members_more.
        -- apply IHv; [exact Hx|lia|reflexivity].
        -- apply IHm; [exact Hms|cbn [size_members] in *; lia].
Qed.


(** *** Enough fuel *)

(** Induction on a value, with the property on the elements of an
    array and on the values of the members of an object. *)
Lemma JsVal_nested_ind (P : JsVal -> Prop) :
  P JUndefined -> P JNull -> (forall b, P (JBool b)) -> (forall n, P (JNum n)) ->
  (forall s, P (JStr s)) ->
  (forall items, Forall P items -> P (JArr items)) ->
  (forall fields, Forall (fun m => P (snd m)) fields -> P (JObj fields)) ->
  forall v, P v.
Proof.
  intros Hu Hn Hb Hz Hs Ha Ho. fix IH 1. intros [| |b|n|s|items|fields].
  - exact Hu.
  - exact Hn.
  - apply Hb.
  - apply Hz.
  - apply Hs.
  - apply Ha. induction items as [|x l IHl]; constructor; [apply IH|exact IHl].
  - apply Ho. induction fields as [|[k x] l IHl]; constructor; [apply IH|exact IHl].
Qed.

Lemma length_chars_app (a b : string) :
  length (chars (a ++ b)) = (length (chars a) + length (chars b))%nat.
Proof. rewrite chars_app. apply List.length_app. Qed.

Lemma length_concat_cons (x : string) (xs : list string) :
  (length (chars x) + length (chars (String.concat "," xs))
   <= length (chars (String.concat "," (x :: xs))))%nat.
Proof.
  destruct xs as [|y ys].
  - cbn [String.concat]. change (length (chars "")) with O. lia.
  - change (String.concat "," (x :: y :: ys))
      with (x ++ "," ++ String.concat "," (y :: ys)).
    rewrite !length_chars_app. lia.
Qed.

Lemma size_bound (v : JsVal) :
  json_value v = true ->
  (S (size v) <= 2 * length (chars (stringify v)))%nat.
Proof.
  induction v as [| |b|n|s|items IH|fields IH] using JsVal_nested_ind; intros Hv.
  - discriminate.
  - cbn. lia.
  - destruct b; cbn; lia.
  - cbn [stringify size]. destruct (number_head n) as (c & t & Heq & _).
    rewrite Heq. cbn [length]. lia.
  - cbn [stringify size]. unfold quote. rewrite chars_cons, chars_app.
    cbn [length]. rewrite List.length_app. lia.
  - rewrite size_arr, stringify_arr. rewrite json_value_arr in Hv.
    assert (Hitems : (size_items items
                      <= 2 * length (chars (String.concat "," (map stringify items))))%nat).
    { induction items as [|x l IHl]; [cbn; lia|].
      cbn [forallb] in Hv. apply andb_true_iff in Hv as [Hx Hl].
      inversion IH as [|? ? Px Pl]; subst.
      specialize (Px Hx). specialize (IHl Pl Hl).
      cbn [size_items map].
      pose proof (length_concat_cons (stringify x) (map stringify l)). lia. }
    change ("[" ++ ?t) with (String "[" t). rewrite chars_cons, chars_app.
    cbn [length]. rewrite List.length_app. lia.
  - rewrite size_obj. rewrite json_value_obj in Hv.
    apply andb_true_iff in Hv as [Hok _]. rewrite (stringify_obj _ Hok).
    assert (Hfields :
              (size_members fields
               <= 2 * length (chars (String.concat ","
                                       (map (fun m => quote (fst m) ++ ":"
                                                      ++ stringify (snd m)) fields))))%nat).
    { induction fields as [|m l IHl]; [cbn; lia|].
      cbn [forallb] in Hok. apply andb_true_iff in Hok as [Hx Hl].
      inversion IH as [|? ? Px Pl]; subst.
      specialize (Px Hx). specialize (IHl Pl Hl).
      cbn [size_members map].
      pose proof (length_concat_cons (quote (fst m) ++ ":" ++ stringify (snd m))
                    (map (fun m => quote (fst m) ++ ":" ++ stringify (snd m)) l)).
      rewrite !length_chars_app in *. lia. }
    change ("{" ++ ?t) with (String "{" t). rewrite chars_cons, chars_app.
    cbn [length]. rewrite List.length_app. lia.
Qed.

(** [JSON.parse(JSON.stringify(v))] is [v], for every value that JSON
    can carry. *)
Lemma JSON_round_trip (v : JsVal) :
  json_value v = true -> Browser.JSON_parse (Browser.JSON_stringify v) = Some v.
Proof.
  intros Hv.
  assert (Htext : JSON_stringify v = stringify v) by (destruct v; [discriminate|..]; reflexivity).
  rewrite Htext. unfold JSON_parse. fold (chars (stringify v)).
  destruct (parse_text (2 * length (chars (stringify v)) + 2)) as [Hparse _].
  specialize (Hparse v [] Hv).
  rewrite app_nil_r in Hparse. rewrite Hparse; [reflexivity| |reflexivity].
  pose proof (size_bound v Hv). lia.
Qed.

End JsonLemmas.

(** ** The hand-off of a result *)

#[export] Instance same_item_frame (k : string) : Frame (same_item k).
Proof. apply unchanged_frame. Qed.

Section HandOff.
Context `{Platform}.

Lemma setItem_same_item k k' v : k <> k' -> keeps (same_item k) (setItem k' v).
Proof.
  intros Hk. unfold setItem. apply keeps_act. intros w.
  unfold same_item, unchanged. simpl. apply lookup_insert_ne. congruence.
Qed.

Lemma removeItem_same_item k k' : k <> k' -> keeps (same_item k) (removeItem k').
Proof.
  intros Hk. unfold removeItem. apply keeps_act. intros w.
  unfold same_item, unchanged. simpl. apply lookup_delete_ne. congruence.
Qed.

(** Only the storage steps touch [localStorage]. *)
Ltac same_item_prim :=
  first
    [ apply setItem_same_item; assumption
    | apply removeItem_same_item; assumption
    | apply keeps_act; intros ?; reflexivity ].

Lemma logout_same_item k :
  k <> CONFIG.TOKEN_KEY -> k <> CONFIG.USER_KEY ->
  keeps (same_item k) AuthManager.logout.
Proof.
  intros Ht Hu w. rewrite logout_run. unfold same_item, unchanged. simpl.
  rewrite logged_out_localStorage. case_decide as Hk; [|reflexivity].
  destruct Hk; contradiction.
Qed.

Lemma loadStoredAuth_same_item k :
  k <> CONFIG.TOKEN_KEY -> k <> CONFIG.USER_KEY ->
  keeps (same_item k) AuthManager.loadStoredAuth.
Proof.
  intros Ht Hu.
  unfold AuthManager.loadStoredAuth, APIClient.setToken, AuthManager.updateUI, getItem.
  frame; same_item_prim.
Qed.

Lemma load_scripts_same_item k :
  k <> CONFIG.TOKEN_KEY -> k <> CONFIG.USER_KEY ->
  keeps (same_item k) load_scripts.
Proof.
  intros Ht Hu.
  unfold load_scripts, APIClient.constructor, AuthManager.constructor,
    AuthManager.init, AuthManager.setupTokenRefresh, getItem.
  frame; same_item_prim.
Qed.

(** What [getStoredResults] returns is decided by the stored item. *)
Lemma getStoredResults_run (w : World) (result : JsVal) :
  localStorage w !! "detection_result" = Some (JSON_stringify result) ->
  JSON_parse (JSON_stringify result) = Some result ->
  DeepShieldApp.getStoredResults w = (Ret result, w).
Proof.
  intros Hitem Hround.
  unfold DeepShieldApp.getStoredResults, bind, getItem, read.
  rewrite Hitem. simpl.
  destruct (String.eqb_spec (JSON_stringify result) "") as [Hempty|_].
  - rewrite Hempty, JSON_parse_empty in Hround. discriminate.
  - simpl. rewrite Hround. reflexivity.
Qed.

Lemma storedResult_run (w : World) (result : JsVal) :
  localStorage w !! "detection_result" = Some (JSON_stringify result) ->
  JSON_parse (JSON_stringify result) = Some result ->
  Script.storedResult w = (Ret result, w).
Proof.
  intros Hitem Hround.
  unfold Script.storedResult, bind, getItem, read.
  rewrite Hitem. unfold js_or. simpl.
  destruct (String.eqb_spec (JSON_stringify result) "") as [Hempty|_].
  - rewrite Hempty, JSON_parse_empty in Hround. discriminate.
  - simpl. rewrite Hround. reflexivity.
Qed.

End HandOff.

(** The request of [analyzeMedia] of [script.js]. *)
Lemma Script_analyzeMedia_publishes `{Platform}
    (file : File) (u : string) (user email : JsVal) (r : Response.t) (data : JsVal)
    (w : World) :
  app_selectedFile w = Some file ->
  localStorage w !! "deepshield_user" = Some u ->
  u <> "" ->
  JSON_parse u = Some user ->
  prop user "email" = Some email ->
  truthy email = true ->
  let sent :=
    {| url := "http://localhost:8000/detect"; method := Some "POST"; headers := [];
       body := BodyForm [("file", FFile file);
                         ("user_email", FString (ToString email))] |} in
  network w (trace w) sent = Responds r ->
  Response.ok r = true ->
  JSON_parse (Response.text r) = Some data ->
  Script.analyzeMedia w
  = (Ret tt,
     emit (NavigateLater "results.html" 1000)
       (set_localStorage
          (insert "detection_result"
             (JSON_stringify
                (JObj (set_assoc "fileUrl" (JStr (blob_url w))
                         (set_assoc "originalFile" (originalFile file)
                            (spread data))))))
          (emit (Fetch sent) w))).
Proof.
  intros Hfile Hu Hne Huser Hemail Htruthy sent Hnet Hok Hdata.
  apply String.eqb_neq in Hne.
  unfold Script.analyzeMedia. unfold bind at 1. unfold read. rewrite Hfile.
  unfold Script.storedUser. unfold bind at 1 2. unfold getItem, read.
  rewrite Hu. unfold js_or. cbn [of_item truthy]. rewrite Hne. cbn [negb ToString].
  rewrite Huser. cbn [orThrow]. unfold ret at 1. unfold bind at 1.
  rewrite Hemail. cbn [orThrow]. unfold ret at 1. rewrite Htruthy. cbn [negb].
  unfold try_catch, Script.post, APIClient.fetch, Script.API_BASE_URL.
  unfold bind at 1.
  change ("http://localhost:8000" ++ "/detect") with "http://localhost:8000/detect".
  fold sent. rewrite Hnet.
  unfold Script.json. unfold bind at 1. cbn [Response.text]. rewrite Hdata.
  cbn [orThrow]. unfold ret at 1. rewrite Hok.
  reflexivity.
Qed.



(** ** The persisted session *)

Section PersistedSession.
Context `{Platform}.

Lemma logged_out_stored (w : World) :
  stored CONFIG.TOKEN_KEY (logged_out w) = false
  /\ stored CONFIG.USER_KEY (logged_out w) = false.
Proof.
  unfold stored. rewrite !logged_out_localStorage.
  split; reflexivity.
Qed.

Lemma emit_stored k ev w : stored k (emit ev w) = stored k w.
Proof. reflexivity. Qed.

(** What [loadStoredAuth] does to the storage: nothing, or it writes
    the stored token back, or it removes both keys. *)
Lemma loadStoredAuth_storage (w : World) :
  let w' := snd (AuthManager.loadStoredAuth w) in
  localStorage w' = localStorage w
  \/ (exists t, localStorage w !! CONFIG.TOKEN_KEY = Some t
                /\ localStorage w' = <[CONFIG.TOKEN_KEY := t]> (localStorage w))
  \/ (stored CONFIG.TOKEN_KEY w' = false /\ stored CONFIG.USER_KEY w' = false).
Proof.
  unfold AuthManager.loadStoredAuth, bind, getItem, read.
  destruct (localStorage w !! CONFIG.TOKEN_KEY) as [t|] eqn:Ht;
    [|left; reflexivity].
  destruct (localStorage w !! CONFIG.USER_KEY) as [u|] eqn:Hu;
    [|left; unfold of_item; rewrite andb_false_r; reflexivity].
  unfold of_item.
  destruct (truthy (JStr t)) eqn:Htruthy; [|left; reflexivity].
  destruct (truthy (JStr u)); [|left; reflexivity].
  cbn [andb ToString].
  destruct (JSON_parse u) as [user|];
    cbv beta iota zeta delta
      [try_catch bind act orThrow APIClient.setToken setItem
       AuthManager.updateUI ret throw read fst snd
       set_api_token set_auth_currentUser set_auth_token api_token].
  - rewrite Htruthy.
    cbv beta iota zeta delta
      [try_catch bind act orThrow APIClient.setToken setItem
       AuthManager.updateUI ret throw read fst snd].
    match goal with
    | |- context [AuthManager.isTokenExpired ?x] =>
        destruct (AuthManager.isTokenExpired x)
    end.
    + rewrite logout_run. right; right. apply logged_out_stored.
    + right; left. exists t. split; reflexivity.
  - rewrite logout_run. right; right. apply logged_out_stored.
Qed.

(** What [setAuthData] stores. *)
Lemma setAuthData_storage (token user : JsVal) (w : World) :
  truthy token = true ->
  fst (AuthManager.setAuthData token user w) = Ret tt
  /\ localStorage (snd (AuthManager.setAuthData token user w))
     = <[CONFIG.TOKEN_KEY := ToString token]>
         (<[CONFIG.USER_KEY := JSON_stringify user]>
            (<[CONFIG.TOKEN_KEY := ToString token]> (localStorage w))).
Proof.
  intros Ht.
  unfold AuthManager.setAuthData, APIClient.setToken, AuthManager.setupTokenRefresh,
    AuthManager.updateUI, setItem, bind, act.
  rewrite Ht. split; reflexivity.
Qed.

(** How [verifyOTP] ends: with the response, after storing both keys;
    or with an exception, after a logout or with the storage as it
    was. *)
Lemma verifyOTP_storage (email otp : string) (w : World) :
  let r := AuthManager.verifyOTP email otp w in
  (exists response token user,
      fst r = Ret response
      /\ localStorage (snd r)
         = <[CONFIG.TOKEN_KEY := token]>
             (<[CONFIG.USER_KEY := user]>
                (<[CONFIG.TOKEN_KEY := token]> (localStorage w))))
  \/ ((exists e, fst r = Throw e)
      /\ (localStorage (snd r) = localStorage w
          \/ (stored CONFIG.TOKEN_KEY (snd r) = false
              /\ stored CONFIG.USER_KEY (snd r) = false))).
Proof.
  intros r. assert (Hr : r = AuthManager.verifyOTP email otp w) by reflexivity.
  clearbody r.
  unfold AuthManager.verifyOTP, try_catch, bind at 1,
    APIClient.verifyOTP, APIClient.postForm in Hr.
  set (options := {| opt_method := _ |}) in Hr.
  destruct (request_run "/auth/verify-otp" options w)
    as [(data & r0 & _ & _ & Hreq)
       |[(err & r0 & _ & _ & _ & _ & Hreq)|(cause & Hreq)]];
    rewrite Hreq in Hr; clear Hreq.
  - unfold bind, orThrow in Hr.
    destruct (prop data "access_token") as [access_token|] eqn:Ha;
      [|subst r; right; split; [eexists; reflexivity|left; reflexivity]].
    assert (Hu : exists user, prop data "user" = Some user).
    { destruct data; simpl in *; try discriminate; eauto. }
    destruct Hu as [user Hu]. rewrite Hu in Hr. cbn [ret throw] in Hr.
    destruct (truthy access_token) eqn:Ht; cbn [andb] in Hr;
      [|subst r; right; split; [eexists; reflexivity|left; reflexivity]].
    destruct (truthy user);
      [|subst r; right; split; [eexists; reflexivity|left; reflexivity]].
    destruct (setAuthData_storage access_token user
                (emit (Fetch (APIClient.config w "/auth/verify-otp" options)) w) Ht)
      as [Hret Hls].
    destruct (AuthManager.setAuthData access_token user _) as [o w1].
    simpl in Hret, Hls. subst o. cbn [act ret fst snd] in Hr. subst r.
    left. exists data, (ToString access_token), (JSON_stringify user).
    split; [reflexivity|exact Hls].
  - unfold bind in Hr. rewrite handleAuthError_run in Hr.
    destruct (holds Authentication err); cbn [throw fst snd] in Hr; subst r.
    + right. split; [eexists; reflexivity|right]. apply logged_out_stored.
    + right. split; [eexists; reflexivity|left; reflexivity].
  - unfold bind in Hr. rewrite handleAuthError_run in Hr. subst r.
    right. split; [eexists; reflexivity|left; reflexivity].
Qed.

End PersistedSession.

(** C9, as stated, fails: the server accepts the passcode and issues an
    opaque credential; [verifyOTP] succeeds and stores the credential
    and the identity, but no valid expiry comes with them, so the
    persisted session is neither fully present nor fully absent. *)
Lemma C9_counterexample :
  let w := visitor "login.html" (accepting "opaque-token") in
  let w' := snd (AuthManager.verifyOTP "user@example.com" "123456" w) in
  fst (AuthManager.verifyOTP "user@example.com" "123456" w)
  = Ret (JObj [("access_token", JStr "opaque-token");
               ("user", JObj [("email", JStr "user@example.com")])])
  /\ localStorage w' !! CONFIG.TOKEN_KEY = Some "opaque-token"
  /\ stored CONFIG.USER_KEY w' = true
  /\ stored_expiry w' = None
  /\ session_fully_present w' = false
  /\ session_fully_absent w' = false
  /\ spec_all_or_nothing w' = false.
Proof. vm_compute. auto 10. Qed.

(** The login of [script.js] stores the identity alone, and a later
    [loadStoredAuth] leaves it alone. *)
Example loadStoredAuth_leaves_lone_identity :
  let w := visitor "login.html"
             (answering (json_response 200
                           (JObj [("email", JStr "user@example.com");
                                  ("session_token", JStr "opaque-token")]))) in
  let w1 := snd (Script.verifyOTP "user@example.com" ["1"; "2"; "3"; "4"; "5"; "6"] w) in
  let w2 := snd (AuthManager.loadStoredAuth (new_page "index.html" w1)) in
  stored CONFIG.TOKEN_KEY w2 = false /\ stored CONFIG.USER_KEY w2 = true.
Proof. vm_compute. auto. Qed.

(** C9, amended. The credential and the identity are written and
    removed together: [logout] leaves neither, a [verifyOTP] that
    succeeds leaves both, and from a state that holds both or neither,
    [loadStoredAuth], [verifyOTP] (however it ends) and [logout] lead to
    a state that holds both or neither. No operation checks the expiry
    of the credential when it writes it. *)
Theorem C9_session_keys_are_written_and_removed_together :
  forall `{Platform} (w : World),
    (stored CONFIG.TOKEN_KEY (snd (AuthManager.logout w)) = false
     /\ stored CONFIG.USER_KEY (snd (AuthManager.logout w)) = false)
    /\ (forall email otp response,
           fst (AuthManager.verifyOTP email otp w) = Ret response ->
           stored CONFIG.TOKEN_KEY (snd (AuthManager.verifyOTP email otp w)) = true
           /\ stored CONFIG.USER_KEY (snd (AuthManager.verifyOTP email otp w)) = true)
    /\ (paired w ->
        paired (snd (AuthManager.loadStoredAuth w))
        /\ (forall email otp, paired (snd (AuthManager.verifyOTP email otp w)))
        /\ paired (snd (AuthManager.logout w))).
Proof.
  intros P w.
  assert (Hlogout : stored CONFIG.TOKEN_KEY (snd (AuthManager.logout w)) = false
                    /\ stored CONFIG.USER_KEY (snd (AuthManager.logout w)) = false).
  { rewrite logout_run. apply logged_out_stored. }
  assert (Hboth : forall (ls : gmap string string) w' token user,
             localStorage w'
             = <[CONFIG.TOKEN_KEY := token]>
                 (<[CONFIG.USER_KEY := user]> (<[CONFIG.TOKEN_KEY := token]> ls)) ->
             stored CONFIG.TOKEN_KEY w' = true /\ stored CONFIG.USER_KEY w' = true).
  { intros ls w' token user Hls. unfold stored. rewrite Hls.
    rewrite lookup_insert_eq.
    rewrite lookup_insert_ne by discriminate. rewrite lookup_insert_eq.
    split; reflexivity. }
  split; [exact Hlogout|]. split.
  - intros email otp response Hret.
    destruct (verifyOTP_storage email otp w)
      as [(response' & token & user & _ & Hls)|[[e He] _]].
    + apply (Hboth _ _ _ _ Hls).
    + rewrite He in Hret. discriminate.
  - intros Hpaired. split; [|split].
    + destruct (loadStoredAuth_storage w) as [Hls|[(t & Ht & Hls)|[Ht Hu]]].
      * unfold paired, stored in *. rewrite Hls. exact Hpaired.
      * unfold paired, stored in *. rewrite Hls.
        rewrite lookup_insert_eq. rewrite lookup_insert_ne by discriminate.
        rewrite Ht in Hpaired. exact Hpaired.
      * unfold paired. rewrite Ht, Hu. reflexivity.
    + intros email otp.
      destruct (verifyOTP_storage email otp w)
        as [(response' & token & user & _ & Hls)|[_ [Hls|[Ht Hu]]]].
      * destruct (Hboth _ _ _ _ Hls) as [Ht Hu].
        unfold paired. rewrite Ht, Hu. reflexivity.
      * unfold paired, stored in *. rewrite Hls. exact Hpaired.
      * unfold paired. rewrite Ht, Hu. reflexivity.
    + destruct Hlogout as [Ht Hu]. unfold paired. rewrite Ht, Hu. reflexivity.
Qed.

Lemma C9_witness :
  paired (visitor "login.html" (accepting token_exp_1700000000))
  /\ paired (snd (AuthManager.verifyOTP "user@example.com" "123456"
                   (visitor "login.html" (accepting token_exp_1700000000))))
  /\ stored CONFIG.TOKEN_KEY
       (snd (AuthManager.verifyOTP "user@example.com" "123456"
               (visitor "login.html" (accepting token_exp_1700000000)))) = true.
Proof.
  pose proof (C9_session_keys_are_written_and_removed_together
                (visitor "login.html" (accepting token_exp_1700000000)))
    as (_ & Hsuccess & Hpaired).
  assert (Hstart : paired (visitor "login.html" (accepting token_exp_1700000000)))
    by reflexivity.
  split; [exact Hstart|]. split.
  - apply (Hpaired Hstart).
  - apply (Hsuccess "user@example.com" "123456"
             (JObj [("access_token", JStr token_exp_1700000000);
                    ("user", JObj [("email", JStr "user@example.com")])])).
    vm_compute. reflexivity.
Defined.

(** * Further properties of the code *)

(** ** The headers of a request *)

Lemma assoc_set_assoc_eq {A : Type} (k : string) (v : A) (l : list (string * A)) :
  assoc k (set_assoc k v l) = Some v.
Proof.
  induction l as [|[k' v'] l IH]; simpl.
  - rewrite String.eqb_refl. reflexivity.
  - destruct (String.eqb k k') eqn:Hk; simpl.
    + rewrite String.eqb_refl. reflexivity.
    + rewrite Hk. exact IH.
Qed.

Lemma assoc_set_assoc_ne {A : Type} (k k' : string) (v : A) (l : list (string * A)) :
  k <> k' -> assoc k (set_assoc k' v l) = assoc k l.
Proof.
  intros Hne. apply String.eqb_neq in Hne.
  induction l as [|[k0 v0] l IH]; simpl.
  - rewrite Hne. reflexivity.
  - destruct (String.eqb k' k0) eqn:Hk; simpl.
    + apply String.eqb_eq in Hk. subst k0. rewrite Hne. reflexivity.
    + destruct (String.eqb k k0); [reflexivity|exact IH].
Qed.

(** X1. The request that [request] sends carries the [Authorization]
    header the caller gave whenever that one is not empty; otherwise it
    carries [Bearer] and the held token exactly when a token is held.
    Every other header is the caller's (or, when the options have no
    headers, the JSON content type), and the method and the body are
    the caller's. *)
Theorem X1_request_attaches_bearer_token :
  forall `{Platform} (w : World) (endpoint : string) (options : Options),
    let given :=
      match opt_headers options with
      | Some h => h
      | None => [("Content-Type", "application/json")]
      end in
    let sent := APIClient.config w endpoint options in
    assoc "Authorization" (headers sent)
    = (if truthy (of_item (assoc "Authorization" given))
       then assoc "Authorization" given
       else if truthy (api_token w)
            then Some ("Bearer " ++ ToString (api_token w))
            else assoc "Authorization" given)
    /\ (forall k, k <> "Authorization" -> assoc k (headers sent) = assoc k given)
    /\ method sent = opt_method options
    /\ body sent = opt_body options
    /\ fetches (trace (snd (APIClient.request endpoint options w)))
       = (fetches (trace w) ++ [Fetch sent])%list.
Proof.
  intros P w endpoint options given sent.
  split; [|split; [|split; [|split]]]; try reflexivity.
  - unfold sent, APIClient.config. fold given. simpl.
    destruct (truthy (of_item (assoc "Authorization" given))) eqn:Hgiven.
    + rewrite andb_false_r. reflexivity.
    + rewrite andb_true_r. destruct (truthy (api_token w)); [|reflexivity].
      apply assoc_set_assoc_eq.
  - intros k Hk. unfold sent, APIClient.config. fold given. simpl.
    destruct (truthy (api_token w) && negb (truthy (of_item (assoc "Authorization" given))));
      [|reflexivity].
    apply assoc_set_assoc_ne. exact Hk.
  - apply request_fetches.
Qed.

(** ** The stored token of the transport client *)

(** X2. A token given to [setToken] is what a new [APIClient] holds
    after a page load; after [clearAuth], and after [setToken] with an
    empty token, a new [APIClient] holds none. *)
Theorem X2_api_token_survives_page_load :
  forall `{Platform} (token page : string) (w : World),
    token <> "" ->
    api_token (snd (APIClient.constructor
                      (new_page page (snd (APIClient.setToken (JStr token) w)))))
    = JStr token
    /\ api_token (snd (APIClient.constructor
                         (new_page page (snd (APIClient.clearAuth w)))))
       = JNull
    /\ api_token (snd (APIClient.constructor
                         (new_page page (snd (APIClient.setToken (JStr "") w)))))
       = JNull
    /\ api_token (snd (APIClient.constructor
                         (new_page page (snd (APIClient.setToken JNull w)))))
       = JNull.
Proof.
  intros P token page w Hne. apply String.eqb_neq in Hne.
  unfold APIClient.constructor, APIClient.setToken, APIClient.clearAuth,
    getItem, setItem, removeItem, bind, act, read. simpl.
  rewrite Hne. simpl.
  rewrite lookup_insert_eq.
  rewrite lookup_delete_ne by discriminate.
  rewrite !lookup_delete_eq. auto.
Qed.

Lemma X2_witness :
  "opaque-token" <> ""
  /\ api_token (snd (APIClient.constructor
                       (new_page "index.html"
                          (snd (APIClient.setToken (JStr "opaque-token")
                                  (visitor "login.html" offline))))))
     = JStr "opaque-token".
Proof.
  split; [discriminate|].
  pose proof (X2_api_token_survives_page_load "opaque-token" "index.html"
                (visitor "login.html" offline) ltac:(discriminate)) as [Hkept _].
  exact Hkept.
Defined.

(** ** Loading the stored session *)

Section Loading.
Context `{Platform}.

(** Whether a token is expired depends on the held token and the clock
    only. *)
Lemma isTokenExpired_ext (w w' : World) :
  auth_token w = auth_token w' -> clock w = clock w' ->
  AuthManager.isTokenExpired w = AuthManager.isTokenExpired w'.
Proof.
  intros Ht Hc. unfold AuthManager.isTokenExpired. rewrite Ht, Hc. reflexivity.
Qed.

(** The run of [loadStoredAuth] when both keys hold something. *)
Lemma loadStoredAuth_run (w : World) (t u : string) :
  localStorage w !! CONFIG.TOKEN_KEY = Some t ->
  localStorage w !! CONFIG.USER_KEY = Some u ->
  t <> "" -> u <> "" ->
  AuthManager.loadStoredAuth w
  = match JSON_parse u with
    | Some user =>
        let w1 :=
          set_localStorage (insert CONFIG.TOKEN_KEY t)
            (set_api_token (JStr t)
               (set_auth_currentUser user (set_auth_token (JStr t) w))) in
        if AuthManager.isTokenExpired w1
        then (Ret tt, logged_out w1)
        else (Ret tt, emit (UpdateUI (AuthManager.isAuthenticated w1)) w1)
    | None =>
        (Ret tt, logged_out (emit (Console "error") (set_auth_token (JStr t) w)))
    end.
Proof.
  intros Ht Hu Hte Hue.
  apply String.eqb_neq in Hte. apply String.eqb_neq in Hue.
  unfold AuthManager.loadStoredAuth, bind, getItem, read.
  rewrite Ht, Hu. unfold of_item.
  assert (Htruthy : truthy (JStr t) = true) by (simpl; rewrite Hte; reflexivity).
  assert (Hutruthy : truthy (JStr u) = true) by (simpl; rewrite Hue; reflexivity).
  rewrite Htruthy, Hutruthy. cbn [andb ToString].
  destruct (JSON_parse u) as [user|];
    cbv beta iota zeta delta
      [try_catch bind act orThrow APIClient.setToken setItem
       AuthManager.updateUI ret throw read fst snd ToString].
  - rewrite Htruthy.
    cbv beta iota zeta delta
      [try_catch bind act orThrow APIClient.setToken setItem
       AuthManager.updateUI ret throw read fst snd ToString].
    match goal with
    | |- context [AuthManager.isTokenExpired ?x] =>
        destruct (AuthManager.isTokenExpired x)
    end.
    + rewrite logout_run. reflexivity.
    + reflexivity.
  - rewrite logout_run. reflexivity.
Qed.

(** With no token stored, or an empty one, [loadStoredAuth] does
    nothing. *)
Lemma loadStoredAuth_without_token (w : World) :
  truthy (of_item (localStorage w !! CONFIG.TOKEN_KEY)) = false ->
  AuthManager.loadStoredAuth w = (Ret tt, w).
Proof.
  intros Ht. unfold AuthManager.loadStoredAuth, bind, getItem, read.
  rewrite Ht. reflexivity.
Qed.

End Loading.

(** X3. When the verification call succeeds but the response lacks a
    truthy [access_token] or a truthy [user], [AuthManager.verifyOTP]
    throws [Invalid response format] (a TypeError when the response is
    [null]) and leaves the world as the call left it: nothing is
    stored, nothing is held, nobody is logged out. *)
Theorem X3_verifyOTP_rejects_response_without_token_or_user :
  forall `{Platform} (email otp : string) (data : JsVal) (w w1 : World),
    APIClient.verifyOTP email otp w = (Ret data, w1) ->
    match prop data "access_token", prop data "user" with
    | Some access_token, Some user =>
        truthy access_token && truthy user = false ->
        AuthManager.verifyOTP email otp w
        = (Throw (ExnJs (PlainError "Invalid response format")), w1)
    | _, _ =>
        AuthManager.verifyOTP email otp w = (Throw (ExnJs TypeError), w1)
    end
    /\ localStorage w1 = localStorage w
    /\ auth_token w1 = auth_token w
    /\ auth_currentUser w1 = auth_currentUser w
    /\ logouts (trace w1) = logouts (trace w).
Proof.
  intros P email otp data w w1 Hcall.
  split.
  - unfold AuthManager.verifyOTP, try_catch, bind. rewrite Hcall.
    destruct (prop data "access_token") as [access_token|] eqn:Ha.
    + assert (Hu : exists user, prop data "user" = Some user).
      { destruct data; simpl in *; try discriminate; eauto. }
      destruct Hu as [user Hu]. rewrite Hu. intros Hfalsy.
      unfold orThrow, ret. rewrite Hfalsy. reflexivity.
    + destruct (prop data "user"); reflexivity.
  - unfold APIClient.verifyOTP, APIClient.postForm in Hcall.
    match type of Hcall with
    | APIClient.request ?e ?o _ = _ =>
        destruct (request_run e o w)
          as [(data' & r & _ & _ & Hreq)
             |[(err & r & _ & _ & _ & _ & Hreq)|(cause & Hreq)]];
          rewrite Hreq in Hcall; inversion Hcall; subst
    end.
    simpl. rewrite logouts_app. unfold logouts at 2. simpl.
    repeat split; lia.
Qed.

Lemma X3_witness :
  let w := visitor "login.html"
             (answering (json_response 200 (JObj [("message", JStr "ok")]))) in
  AuthManager.verifyOTP "user@example.com" "123456" w
  = (Throw (ExnJs (PlainError "Invalid response format")),
     snd (APIClient.verifyOTP "user@example.com" "123456" w)).
Proof.
  intros w.
  assert (Hcall : APIClient.verifyOTP "user@example.com" "123456" w
                  = (Ret (JObj [("message", JStr "ok")]),
                     snd (APIClient.verifyOTP "user@example.com" "123456" w)))
    by (vm_compute; reflexivity).
  pose proof (X3_verifyOTP_rejects_response_without_token_or_user
                "user@example.com" "123456" _ w _ Hcall) as [Hthrow _].
  simpl in Hthrow. apply Hthrow. reflexivity.
Defined.

(** X4. A session written by [setAuthData] is found again after a page
    load: when the user survives the JSON serialisation and the token is
    not expired, the new page holds the same token and the same user,
    the transport client holds the token, the expiry poll is running,
    [isAuthenticated] is true, and the storage is as it was. *)
Theorem X4_session_is_restored_after_page_load :
  forall `{Platform} (t : string) (user : JsVal) (page : string) (w : World),
    t <> "" ->
    truthy user = true ->
    JSON_parse (JSON_stringify user) = Some user ->
    AuthManager.isTokenExpired (set_auth_token (JStr t) w) = false ->
    let w1 := snd (AuthManager.setAuthData (JStr t) user w) in
    let w2 := navigate page w1 in
    auth_token w2 = JStr t
    /\ auth_currentUser w2 = user
    /\ api_token w2 = JStr t
    /\ auth_refreshTimer w2 = true
    /\ AuthManager.isAuthenticated w2 = true
    /\ localStorage w2 = localStorage w1.
Proof.
  intros P t user page w Hne Huser Hround Hfresh w1 w2.
  assert (Htruthy : truthy (JStr t) = true).
  { simpl. apply String.eqb_neq in Hne. rewrite Hne. reflexivity. }
  destruct (setAuthData_storage (JStr t) user w Htruthy) as [_ Hls].
  fold w1 in Hls. cbn [ToString] in Hls.
  assert (HT : localStorage w1 !! CONFIG.TOKEN_KEY = Some t).
  { rewrite Hls. apply lookup_insert_eq. }
  assert (HU : localStorage w1 !! CONFIG.USER_KEY = Some (JSON_stringify user)).
  { rewrite Hls. rewrite lookup_insert_ne by discriminate. apply lookup_insert_eq. }
  assert (Hue : JSON_stringify user <> "").
  { intros He. rewrite He, JSON_parse_empty in Hround. discriminate. }
  assert (Hclock : clock w1 = clock w).
  { unfold w1, AuthManager.setAuthData, APIClient.setToken,
      AuthManager.setupTokenRefresh, AuthManager.updateUI, setItem, bind, act.
    rewrite Htruthy. reflexivity. }
  clearbody w1.
  set (w0 := set_auth_refreshTimer false
               (set_auth_token JNull
                  (set_auth_currentUser JNull
                     (set_api_token (JStr t) (new_page page w1))))).
  assert (Hnav : w2 = snd (AuthManager.setupTokenRefresh
                             (snd (AuthManager.loadStoredAuth w0)))).
  { unfold w2, navigate, load_scripts, APIClient.constructor,
      AuthManager.constructor, AuthManager.init, bind, getItem, read, act.
    cbn [localStorage new_page]. rewrite HT. cbn [of_item].
    fold w0. destruct (AuthManager.loadStoredAuth w0) as [[[]|e] w3] eqn:Hload.
    - reflexivity.
    - exfalso. revert Hload.
      rewrite (loadStoredAuth_run w0 t (JSON_stringify user) HT HU Hne Hue).
      rewrite Hround. cbv zeta.
      match goal with
      | |- context [if ?b then _ else _] => destruct b
      end; discriminate. }
  rewrite (loadStoredAuth_run w0 t (JSON_stringify user) HT HU Hne Hue) in Hnav.
  rewrite Hround in Hnav. cbv zeta in Hnav.
  set (w3 := set_localStorage (insert CONFIG.TOKEN_KEY t)
               (set_api_token (JStr t)
                  (set_auth_currentUser user (set_auth_token (JStr t) w0)))) in Hnav.
  assert (Hexp : AuthManager.isTokenExpired w3 = false).
  { rewrite <- Hfresh. apply isTokenExpired_ext; [reflexivity|exact Hclock]. }
  rewrite Hexp in Hnav. rewrite Hnav. clear Hnav.
  unfold AuthManager.setupTokenRefresh, act. cbn [snd fst].
  assert (Hauth : AuthManager.isAuthenticated
                    (set_auth_refreshTimer
                       (truthy (auth_token
                                  (emit (UpdateUI (AuthManager.isAuthenticated w3)) w3)))
                       (emit (UpdateUI (AuthManager.isAuthenticated w3)) w3))
                  = true).
  { unfold AuthManager.isAuthenticated at 1.
    match goal with
    | |- context [AuthManager.isTokenExpired ?x] =>
        rewrite (isTokenExpired_ext x w3) by reflexivity
    end.
    rewrite Hexp.
    change (truthy (JStr t) && truthy user && negb false = true).
    rewrite Htruthy, Huser. reflexivity. }
  split; [reflexivity|]. split; [reflexivity|]. split; [reflexivity|].
  split; [exact Htruthy|]. split; [exact Hauth|].
  change (<[CONFIG.TOKEN_KEY:=t]> (localStorage w1) = localStorage w1).
  apply insert_id. exact HT.
Qed.

Lemma X4_witness :
  AuthManager.isAuthenticated
    (navigate "dashboard.html"
       (snd (AuthManager.setAuthData (JStr token_exp_1700000000)
               (JObj [("email", JStr "user@example.com")])
               (visitor "login.html" offline))))
  = true.
Proof.
  assert (Hround : JSON_parse (JSON_stringify (JObj [("email", JStr "user@example.com")]))
                   = Some (JObj [("email", JStr "user@example.com")]))
    by (vm_compute; reflexivity).
  assert (Hfresh : AuthManager.isTokenExpired
                     (set_auth_token (JStr token_exp_1700000000)
                        (visitor "login.html" offline)) = false)
    by (vm_compute; reflexivity).
  pose proof (X4_session_is_restored_after_page_load token_exp_1700000000
                (JObj [("email", JStr "user@example.com")]) "dashboard.html"
                (visitor "login.html" offline)
                ltac:(discriminate) eq_refl Hround Hfresh) as Hall.
  cbv zeta in Hall. destruct Hall as (_ & _ & _ & _ & Hauth & _). exact Hauth.
Defined.

(** X5. A stored session that cannot be used is torn down when it is
    loaded: when both keys hold something and the stored user is not
    JSON or the stored token is expired, [loadStoredAuth] removes both
    keys, holds neither token nor user, dispatches [user-logout] once,
    and makes no network call. *)
Theorem X5_unusable_stored_session_is_removed_on_load :
  forall `{Platform} (t u : string) (w : World),
    localStorage w !! CONFIG.TOKEN_KEY = Some t ->
    localStorage w !! CONFIG.USER_KEY = Some u ->
    t <> "" -> u <> "" ->
    JSON_parse u = None
    \/ AuthManager.isTokenExpired (set_auth_token (JStr t) w) = true ->
    let w' := snd (AuthManager.loadStoredAuth w) in
    fst (AuthManager.loadStoredAuth w) = Ret tt
    /\ stored CONFIG.TOKEN_KEY w' = false
    /\ stored CONFIG.USER_KEY w' = false
    /\ auth_token w' = JNull
    /\ auth_currentUser w' = JNull
    /\ api_token w' = JNull
    /\ AuthManager.isAuthenticated w' = false
    /\ logouts (trace w') = S (logouts (trace w))
    /\ fetches (trace w') = fetches (trace w).
Proof.
  intros P t u w HT HU Hte Hue Hbad w'.
  assert (Hout : exists w0,
             AuthManager.loadStoredAuth w = (Ret tt, logged_out w0)
             /\ logouts (trace w0) = logouts (trace w)
             /\ fetches (trace w0) = fetches (trace w)).
  { rewrite (loadStoredAuth_run w t u HT HU Hte Hue).
    destruct (JSON_parse u) as [user|] eqn:Hparse.
    - destruct Hbad as [Hbad|Hbad]; [discriminate|].
      cbv zeta.
      match goal with
      | |- context [AuthManager.isTokenExpired ?x] =>
          rewrite (isTokenExpired_ext x (set_auth_token (JStr t) w)) by reflexivity
      end.
      rewrite Hbad. eexists. split; [reflexivity|]. split; reflexivity.
    - eexists. split; [reflexivity|]. simpl.
      rewrite logouts_app, fetches_app. unfold logouts at 2. simpl.
      rewrite app_nil_r. split; [lia|reflexivity]. }
  destruct Hout as (w0 & Hrun & Hl & Hf).
  unfold w'. rewrite Hrun. cbn [fst snd].
  destruct (logged_out_stored w0) as [Hst Hsu].
  destruct (logged_out_memory w0) as (Hat & Hau & Hap).
  rewrite logged_out_logouts, logged_out_fetches, Hl, Hf.
  repeat split; try assumption.
  apply isAuthenticated_no_token. rewrite Hat. reflexivity.
Qed.

Lemma X5_witness :
  let w := set_localStorage
             (fun _ => {[ "deepshield_token" := "opaque-token";
                          "deepshield_user" := "{}" ]})
             (visitor "dashboard.html" offline) in
  stored CONFIG.TOKEN_KEY (snd (AuthManager.loadStoredAuth w)) = false
  /\ stored CONFIG.USER_KEY (snd (AuthManager.loadStoredAuth w)) = false.
Proof.
  intros w.
  pose proof (X5_unusable_stored_session_is_removed_on_load
                "opaque-token" "{}" w) as Hall.
  assert (HT : localStorage w !! CONFIG.TOKEN_KEY = Some "opaque-token")
    by (vm_compute; reflexivity).
  assert (HU : localStorage w !! CONFIG.USER_KEY = Some "{}")
    by (vm_compute; reflexivity).
  assert (Hexp : AuthManager.isTokenExpired (set_auth_token (JStr "opaque-token") w) = true)
    by (vm_compute; reflexivity).
  specialize (Hall HT HU ltac:(discriminate) ltac:(discriminate) (or_intror Hexp)).
  cbv zeta in Hall. destruct Hall as (_ & Ht & Hu & _).
  split; assumption.
Defined.

(** X6. A logout in another tab is not noticed: once the storage is
    what the logout of the other tab left, the [storage] listener of
    this tab, for any key, changes nothing, so this tab still holds its
    token and its user and answers [isAuthenticated] as before. *)
Theorem X6_logout_in_another_tab_is_not_noticed :
  forall `{Platform} (other this : World) (key : string),
    localStorage this = localStorage (snd (AuthManager.logout other)) ->
    AuthManager.on_storage key this = (Ret tt, this).
Proof.
  intros P other this key Hshared.
  assert (Hload : AuthManager.loadStoredAuth this = (Ret tt, this)).
  { apply loadStoredAuth_without_token.
    rewrite Hshared, logout_run. cbn [snd].
    rewrite logged_out_localStorage.
    case_decide as Hk; [reflexivity|].
    exfalso. apply Hk. left. reflexivity. }
  unfold AuthManager.on_storage.
  destruct (_ || _); [exact Hload|reflexivity].
Qed.

Lemma X6_witness :
  let this := member token_exp_1700000000 1699999999000 in
  localStorage this
  = localStorage (snd (AuthManager.logout (visitor "dashboard.html" offline)))
  /\ AuthManager.on_storage CONFIG.TOKEN_KEY this = (Ret tt, this)
  /\ AuthManager.isAuthenticated this = true.
Proof.
  intros this.
  assert (Hshared : localStorage this
                    = localStorage (snd (AuthManager.logout
                                           (visitor "dashboard.html" offline))))
    by (vm_compute; reflexivity).
  split; [exact Hshared|]. split.
  - exact (X6_logout_in_another_tab_is_not_noticed
             (visitor "dashboard.html" offline) this CONFIG.TOKEN_KEY Hshared).
  - vm_compute. reflexivity.
Defined.

(** ** The expiry poll *)

(** X7. The callback of the expiry poll makes no network call. While
    the token is not expired it leaves the world exactly as it is; once
    the token is expired it logs out, after which both session keys are
    gone, the poll is stopped and [isAuthenticated] is false. *)
Theorem X7_expiry_poll_is_local :
  forall `{Platform} (w : World),
    fetches (trace (snd (AuthManager.refresh_tick w))) = fetches (trace w)
    /\ (AuthManager.isTokenExpired w = false ->
        AuthManager.refresh_tick w = (Ret tt, w))
    /\ (AuthManager.isTokenExpired w = true ->
        let w' := snd (AuthManager.refresh_tick w) in
        stored CONFIG.TOKEN_KEY w' = false
        /\ stored CONFIG.USER_KEY w' = false
        /\ auth_refreshTimer w' = false
        /\ AuthManager.isAuthenticated w' = false
        /\ logouts (trace w') = S (logouts (trace w))).
Proof.
  intros P w. unfold AuthManager.refresh_tick, bind, read.
  destruct (AuthManager.isTokenExpired w) eqn:Hexp.
  - rewrite logout_run. cbn [snd].
    split; [apply logged_out_fetches|]. split; [discriminate|]. intros _.
    destruct (logged_out_stored w) as [Ht Hu].
    destruct (logged_out_memory w) as (Hat & _ & _).
    split; [exact Ht|]. split; [exact Hu|]. split.
    + unfold logged_out. destruct (AuthManager.isProtectedPage w); reflexivity.
    + split; [|apply logged_out_logouts].
      apply isAuthenticated_no_token. rewrite Hat. reflexivity.
  - split; [reflexivity|]. split; [reflexivity|discriminate].
Qed.

Lemma X7_witness :
  AuthManager.isTokenExpired (member token_exp_1700000000 1699999999000) = false
  /\ AuthManager.refresh_tick (member token_exp_1700000000 1699999999000)
     = (Ret tt, member token_exp_1700000000 1699999999000)
  /\ AuthManager.isTokenExpired (member token_exp_1700000000 1700000000001) = true
  /\ AuthManager.isAuthenticated
       (snd (AuthManager.refresh_tick (member token_exp_1700000000 1700000000001)))
     = false.
Proof.
  assert (Hfresh : AuthManager.isTokenExpired
                     (member token_exp_1700000000 1699999999000) = false)
    by (vm_compute; reflexivity).
  assert (Hold : AuthManager.isTokenExpired
                   (member token_exp_1700000000 1700000000001) = true)
    by (vm_compute; reflexivity).
  pose proof (X7_expiry_poll_is_local (member token_exp_1700000000 1699999999000))
    as (_ & Hkeep & _).
  pose proof (X7_expiry_poll_is_local (member token_exp_1700000000 1700000000001))
    as (_ & _ & Hout).
  specialize (Hout Hold). cbv zeta in Hout. destruct Hout as (_ & _ & _ & Hauth & _).
  split; [exact Hfresh|]. split; [exact (Hkeep Hfresh)|]. split; [exact Hold|exact Hauth].
Defined.

(** ** Asking for a passcode *)

(** X8. [AuthManager.sendOTP] makes exactly one network call. When the
    call succeeds it returns the response and remembers the identifier
    under [otp_email] of the session storage; when the call fails it
    throws the very error of the transport client, and the remembered
    identifier is what it was, or gone when the failure logged out. *)
Theorem X8_sendOTP_remembers_identifier_on_success :
  forall `{Platform} (email : string) (w : World),
    let r := AuthManager.sendOTP email w in
    length (fetches (trace (snd r))) = S (length (fetches (trace w)))
    /\ match fst r with
       | Ret response =>
           fst (APIClient.sendOTP email w) = Ret response
           /\ sessionStorage (snd r) !! "otp_email" = Some email
           /\ localStorage (snd r) = localStorage w
       | Throw e =>
           fst (APIClient.sendOTP email w) = Throw e
           /\ (sessionStorage (snd r) !! "otp_email" = sessionStorage w !! "otp_email"
               \/ sessionStorage (snd r) !! "otp_email" = None)
       end.
Proof.
  intros P email w r.
  assert (Hr : r = AuthManager.sendOTP email w) by reflexivity. clearbody r.
  unfold AuthManager.sendOTP, try_catch, bind at 1, APIClient.sendOTP,
    APIClient.postForm in Hr.
  unfold APIClient.sendOTP, APIClient.postForm.
  set (options := {| opt_method := _ |}) in *.
  destruct (request_run "/auth/send-otp" options w)
    as [(data & r0 & _ & _ & Hreq)
       |[(err & r0 & _ & _ & _ & _ & Hreq)|(cause & Hreq)]];
    rewrite Hreq in Hr |- *; clear Hreq.
  - unfold bind, act, ret in Hr. subst r. cbn [fst snd].
    split; [|split; [reflexivity|split; [apply lookup_insert_eq|reflexivity]]].
    simpl. rewrite fetches_app, List.length_app. simpl. lia.
  - unfold bind in Hr. rewrite handleAuthError_run in Hr.
    destruct (holds Authentication err); unfold throw in Hr; subst r; cbn [fst snd].
    + split.
      * rewrite logged_out_fetches. simpl.
        rewrite fetches_app, List.length_app. simpl. lia.
      * split; [reflexivity|right].
        unfold logged_out. destruct (AuthManager.isProtectedPage _);
          simpl; apply lookup_delete_eq.
    + split; [|split; [reflexivity|left; reflexivity]].
      simpl. rewrite fetches_app, List.length_app. simpl. lia.
  - unfold bind in Hr. rewrite handleAuthError_run in Hr.
    cbn [holds network_error APIError.isAuthError APIError.status] in Hr.
    change ((0 =? 401) || (0 =? 403)) with false in Hr.
    unfold throw in Hr. subst r. cbn [fst snd].
    split; [|split; [reflexivity|left; reflexivity]].
    simpl. rewrite !fetches_app, !List.length_app. simpl. lia.
Qed.

(** ** Handlers do not throw *)

Lemma try_catch_returns (body : M unit) (handler : Exn -> M unit) :
  (forall e w, fst (handler e w) = Ret tt) ->
  forall w, fst (try_catch body handler w) = Ret tt.
Proof.
  intros Hh w. unfold try_catch.
  destruct (body w) as [[[]|e] w']; [reflexivity|apply Hh].
Qed.

(** X9. The handlers of the login form, of the analysis, of the
    dashboard and of the health check never let an exception out:
    whatever the input and whatever the network and the server do, they
    end normally, every failure having been caught and shown. *)
Theorem X9_handlers_never_throw :
  forall `{Platform} (email : string) (otpInputs : list string) (w : World),
    fst (DeepShieldApp.sendOTP email w) = Ret tt
    /\ fst (DeepShieldApp.verifyOTP email otpInputs w) = Ret tt
    /\ fst (DeepShieldApp.analyzeMedia w) = Ret tt
    /\ fst (DeepShieldApp.loadDashboardData w) = Ret tt
    /\ fst (DeepShieldApp.checkAPIHealth w) = Ret tt
    /\ fst (Script.sendOTP email w) = Ret tt
    /\ fst (Script.verifyOTP email otpInputs w) = Ret tt.
Proof.
  intros P email otpInputs w.
  split; [|split; [|split; [|split; [|split; [|split]]]]].
  - unfold DeepShieldApp.sendOTP.
    destruct (_ || _); [reflexivity|].
    apply try_catch_returns. reflexivity.
  - unfold DeepShieldApp.verifyOTP.
    destruct (negb _); [reflexivity|].
    apply try_catch_returns. reflexivity.
  - unfold DeepShieldApp.analyzeMedia, bind at 1, read.
    destruct (app_selectedFile w); [|reflexivity].
    unfold bind at 1.
    destruct (AuthManager.isAuthenticated w); cbn [negb]; [|reflexivity].
    apply try_catch_returns. reflexivity.
  - apply try_catch_returns. reflexivity.
  - apply try_catch_returns. reflexivity.
  - unfold Script.sendOTP.
    destruct (negb _); [reflexivity|].
    apply try_catch_returns. reflexivity.
  - unfold Script.verifyOTP.
    destruct (negb _); [reflexivity|].
    apply try_catch_returns. reflexivity.
Qed.

(** ** Publishing a detection *)

Section Publishing.
Context `{Platform}.

(** [analyzeMedia] with a file selected and a session. *)
Lemma analyzeMedia_run (file : File) (w : World) :
  app_selectedFile w = Some file ->
  AuthManager.isAuthenticated w = true ->
  DeepShieldApp.analyzeMedia w
  = match APIClient.detectDeepfake file w with
    | (Ret response, w1) =>
        (Ret tt,
         emit (NavigateLater "results.html" 1000)
           (emit (Toast (JStr "Analysis complete!") "success")
              (set_localStorage
                 (insert "detection_result"
                    (JSON_stringify
                       (JObj (set_assoc "fileUrl" (JStr (blob_url w1))
                                (set_assoc "originalFile" (originalFile file)
                                   (spread response))))))
                 w1)))
    | (Throw error, w1) =>
        (Ret tt,
         emit (Toast (js_or (error_message error) (JStr "Analysis failed")) "error")
           (emit (Console "error") w1))
    end.
Proof.
  intros Hfile Hauth.
  unfold DeepShieldApp.analyzeMedia, bind at 1, read. rewrite Hfile.
  unfold bind at 1. rewrite Hauth. cbn [negb].
  unfold try_catch, bind at 1.
  destruct (APIClient.detectDeepfake file w) as [[response|error] w1]; reflexivity.
Qed.

(** The transport client touches nothing but the trace. *)
Lemma detectDeepfake_storage (file : File) (w : World) :
  localStorage (snd (APIClient.detectDeepfake file w)) = localStorage w
  /\ blob_url (snd (APIClient.detectDeepfake file w)) = blob_url w.
Proof.
  unfold APIClient.detectDeepfake, APIClient.postForm.
  match goal with
  | |- context [APIClient.request ?e ?o w] =>
      destruct (request_run e o w)
        as [(data & r & _ & _ & ->)
           |[(err & r & _ & _ & _ & _ & ->)|(cause & ->)]]
  end; split; reflexivity.
Qed.

End Publishing.

(** X10. When a file is selected, a session exists and the detection
    call succeeds, [analyzeMedia] stores, under [detection_result], the
    response with [originalFile] set to the name, size and type of the
    file and [fileUrl] set to the object URL; every other member of the
    response is kept. If this object survives the JSON serialisation, a
    results page loaded afterwards reads it back. *)
Theorem X10_analyzeMedia_publishes_the_response :
  forall `{Platform} (file : File) (response : JsVal) (w w1 : World),
    app_selectedFile w = Some file ->
    AuthManager.isAuthenticated w = true ->
    APIClient.detectDeepfake file w = (Ret response, w1) ->
    let members :=
      set_assoc "fileUrl" (JStr (blob_url w))
        (set_assoc "originalFile" (originalFile file) (spread response)) in
    let w2 := snd (DeepShieldApp.analyzeMedia w) in
    localStorage w2 !! "detection_result" = Some (JSON_stringify (JObj members))
    /\ assoc "originalFile" members = Some (originalFile file)
    /\ assoc "fileUrl" members = Some (JStr (blob_url w))
    /\ (forall k, k <> "originalFile" -> k <> "fileUrl" ->
                  assoc k members = assoc k (spread response))
    /\ (JSON_parse (JSON_stringify (JObj members)) = Some (JObj members) ->
        forall page,
          DeepShieldApp.getStoredResults (navigate page w2)
          = (Ret (JObj members), navigate page w2)).
Proof.
  intros P file response w w1 Hfile Hauth Hcall members w2.
  destruct (detectDeepfake_storage file w) as [_ Hblob].
  rewrite Hcall in Hblob. cbn [snd] in Hblob.
  assert (Hitem : localStorage w2 !! "detection_result"
                  = Some (JSON_stringify (JObj members))).
  { unfold w2. rewrite (analyzeMedia_run file w Hfile Hauth), Hcall.
    cbn [snd]. cbn [localStorage emit set_localStorage].
    rewrite Hblob. apply lookup_insert_eq. }
  split; [exact Hitem|]. split; [|split; [|split]].
  - unfold members. rewrite assoc_set_assoc_ne by discriminate.
    apply assoc_set_assoc_eq.
  - apply assoc_set_assoc_eq.
  - intros k Ho Hf. unfold members.
    rewrite assoc_set_assoc_ne by exact Hf.
    apply assoc_set_assoc_ne. exact Ho.
  - intros Hround page. apply getStoredResults_run; [|exact Hround].
    unfold navigate.
    rewrite (load_scripts_same_item "detection_result"
               ltac:(discriminate) ltac:(discriminate) (new_page page w2)).
    exact Hitem.
Qed.

(** A tab with a session and a selected file. *)
Lemma X10_witness :
  let file := {| file_name := "clip.mp4"; file_size := 1048576;
                 file_type := "video/mp4" |} in
  let w := set_network
             (answering (json_response 200
                           (JObj [("detection_result", JStr "Deepfake");
                                  ("confidence_score", JNum 92)])))
             {| localStorage := ∅; sessionStorage := ∅;
                hostname := "localhost"; page := "index.html";
                clock := 1699999999000; network := offline;
                blob_url := "blob:http://localhost/0001";
                api_token := JStr token_exp_1700000000;
                auth_token := JStr token_exp_1700000000;
                auth_currentUser := JObj [("email", JStr "user@example.com")];
                auth_refreshTimer := true; app_selectedFile := Some file;
                trace := [] |} in
  DeepShieldApp.getStoredResults
    (navigate "results.html" (snd (DeepShieldApp.analyzeMedia w)))
  = (Ret deepfake_result,
     navigate "results.html" (snd (DeepShieldApp.analyzeMedia w))).
Proof.
  intros file w.
  assert (Hcall : APIClient.detectDeepfake file w
                  = (Ret (JObj [("detection_result", JStr "Deepfake");
                                ("confidence_score", JNum 92)]),
                     snd (APIClient.detectDeepfake file w)))
    by (vm_compute; reflexivity).
  assert (Hauth : AuthManager.isAuthenticated w = true) by (vm_compute; reflexivity).
  pose proof (X10_analyzeMedia_publishes_the_response file _ w _ eq_refl Hauth Hcall)
    as Hall.
  cbv zeta in Hall. destruct Hall as (_ & _ & _ & _ & Hread).
  apply (Hread ltac:(vm_compute; reflexivity) "results.html").
Defined.

(** X11. [analyzeMedia] changes the storage in one case only: a file is
    selected, a session exists and the detection call succeeded; then
    it writes [detection_result] and nothing else. In every other case,
    a failed call included, the storage is what it was, so an earlier
    result is never lost to a failed analysis. *)
Theorem X11_analyzeMedia_writes_only_on_success :
  forall `{Platform} (w : World),
    let w2 := snd (DeepShieldApp.analyzeMedia w) in
    localStorage w2 = localStorage w
    \/ (exists file response w1 published,
           app_selectedFile w = Some file
           /\ AuthManager.isAuthenticated w = true
           /\ APIClient.detectDeepfake file w = (Ret response, w1)
           /\ localStorage w2 = <["detection_result" := published]> (localStorage w)).
Proof.
  intros P w w2. unfold w2.
  destruct (app_selectedFile w) as [file|] eqn:Hfile.
  - destruct (AuthManager.isAuthenticated w) eqn:Hauth.
    + rewrite (analyzeMedia_run file w Hfile Hauth).
      destruct (detectDeepfake_storage file w) as [Hls _].
      destruct (APIClient.detectDeepfake file w) as [[response|error] w1] eqn:Hcall.
      * right. exists file, response, w1. eexists.
        split; [reflexivity|]. split; [reflexivity|]. split; [exact Hcall|].
        cbn [snd localStorage emit set_localStorage]. cbn [snd] in Hls.
        rewrite Hls. reflexivity.
      * left. cbn [snd] in *. exact Hls.
    + left. rewrite (analyzeMedia_unauthenticated w Hauth), Hfile. reflexivity.
  - left. unfold DeepShieldApp.analyzeMedia, bind, read. rewrite Hfile. reflexivity.
Qed.

(** ** The results page *)

Section ResultsPage.
Context `{Platform}.

(** What the two readers see when nothing usable is stored. *)
Lemma results_page_without_item (w : World) :
  truthy (of_item (localStorage w !! "detection_result")) = false ->
  DeepShieldApp.getStoredResults w = (Ret JNull, w)
  /\ DeepShieldApp.initResultsPage w = (Ret tt, emit (Navigate "index.html") w)
  /\ Script.initializeResultsPage w = (Ret tt, emit (Navigate "index.html") w).
Proof.
  intros Hitem.
  assert (Hget : DeepShieldApp.getStoredResults w = (Ret JNull, w)).
  { unfold DeepShieldApp.getStoredResults, bind, getItem, read.
    rewrite Hitem. reflexivity. }
  split; [exact Hget|]. split.
  - unfold DeepShieldApp.initResultsPage, bind. rewrite Hget. reflexivity.
  - unfold Script.initializeResultsPage, Script.storedResult, bind, getItem, read.
    unfold js_or. rewrite Hitem. cbn [ToString].
    rewrite JSON_parse_braces. reflexivity.
Qed.

Lemma storedUser_removed (w : World) :
  localStorage w !! "deepshield_user" = None ->
  forall file, app_selectedFile w = Some file ->
  Script.analyzeMedia w
  = (Ret tt,
     emit (NavigateLater "login.html" 2000)
       (emit (ShowStatus (JStr "Please login first") "error") w)).
Proof.
  intros Hu file Hfile. unfold Script.analyzeMedia, bind at 1, read.
  rewrite Hfile. unfold bind at 1.
  rewrite (storedUser_absent w Hu). reflexivity.
Qed.

Lemma Script_logout_localStorage (w : World) (k : string) :
  localStorage (snd (Script.logout w)) !! k
  = if decide (k = "deepshield_user" \/ k = "detection_result" \/ k = "complaint_draft")
    then None else localStorage w !! k.
Proof.
  unfold Script.logout, bind, removeItem, act. simpl.
  case_decide as Hk.
  - destruct Hk as [-> | [-> | ->]].
    + rewrite lookup_delete_ne by discriminate.
      rewrite lookup_delete_ne by discriminate. apply lookup_delete_eq.
    + rewrite lookup_delete_ne by discriminate. apply lookup_delete_eq.
    + apply lookup_delete_eq.
  - rewrite !lookup_delete_ne; [reflexivity| | |]; intros Heq; apply Hk; auto.
Qed.

End ResultsPage.

(** X12. With nothing stored under [detection_result], or the empty
    string, the results page of either generation shows nothing and
    goes to [index.html]; [getStoredResults] returns [null] and nothing
    is thrown. *)
Theorem X12_results_page_without_a_result_goes_home :
  forall `{Platform} (w : World),
    localStorage w !! "detection_result" = None
    \/ localStorage w !! "detection_result" = Some "" ->
    DeepShieldApp.getStoredResults w = (Ret JNull, w)
    /\ DeepShieldApp.initResultsPage w = (Ret tt, emit (Navigate "index.html") w)
    /\ Script.initializeResultsPage w = (Ret tt, emit (Navigate "index.html") w).
Proof.
  intros P w Hitem. apply results_page_without_item.
  destruct Hitem as [-> | ->]; reflexivity.
Qed.

Lemma X12_witness :
  DeepShieldApp.initResultsPage (visitor "results.html" offline)
  = (Ret tt, emit (Navigate "index.html") (visitor "results.html" offline)).
Proof.
  pose proof (X12_results_page_without_a_result_goes_home
                (visitor "results.html" offline) (or_introl eq_refl))
    as (_ & Hpage & _).
  exact Hpage.
Defined.

(** X13. A stored item that cannot be used makes the results page fail
    rather than go home. When the item is not JSON, both readers throw
    the [SyntaxError] of [JSON.parse]. When the item is the JSON text
    of [null], [initResultsPage] of [app.js] goes to [index.html], and
    [initializeResultsPage] of [script.js] throws a [TypeError], for it
    reads a member of [null]. A reader that throws leaves the world as
    it was. *)
Theorem X13_results_page_with_an_unusable_item :
  forall `{Platform} (w : World) (s : string),
    localStorage w !! "detection_result" = Some s ->
    s <> "" ->
    (JSON_parse s = None ->
     DeepShieldApp.initResultsPage w = (Throw (ExnJs SyntaxError), w)
     /\ Script.initializeResultsPage w = (Throw (ExnJs SyntaxError), w))
    /\ (JSON_parse s = Some JNull ->
        DeepShieldApp.initResultsPage w = (Ret tt, emit (Navigate "index.html") w)
        /\ Script.initializeResultsPage w = (Throw (ExnJs TypeError), w)).
Proof.
  intros P w s Hitem Hne.
  apply String.eqb_neq in Hne.
  assert (Htruthy : truthy (JStr s) = true) by (simpl; rewrite Hne; reflexivity).
  split; intros Hparse.
  - split.
    + unfold DeepShieldApp.initResultsPage, DeepShieldApp.getStoredResults,
        bind, getItem, read.
      rewrite Hitem. cbn [of_item]. rewrite Htruthy. cbn [ToString].
      rewrite Hparse. reflexivity.
    + unfold Script.initializeResultsPage, Script.storedResult, bind, getItem, read.
      rewrite Hitem. cbn [of_item]. unfold js_or. rewrite Htruthy. cbn [ToString].
      rewrite Hparse. reflexivity.
  - split.
    + unfold DeepShieldApp.initResultsPage, DeepShieldApp.getStoredResults,
        bind, getItem, read.
      rewrite Hitem. cbn [of_item]. rewrite Htruthy. cbn [ToString].
      rewrite Hparse. reflexivity.
    + unfold Script.initializeResultsPage, Script.storedResult, bind, getItem, read.
      rewrite Hitem. cbn [of_item]. unfold js_or. rewrite Htruthy. cbn [ToString].
      rewrite Hparse. reflexivity.
Qed.

Lemma X13_witness :
  let broken := set_localStorage (insert "detection_result" "{oops")
                  (visitor "results.html" offline) in
  let null := set_localStorage (insert "detection_result" "null")
                (visitor "results.html" offline) in
  DeepShieldApp.initResultsPage broken = (Throw (ExnJs SyntaxError), broken)
  /\ Script.initializeResultsPage null = (Throw (ExnJs TypeError), null).
Proof.
  intros broken null.
  pose proof (X13_results_page_with_an_unusable_item broken "{oops"
                eq_refl ltac:(discriminate)) as [Hbroken _].
  pose proof (X13_results_page_with_an_unusable_item null "null"
                eq_refl ltac:(discriminate)) as [_ Hnull].
  split.
  - apply Hbroken. vm_compute. reflexivity.
  - apply Hnull. vm_compute. reflexivity.
Defined.

(** X14. [logout] of [script.js] ends the session of [script.js] and
    nothing else. On every later page that sees the storage it left,
    [submitComplaint] and [analyzeMedia] of [script.js] send nothing
    and ask for a login, and the results page goes to [index.html].
    Every other key is left as it was; in particular the token of
    [js/api.js], stored under [deepshield_token], is still there. *)
Theorem X14_script_logout_ends_the_script_session :
  forall `{Platform} (w later : World),
    localStorage later = localStorage (snd (Script.logout w)) ->
    let refused :=
      (Ret tt,
       emit (NavigateLater "login.html" 2000)
         (emit (ShowStatus (JStr "Please login first") "error") later)) in
    (forall form, Script.submitComplaint form later = refused)
    /\ (forall file, app_selectedFile later = Some file ->
                     Script.analyzeMedia later = refused)
    /\ Script.initializeResultsPage later
       = (Ret tt, emit (Navigate "index.html") later)
    /\ (forall k, k <> "deepshield_user" -> k <> "detection_result" ->
                  k <> "complaint_draft" ->
                  localStorage later !! k = localStorage w !! k)
    /\ localStorage later !! CONFIG.TOKEN_KEY = localStorage w !! CONFIG.TOKEN_KEY.
Proof.
  intros P w later Hshared refused.
  assert (Hu : localStorage later !! "deepshield_user" = None).
  { rewrite Hshared, Script_logout_localStorage. reflexivity. }
  assert (Hr : localStorage later !! "detection_result" = None).
  { rewrite Hshared, Script_logout_localStorage. reflexivity. }
  assert (Hother : forall k, k <> "deepshield_user" -> k <> "detection_result" ->
                             k <> "complaint_draft" ->
                             localStorage later !! k = localStorage w !! k).
  { intros k H1 H2 H3. rewrite Hshared, Script_logout_localStorage.
    case_decide as Hk; [|reflexivity]. destruct Hk as [?|[?|?]]; contradiction. }
  split; [|split; [|split; [|split]]].
  - intros form. apply Script_submitComplaint_no_user. exact Hu.
  - intros file Hfile. apply (storedUser_removed later Hu file Hfile).
  - apply results_page_without_item. rewrite Hr. reflexivity.
  - exact Hother.
  - apply Hother; discriminate.
Qed.

Lemma X14_witness :
  let w := set_localStorage
             (fun _ => <["deepshield_token" := token_exp_1700000000]>
                         (<["deepshield_user" := "{}"]>
                            (<["detection_result" := "{}"]> ∅)))
             (visitor "dashboard.html" offline) in
  let later := snd (Script.logout w) in
  Script.submitComplaint complaint_form later
  = (Ret tt,
     emit (NavigateLater "login.html" 2000)
       (emit (ShowStatus (JStr "Please login first") "error") later))
  /\ localStorage later !! CONFIG.TOKEN_KEY = Some token_exp_1700000000.
Proof.
  intros w later.
  pose proof (X14_script_logout_ends_the_script_session w later eq_refl) as Hall.
  cbv zeta in Hall. destruct Hall as (Hsubmit & _ & _ & _ & Htoken).
  split; [apply Hsubmit|]. rewrite Htoken. reflexivity.
Defined.

(** X15. A login in another tab is adopted by the [storage] listener,
    but without an expiry poll. When both session keys hold something,
    the stored user is JSON and the stored token is not expired, the
    listener, called for one of the two keys, makes this tab hold the
    token and the user and gives the token to the transport client; the
    storage stays as it is, and the expiry poll is left as it was, so a
    tab that had none still has none. *)
Theorem X15_login_in_another_tab_is_adopted_without_poll :
  forall `{Platform} (t u : string) (user : JsVal) (key : string) (w : World),
    localStorage w !! CONFIG.TOKEN_KEY = Some t ->
    localStorage w !! CONFIG.USER_KEY = Some u ->
    t <> "" -> u <> "" ->
    JSON_parse u = Some user ->
    AuthManager.isTokenExpired (set_auth_token (JStr t) w) = false ->
    key = CONFIG.TOKEN_KEY \/ key = CONFIG.USER_KEY ->
    let w1 := snd (AuthManager.on_storage key w) in
    auth_token w1 = JStr t
    /\ auth_currentUser w1 = user
    /\ api_token w1 = JStr t
    /\ AuthManager.isAuthenticated w1 = truthy user
    /\ localStorage w1 = localStorage w
    /\ auth_refreshTimer w1 = auth_refreshTimer w.
Proof.
  intros P t u user key w Ht Hu Hte Hue Hparse Hfresh Hkey w1.
  assert (Hon : AuthManager.on_storage key w = AuthManager.loadStoredAuth w).
  { unfold AuthManager.on_storage. destruct Hkey as [-> | ->]; reflexivity. }
  assert (Htruthy : truthy (JStr t) = true).
  { simpl. apply String.eqb_neq in Hte. rewrite Hte. reflexivity. }
  unfold w1. rewrite Hon, (loadStoredAuth_run w t u Ht Hu Hte Hue), Hparse.
  cbv zeta.
  match goal with
  | |- context [if AuthManager.isTokenExpired ?x then _ else _] =>
      rewrite (isTokenExpired_ext x (set_auth_token (JStr t) w) eq_refl eq_refl),
        Hfresh;
      assert (Hauth : AuthManager.isAuthenticated x = truthy user)
  end.
  { unfold AuthManager.isAuthenticated.
    match goal with
    | |- context [AuthManager.isTokenExpired ?x] =>
        rewrite (isTokenExpired_ext x (set_auth_token (JStr t) w) eq_refl eq_refl),
          Hfresh
    end.
    cbn [auth_token auth_currentUser set_localStorage set_api_token
         set_auth_currentUser set_auth_token negb].
    rewrite Htruthy. cbn [andb]. apply andb_true_r. }
  cbn [snd]. split; [reflexivity|]. split; [reflexivity|]. split; [reflexivity|].
  split; [exact Hauth|]. split; [|reflexivity].
  cbn [localStorage emit set_localStorage set_api_token set_auth_currentUser
       set_auth_token].
  apply insert_id. exact Ht.
Qed.

Lemma X15_witness :
  let this := set_localStorage
                (fun _ => <["deepshield_token" := token_exp_1700000000]>
                            (<["deepshield_user" := "{}"]> ∅))
                (visitor "index.html" offline) in
  let w1 := snd (AuthManager.on_storage CONFIG.TOKEN_KEY this) in
  AuthManager.isAuthenticated w1 = true /\ auth_refreshTimer w1 = false.
Proof.
  intros this w1.
  pose proof (X15_login_in_another_tab_is_adopted_without_poll
                token_exp_1700000000 "{}" (JObj []) CONFIG.TOKEN_KEY this
                eq_refl eq_refl ltac:(discriminate) ltac:(discriminate)
                ltac:(vm_compute; reflexivity) ltac:(vm_compute; reflexivity)
                (or_introl eq_refl)) as Hall.
  cbv zeta in Hall. destruct Hall as (_ & _ & _ & Hauth & _ & Htimer).
  split; [exact Hauth|exact Htimer].
Defined.

(** ** The pattern of an address *)

Module RegexSemantics.
Import Regex.
Import RegexFacts.

Lemma append_nil_r (s : string) : s ++ "" = s.
Proof. induction s as [|c s IH]; [reflexivity|]. unfold append; fold append. congruence. Qed.

Lemma append_assoc (s1 s2 s3 : string) : (s1 ++ s2) ++ s3 = s1 ++ (s2 ++ s3).
Proof. induction s1 as [|c s1 IH]; [reflexivity|]. unfold append; fold append. congruence. Qed.

Lemma append_empty (s1 s2 : string) : s1 ++ s2 = "" -> s1 = "" /\ s2 = "".
Proof. destruct s1; [auto|]. unfold append; fold append. discriminate. Qed.

Lemma append_cons (s1 s2 : string) (c : ascii) (s : string) :
  s1 ++ s2 = String c s ->
  (s1 = "" /\ s2 = String c s) \/ (exists s1', s1 = String c s1' /\ s = s1' ++ s2).
Proof.
  destruct s1 as [|c1 s1]; unfold append; fold append; intros Heq.
  - left. auto.
  - right. injection Heq as -> <-. eauto.
Qed.

Lemma nullable_matches (r : re) : nullable r = true <-> matches r "".
Proof.
  induction r as [| |k|r1 IH1 r2 IH2|r1 IH1 r2 IH2|r IH]; simpl.
  - split; [discriminate|]. intros Hm. inversion Hm.
  - split; [constructor|reflexivity].
  - split; [discriminate|]. intros Hm. inversion Hm.
  - rewrite andb_true_iff, IH1, IH2. split.
    + intros [H1 H2]. apply (matches_seq r1 r2 "" "" H1 H2).
    + intros Hm. inversion Hm as [| |? ? s1 s2 H1 H2 Hr Hs| | | |]; subst.
      apply append_empty in Hs as [-> ->]. auto.
  - rewrite orb_true_iff, IH1, IH2. split.
    + intros [H1|H2]; [apply matches_alt_l|apply matches_alt_r]; assumption.
    + intros Hm. inversion Hm; subst; auto.
  - split; [constructor|reflexivity].
Qed.

(** A word of a star that starts with [c] starts with a word of the
    body that starts with [c]. *)
Lemma matches_star_cons (r : re) (c : ascii) (s : string) :
  matches (Star r) (String c s) ->
  exists s1 s2, s = s1 ++ s2 /\ matches r (String c s1) /\ matches (Star r) s2.
Proof.
  intros Hm. remember (Star r) as r' eqn:Hr. remember (String c s) as w eqn:Hw.
  revert s Hw.
  induction Hm as [| | | | | |r0 s1 s2 H1 _ H2 IH2]; intros t Hw;
    try discriminate.
  injection Hr as ->.
  apply append_cons in Hw as [[-> ->]|(s1' & -> & ->)].
  - apply IH2; reflexivity.
  - exists s1', s2. auto.
Qed.

Lemma deriv_matches (c : ascii) (r : re) :
  forall s, matches (deriv c r) s <-> matches r (String c s).
Proof.
  induction r as [| |k|r1 IH1 r2 IH2|r1 IH1 r2 IH2|r IH]; intros s; simpl.
  - split; intros Hm; inversion Hm.
  - split; intros Hm; inversion Hm.
  - destruct (cls_accepts k c) eqn:Hk; split; intros Hm.
    + inversion Hm; subst. constructor. exact Hk.
    + inversion Hm; subst. constructor.
    + inversion Hm.
    + inversion Hm; subst. congruence.
  - split; intros Hm.
    + inversion Hm as [| | |? ? ? Hl|? ? ? Hr| |]; subst.
      * inversion Hl as [| |? ? s1 s2 H1 H2| | | |]; subst.
        apply IH1 in H1.
        apply (matches_seq r1 r2 (String c s1) s2 H1 H2).
      * destruct (nullable r1) eqn:Hn; [|inversion Hr].
        apply IH2 in Hr. apply nullable_matches in Hn.
        apply (matches_seq r1 r2 "" (String c s) Hn Hr).
    + inversion Hm as [| |? ? s1 s2 H1 H2 Hr Hs| | | |]; subst.
      apply append_cons in Hs as [[-> ->]|(s1' & -> & ->)].
      * apply matches_alt_r. apply nullable_matches in H1. rewrite H1.
        apply IH2. exact H2.
      * apply matches_alt_l. apply matches_seq; [|exact H2].
        apply IH1. exact H1.
  - split; intros Hm.
    + inversion Hm; subst; [apply matches_alt_l; apply IH1|apply matches_alt_r; apply IH2];
        assumption.
    + inversion Hm; subst; [apply matches_alt_l; apply IH1|apply matches_alt_r; apply IH2];
        assumption.
  - split; intros Hm.
    + inversion Hm as [| |? ? s1 s2 H1 H2| | | |]; subst.
      apply IH in H1.
      apply (matches_star_app r (String c s1) s2 H1 H2).
    + apply matches_star_cons in Hm as (s1 & s2 & -> & H1 & H2).
      apply matches_seq; [|exact H2]. apply IH. exact H1.
Qed.

(** [test] decides the words of the expression. *)
Lemma test_matches (s : string) : forall r, test r s = true <-> matches r s.
Proof.
  induction s as [|c s IH]; intros r; simpl.
  - apply nullable_matches.
  - rewrite IH. apply deriv_matches.
Qed.

Lemma matches_star_plain (s : string) :
  matches (Star (Chr (NoneOf ("@"%char :: js_whitespace)))) s <-> plain s = true.
Proof.
  induction s as [|c s IH].
  - split; [reflexivity|constructor].
  - split.
    + intros Hm. apply matches_star_cons in Hm as (s1 & s2 & -> & H1 & H2).
      inversion H1 as [|? ? Hk| | | | |]; subst. cbn [append] in *.
      cbn [plain]. apply andb_true_iff. split; [exact Hk|].
      apply IH. exact H2.
    + cbn [plain]. intros Hp. apply andb_true_iff in Hp as [Hc Hp].
      apply (matches_star_app _ (String c "") s).
      * constructor. exact Hc.
      * apply IH. exact Hp.
Qed.

Lemma matches_part (s : string) :
  matches part s <-> s <> "" /\ plain s = true.
Proof.
  unfold part, Plus. split.
  - intros Hm. inversion Hm as [| |? ? s1 s2 H1 H2| | | |]; subst.
    inversion H1 as [|? ? Hk| | | | |]; subst. cbn [append].
    split; [discriminate|]. cbn [plain]. apply andb_true_iff.
    split; [exact Hk|]. apply matches_star_plain. exact H2.
  - intros [Hne Hp]. destruct s as [|c s]; [contradiction|].
    cbn [plain] in Hp. apply andb_true_iff in Hp as [Hc Hp].
    apply (matches_seq _ _ (String c "") s).
    + constructor. exact Hc.
    + apply matches_star_plain. exact Hp.
Qed.

Lemma matches_one (a : ascii) (s : string) :
  matches (Chr (OneOf [a])) s <-> s = String a "".
Proof.
  split.
  - intros Hm. inversion Hm as [|? c Hk| | | | |]; subst.
    simpl in Hk. rewrite orb_false_r in Hk. apply Ascii.eqb_eq in Hk.
    subst. reflexivity.
  - intros ->. constructor. simpl. rewrite Ascii.eqb_refl. reflexivity.
Qed.

Lemma matches_emailRegex (email : string) :
  matches emailRegex email <-> address email.
Proof.
  unfold emailRegex, address. fold part. split.
  - intros Hm.
    inversion Hm as [| |? ? name s1 Hname H1| | | |]; subst.
    inversion H1 as [| |? ? at_ s2 Hat H2| | | |]; subst.
    inversion H2 as [| |? ? host s3 Hhost H3| | | |]; subst.
    inversion H3 as [| |? ? dot tld Hdot Htld| | | |]; subst.
    apply matches_one in Hat. apply matches_one in Hdot. subst.
    apply matches_part in Hname as [? ?].
    apply matches_part in Hhost as [? ?].
    apply matches_part in Htld as [? ?].
    exists name, host, tld. auto 10.
  - intros (name & host & tld & -> & Hn & Hh & Ht & Pn & Ph & Pt).
    apply matches_seq; [apply matches_part; auto|].
    apply (matches_seq _ _ "@"); [apply matches_one; reflexivity|].
    apply matches_seq; [apply matches_part; auto|].
    apply (matches_seq _ _ "."); [apply matches_one; reflexivity|].
    apply matches_part; auto.
Qed.

End RegexSemantics.

(** X16. [Utils.isValidEmail] accepts exactly the strings made of a
    local part, an at sign and a domain with a dot inside it, where the
    local part and the two sides of that dot are not empty and hold
    neither white space nor an at sign. So an accepted string has one
    at sign and no white space (on code units below 256). *)
Theorem X16_isValidEmail_accepts_exactly_the_addresses :
  forall email : string,
    Utils.isValidEmail email = true <-> RegexFacts.address email.
Proof.
  intros email. unfold Utils.isValidEmail.
  rewrite RegexSemantics.test_matches. apply RegexSemantics.matches_emailRegex.
Qed.

(** ** The choice of a file *)

(** X17. On a page of [js/app.js] a chosen file is selected without
    any check. Whatever its type and size, after the [change] event of
    the file input, and after a drop, [app.selectedFile] is that file;
    the check of [js/ui.js] only shows a message. With a session,
    [analyzeMedia] then sends exactly that file to [/media/detect], in
    one request. *)
Theorem X17_app_selects_and_uploads_any_file :
  forall `{Platform} (file : File) (w : World),
    let w1 := snd (fileInput_change (Some file) w) in
    app_selectedFile w1 = Some file
    /\ app_selectedFile (snd (uploadArea_drop (Some file) w)) = Some file
    /\ (AuthManager.isAuthenticated w = true ->
        fetches (trace (snd (DeepShieldApp.analyzeMedia w1)))
        = (fetches (trace w)
           ++ [Fetch (APIClient.config w "/media/detect"
                        {| opt_method := Some "POST"; opt_headers := Some [];
                           opt_body := BodyForm [("file", FFile file)] |})])%list).
Proof.
  intros P file w w1.
  assert (Hshape : app_selectedFile w1 = Some file
                   /\ AuthManager.isAuthenticated w1 = AuthManager.isAuthenticated w
                   /\ hostname w1 = hostname w
                   /\ api_token w1 = api_token w
                   /\ fetches (trace w1) = fetches (trace w)).
  { unfold w1, fileInput_change, UIManager.handleFileInput, UIManager.showToast,
      DeepShieldApp.handleFileSelection, bind, act, ret.
    cbn [fst snd].
    destruct (negb (FileUtils.isValidFileType file));
      [|destruct (negb (FileUtils.isValidFileSize file))];
      cbn [fst snd]; repeat split; try reflexivity;
      simpl; rewrite fetches_app; simpl; apply app_nil_r. }
  destruct Hshape as (Hsel & Hauth1 & Hhost & Htok & Hquiet).
  split; [exact Hsel|]. split; [reflexivity|]. intros Hauth.
  rewrite <- Hauth1 in Hauth.
  rewrite (analyzeMedia_run file w1 Hsel Hauth).
  unfold APIClient.detectDeepfake, APIClient.postForm.
  match goal with
  | |- context [APIClient.request ?e ?o w1] =>
      pose proof (request_fetches e o w1) as Hreq;
      assert (Hconfig : APIClient.config w1 e o = APIClient.config w e o)
        by (unfold APIClient.config; rewrite Hhost, Htok; reflexivity);
      destruct (APIClient.request e o w1) as [[response|error] w2]
  end;
    cbn [snd] in *; simpl; rewrite !fetches_app, Hreq, Hquiet, Hconfig; simpl;
    rewrite !app_nil_r; reflexivity.
Qed.

(** A member drops a file of 60 MB that is no image and no video. *)
Lemma X17_witness :
  let file := {| file_name := "notes.pdf"; file_size := 62914560;
                 file_type := "application/pdf" |} in
  let w := member token_exp_1700000000 1699999999000 in
  AuthManager.isAuthenticated w = true
  /\ FileUtils.isValidFileType file = false
  /\ fetches (trace (snd (DeepShieldApp.analyzeMedia
                            (snd (fileInput_change (Some file) w)))))
     = [Fetch {| url := "http://localhost:8000/media/detect";
                 method := Some "POST";
                 headers := [("Authorization", "Bearer " ++ token_exp_1700000000)];
                 body := BodyForm [("file", FFile file)] |}].
Proof.
  intros file w.
  assert (Hauth : AuthManager.isAuthenticated w = true) by (vm_compute; reflexivity).
  split; [exact Hauth|]. split; [reflexivity|].
  pose proof (X17_app_selects_and_uploads_any_file file w) as Hall.
  cbv zeta in Hall. destruct Hall as (_ & _ & Hsend).
  rewrite (Hsend Hauth). vm_compute. reflexivity.
Defined.

(** X18. [handleFileSelection] of [script.js] changes the selection
    only to a file whose type is in its list and whose size is at most
    50 MB. A refused file shows an error and leaves the earlier
    selection in place, so when the selection was acceptable before, it
    is acceptable after. *)
Theorem X18_script_selection_stays_acceptable :
  forall `{Platform} (file : File) (w : World),
    let acceptable (f : File) :=
      In (file_type f) Script.allowedTypes /\ file_size f <= 52428800 in
    let w1 := snd (Script.handleFileSelection file w) in
    (acceptable file -> w1 = set_app_selectedFile (Some file) w)
    /\ (~ acceptable file ->
        app_selectedFile w1 = app_selectedFile w
        /\ exists message, w1 = emit (ShowStatus message "error") w)
    /\ ((forall f, app_selectedFile w = Some f -> acceptable f) ->
        forall f, app_selectedFile w1 = Some f -> acceptable f).
Proof.
  intros P file w acceptable w1.
  assert (Htype : existsb (String.eqb (file_type file)) Script.allowedTypes = true
                  <-> In (file_type file) Script.allowedTypes).
  { rewrite existsb_exists. split.
    - intros (x & Hin & Heq). apply String.eqb_eq in Heq. subst x. exact Hin.
    - intros Hin. exists (file_type file). split; [exact Hin|apply String.eqb_refl]. }
  unfold w1, Script.handleFileSelection, Script.showStatus, act.
  destruct (existsb (String.eqb (file_type file)) Script.allowedTypes) eqn:Hin;
    cbn [negb].
  - destruct (Z.ltb_spec (50 * 1024 * 1024) (file_size file)) as [Hbig|Hsmall];
      cbn [snd].
    + split; [intros [_ Hle]; lia|]. split.
      * intros _. split; [reflexivity|eexists; reflexivity].
      * intros Hbefore f Hf. apply Hbefore. exact Hf.
    + split; [reflexivity|]. split.
      * intros Hno. exfalso. apply Hno. split; [apply Htype; reflexivity|lia].
      * intros _ f Hf. cbn [app_selectedFile set_app_selectedFile] in Hf.
        injection Hf as <-. split; [apply Htype; reflexivity|lia].
  - cbn [snd]. split.
    + intros [Hyes _]. apply Htype in Hyes. discriminate.
    + split.
      * intros _. split; [reflexivity|eexists; reflexivity].
      * intros Hbefore f Hf. apply Hbefore. exact Hf.
Qed.

Lemma X18_witness :
  let clip := {| file_name := "clip.mp4"; file_size := 1048576;
                 file_type := "video/mp4" |} in
  let notes := {| file_name := "notes.pdf"; file_size := 62914560;
                  file_type := "application/pdf" |} in
  app_selectedFile
    (snd (Script.handleFileSelection notes
            (snd (Script.handleFileSelection clip (visitor "index.html" offline)))))
  = Some clip.
Proof.
  intros clip notes.
  pose proof (X18_script_selection_stays_acceptable
                clip (visitor "index.html" offline)) as Hclip.
  cbv zeta in Hclip. destruct Hclip as (Hyes & _ & _).
  rewrite Hyes by (unfold clip; split; [simpl; auto 10|simpl; lia]).
  pose proof (X18_script_selection_stays_acceptable
                notes (set_app_selectedFile (Some clip) (visitor "index.html" offline)))
    as Hnotes.
  cbv zeta in Hnotes. destruct Hnotes as (_ & Hno & _).
  destruct Hno as [Hsame _].
  - intros [_ Hle]. unfold notes in Hle. simpl in Hle. lia.
  - rewrite Hsame. reflexivity.
Defined.

(** ** The keys each generation of scripts writes *)

Section Footprint.
Context `{Platform}.

Lemma fetch_same_item (k : string) (req : Request) :
  keeps (same_item k) (APIClient.fetch req).
Proof.
  intros w. unfold APIClient.fetch, same_item, unchanged.
  destruct (network w (trace w) req); reflexivity.
Qed.

Lemma request_same_item (k : string) endpoint options :
  keeps (same_item k) (APIClient.request endpoint options).
Proof.
  intros w. unfold same_item, unchanged.
  rewrite (request_keeps_localStorage endpoint options w). reflexivity.
Qed.

(** The rules along the structure of a computation; a step that
    writes keeps every key other than the written one. *)
Ltac footprint_step :=
  match goal with
  | |- keeps _ (APIClient.request _ _) => apply request_same_item
  | |- keeps _ (APIClient.fetch _) => apply fetch_same_item
  | |- keeps _ AuthManager.logout => apply logout_same_item; assumption
  | |- keeps _ AuthManager.loadStoredAuth =>
      apply loadStoredAuth_same_item; assumption
  | |- keeps _ (setItem _ _) =>
      apply setItem_same_item; first [assumption|congruence]
  | |- keeps _ (removeItem _) =>
      apply removeItem_same_item; first [assumption|congruence]
  | |- keeps _ (act _) => apply keeps_act; intros ?; reflexivity
  | |- keeps _ (bind _ _) => apply keeps_bind; [typeclasses eauto| |intros ?]
  | |- keeps _ (try_catch _ _) =>
      apply keeps_try_catch; [typeclasses eauto| |intros ?]
  | |- keeps _ (ret _) => apply keeps_ret; typeclasses eauto
  | |- keeps _ (throw _) => apply keeps_throw; typeclasses eauto
  | |- keeps _ (read _) => apply keeps_read; typeclasses eauto
  | |- keeps _ (orThrow _ _) => apply keeps_orThrow; typeclasses eauto
  | |- keeps _ (if ?b then _ else _) => destruct b
  | |- keeps _ (match ?x with _ => _ end) => destruct x
  end.
Ltac footprint := repeat footprint_step.

Ltac script_calls :=
  unfold Script.sendOTP, Script.verifyOTP, Script.analyzeMedia,
    Script.initializeResultsPage, Script.analyzeAnother, Script.submitComplaint,
    Script.saveDraft, Script.logout, Script.handleFileSelection,
    Script.storedUser, Script.storedResult, Script.post, Script.json,
    Script.showStatus, getItem;
  cbv zeta.

Ltac app_calls :=
  unfold DeepShieldApp.sendOTP, DeepShieldApp.verifyOTP, DeepShieldApp.analyzeMedia,
    DeepShieldApp.initResultsPage, DeepShieldApp.initDashboardPage,
    DeepShieldApp.initComplaintPage, DeepShieldApp.checkAPIHealth,
    DeepShieldApp.logout_confirmed, DeepShieldApp.loadDashboardData,
    DeepShieldApp.renderDashboard, DeepShieldApp.getStoredResults,
    DeepShieldApp.storeResults, DeepShieldApp.toast,
    AuthManager.refresh_tick, AuthManager.on_storage,
    AuthManager.sendOTP, AuthManager.verifyOTP, AuthManager.setAuthData,
    AuthManager.handleAuthError, AuthManager.requireAuth,
    AuthManager.setupTokenRefresh, AuthManager.updateUI,
    APIClient.sendOTP, APIClient.verifyOTP, APIClient.detectDeepfake,
    APIClient.getDashboard, APIClient.healthCheck, APIClient.get,
    APIClient.postForm, APIClient.setToken, getItem.

(** [script.js] writes [deepshield_user], [detection_result] and
    [complaint_draft] only. *)
Section ScriptKeys.
Variable k : string.
Hypothesis Huser : k <> "deepshield_user".
Hypothesis Hresult : k <> "detection_result".
Hypothesis Hdraft : k <> "complaint_draft".

Lemma Script_sendOTP_same_item email : keeps (same_item k) (Script.sendOTP email).
Proof. script_calls. footprint. Qed.

Lemma Script_verifyOTP_same_item email otpInputs :
  keeps (same_item k) (Script.verifyOTP email otpInputs).
Proof. script_calls. footprint. Qed.

Lemma Script_analyzeMedia_same_item : keeps (same_item k) Script.analyzeMedia.
Proof. script_calls. footprint. Qed.

Lemma Script_initializeResultsPage_same_item :
  keeps (same_item k) Script.initializeResultsPage.
Proof. script_calls. footprint. Qed.

Lemma Script_analyzeAnother_same_item : keeps (same_item k) Script.analyzeAnother.
Proof. script_calls. footprint. Qed.

Lemma Script_submitComplaint_same_item form :
  keeps (same_item k) (Script.submitComplaint form).
Proof. script_calls. footprint. Qed.

Lemma Script_saveDraft_same_item form : keeps (same_item k) (Script.saveDraft form).
Proof. script_calls. footprint. Qed.

Lemma Script_logout_same_item : keeps (same_item k) Script.logout.
Proof. script_calls. footprint. Qed.

Lemma Script_handleFileSelection_same_item file :
  keeps (same_item k) (Script.handleFileSelection file).
Proof. script_calls. footprint. Qed.

End ScriptKeys.

(** [js/api.js], [js/config.js] and [js/app.js] write
    [deepshield_token], [deepshield_user] and [detection_result]
    only. *)
Section AppKeys.
Variable k : string.
Hypothesis Htoken : k <> CONFIG.TOKEN_KEY.
Hypothesis Huser : k <> CONFIG.USER_KEY.
Hypothesis Hresult : k <> "detection_result".

Lemma App_sendOTP_same_item email : keeps (same_item k) (DeepShieldApp.sendOTP email).
Proof. app_calls. footprint. Qed.

Lemma App_verifyOTP_same_item email otpInputs :
  keeps (same_item k) (DeepShieldApp.verifyOTP email otpInputs).
Proof. app_calls. footprint. Qed.

Lemma App_analyzeMedia_same_item : keeps (same_item k) DeepShieldApp.analyzeMedia.
Proof. app_calls. footprint. Qed.

Lemma App_initResultsPage_same_item : keeps (same_item k) DeepShieldApp.initResultsPage.
Proof. app_calls. footprint. Qed.

Lemma App_initDashboardPage_same_item :
  keeps (same_item k) DeepShieldApp.initDashboardPage.
Proof. app_calls. footprint. Qed.

Lemma App_initComplaintPage_same_item :
  keeps (same_item k) DeepShieldApp.initComplaintPage.
Proof. app_calls. footprint. Qed.

Lemma App_checkAPIHealth_same_item : keeps (same_item k) DeepShieldApp.checkAPIHealth.
Proof. app_calls. footprint. Qed.

Lemma App_logout_same_item : keeps (same_item k) DeepShieldApp.logout_confirmed.
Proof. app_calls. footprint. Qed.

Lemma refresh_tick_same_item : keeps (same_item k) AuthManager.refresh_tick.
Proof. app_calls. footprint. Qed.

Lemma on_storage_same_item key : keeps (same_item k) (AuthManager.on_storage key).
Proof. app_calls. footprint. Qed.

End AppKeys.

(** A page load without a stored token leaves nobody logged in. *)
Lemma navigate_without_token (page : string) (w : World) :
  localStorage w !! CONFIG.TOKEN_KEY = None ->
  AuthManager.isAuthenticated (navigate page w) = false
  /\ api_token (navigate page w) = JNull.
Proof.
  intros Ht.
  assert (Hnav : navigate page w = new_page page w).
  { unfold navigate, load_scripts, APIClient.constructor, AuthManager.constructor,
      AuthManager.init.
    unfold bind at 1 2. unfold getItem, read, act.
    cbn [localStorage new_page fst snd]. rewrite Ht.
    unfold bind, AuthManager.setupTokenRefresh, act. cbn [fst snd].
    rewrite loadStoredAuth_without_token
      by (cbn [localStorage set_auth_refreshTimer set_auth_token
               set_auth_currentUser set_api_token new_page];
          rewrite Ht; reflexivity).
    reflexivity. }
  rewrite Hnav. split; reflexivity.
Qed.

End Footprint.

(** X19. [script.js] writes three keys and no other:
    [deepshield_user], [detection_result] and [complaint_draft]. Each
    of its handlers leaves every other key as it was. So a login
    through [script.js] stores no [deepshield_token]: when none was
    stored before, a page of [js/app.js] loaded after [verifyOTP] of
    [script.js] has nobody logged in and holds no token. *)
Theorem X19_script_js_writes_three_keys_only :
  forall `{Platform} (k : string) (w : World),
    k <> "deepshield_user" -> k <> "detection_result" -> k <> "complaint_draft" ->
    let kept (m : M unit) := localStorage (snd (m w)) !! k = localStorage w !! k in
    (forall email, kept (Script.sendOTP email))
    /\ (forall email otpInputs, kept (Script.verifyOTP email otpInputs))
    /\ kept Script.analyzeMedia
    /\ kept Script.initializeResultsPage
    /\ kept Script.analyzeAnother
    /\ (forall form, kept (Script.submitComplaint form))
    /\ (forall form, kept (Script.saveDraft form))
    /\ kept Script.logout
    /\ (forall file, kept (Script.handleFileSelection file))
    /\ (k = CONFIG.TOKEN_KEY -> localStorage w !! k = None ->
        forall email otpInputs page,
          let w1 := navigate page (snd (Script.verifyOTP email otpInputs w)) in
          AuthManager.isAuthenticated w1 = false /\ api_token w1 = JNull).
Proof.
  intros P k w Hu Hr Hd kept. unfold kept.
  split; [intros; apply Script_sendOTP_same_item; assumption|].
  split; [intros; apply Script_verifyOTP_same_item; assumption|].
  split; [apply Script_analyzeMedia_same_item; assumption|].
  split; [apply Script_initializeResultsPage_same_item; assumption|].
  split; [apply Script_analyzeAnother_same_item; assumption|].
  split; [intros; apply Script_submitComplaint_same_item; assumption|].
  split; [intros; apply Script_saveDraft_same_item; assumption|].
  split; [apply Script_logout_same_item; assumption|].
  split; [intros; apply Script_handleFileSelection_same_item; assumption|].
  intros Hk Hnone email otpInputs page. subst k.
  apply navigate_without_token.
  assert (Hkept : localStorage (snd (Script.verifyOTP email otpInputs w))
                    !! CONFIG.TOKEN_KEY
                  = localStorage w !! CONFIG.TOKEN_KEY)
    by (apply Script_verifyOTP_same_item; assumption).
  rewrite Hkept. exact Hnone.
Qed.

Lemma X19_witness :
  let w := set_network
             (answering (json_response 200
                           (JObj [("email", JStr "user@example.com");
                                  ("session_token", JStr "s3")])))
             (visitor "login.html" offline) in
  let w1 := snd (Script.verifyOTP "user@example.com" ["1"; "2"; "3"; "4"; "5"; "6"] w) in
  stored "deepshield_user" w1 = true
  /\ AuthManager.isAuthenticated (navigate "index.html" w1) = false.
Proof.
  intros w w1. split; [vm_compute; reflexivity|].
  pose proof (X19_script_js_writes_three_keys_only CONFIG.TOKEN_KEY w
                ltac:(discriminate) ltac:(discriminate) ltac:(discriminate)) as Hall.
  cbv zeta in Hall.
  destruct Hall as (_ & _ & _ & _ & _ & _ & _ & _ & _ & Hload).
  assert (Hnone : localStorage w !! CONFIG.TOKEN_KEY = None)
    by (vm_compute; reflexivity).
  pose proof (Hload eq_refl Hnone "user@example.com"
                ["1"; "2"; "3"; "4"; "5"; "6"] "index.html") as Hafter.
  cbv zeta in Hafter. destruct Hafter as [Hauth _]. exact Hauth.
Defined.

(** X20. The scripts of [js/] write three keys and no other:
    [deepshield_token], [deepshield_user] and [detection_result]. Every
    handler of [js/app.js], the expiry poll, the [storage] listener and
    a page load leave every other key as it was; a draft that
    [saveDraft] of [script.js] stored is still there after any of
    them. *)
Theorem X20_js_scripts_write_three_keys_only :
  forall `{Platform} (k : string) (w : World),
    k <> CONFIG.TOKEN_KEY -> k <> CONFIG.USER_KEY -> k <> "detection_result" ->
    let kept (m : M unit) := localStorage (snd (m w)) !! k = localStorage w !! k in
    (forall email, kept (DeepShieldApp.sendOTP email))
    /\ (forall email otpInputs, kept (DeepShieldApp.verifyOTP email otpInputs))
    /\ kept DeepShieldApp.analyzeMedia
    /\ kept DeepShieldApp.initResultsPage
    /\ kept DeepShieldApp.initDashboardPage
    /\ kept DeepShieldApp.initComplaintPage
    /\ kept DeepShieldApp.checkAPIHealth
    /\ kept DeepShieldApp.logout_confirmed
    /\ kept AuthManager.refresh_tick
    /\ (forall key, kept (AuthManager.on_storage key))
    /\ (forall page, localStorage (navigate page w) !! k = localStorage w !! k).
Proof.
  intros P k w Ht Hu Hr kept. unfold kept.
  split; [intros; apply App_sendOTP_same_item; assumption|].
  split; [intros; apply App_verifyOTP_same_item; assumption|].
  split; [apply App_analyzeMedia_same_item; assumption|].
  split; [apply App_initResultsPage_same_item; assumption|].
  split; [apply App_initDashboardPage_same_item; assumption|].
  split; [apply App_initComplaintPage_same_item; assumption|].
  split; [apply App_checkAPIHealth_same_item; assumption|].
  split; [apply App_logout_same_item; assumption|].
  split; [apply refresh_tick_same_item; assumption|].
  split; [intros; apply on_storage_same_item; assumption|].
  intros page. unfold navigate.
  rewrite (load_scripts_same_item k Ht Hu (new_page page w)). reflexivity.
Qed.

Lemma X20_witness :
  let w := snd (Script.saveDraft complaint_form
                  (member token_exp_1700000000 1699999999000)) in
  stored "complaint_draft" w = true
  /\ localStorage (snd (DeepShieldApp.logout_confirmed w)) !! "complaint_draft"
     = localStorage w !! "complaint_draft".
Proof.
  intros w. split; [vm_compute; reflexivity|].
  pose proof (X20_js_scripts_write_three_keys_only "complaint_draft" w
                ltac:(discriminate) ltac:(discriminate) ltac:(discriminate)) as Hall.
  cbv zeta in Hall.
  destruct Hall as (_ & _ & _ & _ & _ & _ & _ & Hlogout & _).
  exact Hlogout.
Defined.
